(** * ai_open_datasus: the SRAG report pipeline

    A shallow embedding of the pipeline orchestration of
    [src/graph.py] (the [FinancialReportWorkflow] class), of the agent
    wrappers of [src/agents/*.py], of the seven tools the stages run
    ([src/tools/*.py]) and of the earlier entry point [src/old_main.py],
    followed by the properties of the specification that concern them
    and by further properties of all stages.

    Python values are modelled as the code has them: the workflow state is
    a [dict] from [str] to [Optional[str]] (an association list, which keeps
    the insertion order of a Python dict), exceptions are values of an
    error monad, and everything outside the process (file system, network,
    configuration file, clock) is a field of a [World] record. Logging
    ([setup_logging] and the [logging] calls) is left out: it does not
    change what a function returns or raises. *)

From Stdlib Require Import ZArith List String Ascii Bool Lia Floats Uint63.
Import ListNotations.
Open Scope string_scope.
Open Scope Z_scope.

(** ** Python values, exceptions and dictionaries *)

Module Py.

(** A raised exception: its class name and its message. An exception is
    recorded under the class the handlers of the program know it by (an
    exception of [requests] is a [RequestException]). *)
Record exn : Type := Exn { exn_class : string; exn_msg : string }.

(** [TypeError] of [None["key"]]. *)
Definition TypeError_NoneType : exn :=
  Exn "TypeError" "'NoneType' object is not subscriptable".

Definition KeyError (k : string) : exn := Exn "KeyError" k.

Definition ValueError (msg : string) : exn := Exn "ValueError" msg.

Definition FileNotFoundError (path : string) : exn :=
  Exn "FileNotFoundError" path.

Definition OSError (path : string) : exn := Exn "OSError" path.

Definition exn_eqb (a b : exn) : bool :=
  String.eqb (exn_class a) (exn_class b) && String.eqb (exn_msg a) (exn_msg b).

Definition is_class (c : string) (e : exn) : bool := String.eqb (exn_class e) c.

(** The result of evaluating an expression: a value or a raised exception. *)
Inductive res (A : Type) : Type :=
| Ret (a : A)
| Raise (e : exn).
Arguments Ret {A} a.
Arguments Raise {A} e.

Definition is_ret {A} (r : res A) : bool :=
  match r with Ret _ => true | Raise _ => false end.

(** Code that runs against a store [S] and may raise: the store survives
    the exception (a file written before the [raise] stays written). *)
Definition M (S A : Type) : Type := S -> res A * S.

Definition ret {S A} (a : A) : M S A := fun s => (Ret a, s).

Definition raise {S A} (e : exn) : M S A := fun s => (Raise e, s).

Definition bind {S A B} (m : M S A) (k : A -> M S B) : M S B :=
  fun s =>
    match m s with
    | (Ret a, s') => k a s'
    | (Raise e, s') => (Raise e, s')
    end.

Definition of_res {S A} (r : res A) : M S A := fun s => (r, s).

(** [try: m except <handled>: h] *)
Definition try_except {S A} (m : M S A) (handled : exn -> bool)
           (h : exn -> M S A) : M S A :=
  fun s =>
    match m s with
    | (Ret a, s') => (Ret a, s')
    | (Raise e, s') => if handled e then h e s' else (Raise e, s')
    end.

(** [Optional[str]]: [None] is Python's [None]. *)
Definition pyval : Type := option string.

(** A [dict] with [str] keys, in insertion order. *)
Definition pydict : Type := list (string * pyval).

Fixpoint dict_lookup (d : pydict) (k : string) : option pyval :=
  match d with
  | [] => None
  | (k', v) :: t => if String.eqb k' k then Some v else dict_lookup t k
  end.

(** [d.get(k)]: [None] for an absent key, and for a key bound to [None]. *)
Definition dict_get (d : pydict) (k : string) : pyval :=
  match dict_lookup d k with
  | Some v => v
  | None => None
  end.

(** [d[k] = v]: a present key keeps its position, a new key goes last. *)
Fixpoint dict_setitem (d : pydict) (k : string) (v : pyval) : pydict :=
  match d with
  | [] => [(k, v)]
  | (k', v') :: t =>
      if String.eqb k' k then (k', v) :: t else (k', v') :: dict_setitem t k v
  end.

(** [d[k]] *)
Definition dict_getitem (d : pydict) (k : string) : res pyval :=
  match dict_lookup d k with
  | Some v => Ret v
  | None => Raise (KeyError k)
  end.

(** [result[k]] where [result] is a [dict | None]. *)
Definition subscript (result : option pydict) (k : string) : res pyval :=
  match result with
  | None => Raise TypeError_NoneType
  | Some d => dict_getitem d k
  end.

Definition keys (d : pydict) : list string := map fst d.

Definition has_key (d : pydict) (k : string) : bool :=
  match dict_lookup d k with Some _ => true | None => false end.

(** Truth value of a dict ([if result:]): an empty dict is false. *)
Definition dict_truthy (d : pydict) : bool :=
  match d with [] => false | _ :: _ => true end.

(** Truth value of a [str]: the empty string is false. *)
Definition str_truthy (s : string) : bool :=
  match s with EmptyString => false | _ => true end.

End Py.
Import Py.

Declare Scope py_scope.
Delimit Scope py_scope with py.
Notation "x <- m ;; k" := (bind m (fun x => k))
  (at level 61, m at next level, right associativity) : py_scope.
Notation "m ;;; k" := (bind m (fun _ => k))
  (at level 61, right associativity) : py_scope.
Open Scope py_scope.

(** ** The graph library: a [StateGraph] over a state schema

    [langgraph] is not part of the repository. The model below is the part
    of its behaviour the workflow relies on: named nodes, directed edges,
    one channel per key of the state schema holding the last value written,
    a node that receives the current channel values as a fresh [dict] and
    whose returned [dict] is written back key by key once it has returned,
    and an exception of a node that ends [invoke] with that exception. *)

Module StateGraph.
Section WithStore.

Variable W : Type.

(** A node: a function from the state it is given to the state it returns. *)
Definition NodeFn : Type := pydict -> M W pydict.

Record t : Type := Build {
  schema : list string;
  nodes : list (string * NodeFn);
  entry_point : option string;
  edges : list (string * string)
}.

Definition END : string := "__end__".

Definition new (schema : list string) : t := Build schema [] None [].

Definition add_node (name : string) (fn : NodeFn) (g : t) : t :=
  Build (schema g) (nodes g ++ [(name, fn)]) (entry_point g) (edges g).

Definition set_entry_point (name : string) (g : t) : t :=
  Build (schema g) (nodes g) (Some name) (edges g).

Definition add_edge (src dst : string) (g : t) : t :=
  Build (schema g) (nodes g) (entry_point g) (edges g ++ [(src, dst)]).

Fixpoint assoc {A} (l : list (string * A)) (k : string) : option A :=
  match l with
  | [] => None
  | (k', a) :: t => if String.eqb k' k then Some a else assoc t k
  end.

(** The value a node or the caller sees: the channels that hold a value,
    in the order of the schema. *)
Definition read_channels (sch : list string) (channels : pydict) : pydict :=
  flat_map (fun k => match dict_lookup channels k with
                     | Some v => [(k, v)]
                     | None => []
                     end) sch.

(** The writes of a returned dict: one per key of the schema it holds. *)
Definition apply_writes (sch : list string) (channels update : pydict) : pydict :=
  fold_left (fun c kv =>
               if existsb (String.eqb (fst kv)) sch
               then dict_setitem c (fst kv) (snd kv) else c)
            update channels.

(** What an observer of a run sees: a node is entered, and it either
    leaves (it returned) or aborts the run (it raised). *)
Inductive event : Type :=
| Enter (node : string)
| Leave (node : string)
| Abort (node : string) (e : exn).

Record outcome : Type := Outcome {
  result : res pydict;       (* what [invoke] returns or raises *)
  accumulator : pydict;      (* the channels when the run ended *)
  trace : list event;
  world : W
}.

Definition GraphRecursionError : exn :=
  Exn "GraphRecursionError" "Recursion limit reached".

Definition add_events (evs : list event) (o : outcome) : outcome :=
  Outcome (result o) (accumulator o) (evs ++ trace o) (world o).

(** One node per step, following the edge that leaves it, until [END] or
    until the step limit is reached. *)
Fixpoint run_from (limit : nat) (g : t) (cur : string)
         (channels : pydict) (w : W) : outcome :=
  if String.eqb cur END
  then Outcome (Ret (read_channels (schema g) channels)) channels [] w
  else
    match limit with
    | O => Outcome (Raise GraphRecursionError) channels [] w
    | S limit' =>
        match assoc (nodes g) cur with
        | None => Outcome (Raise (ValueError cur)) channels [] w
        | Some fn =>
            match fn (read_channels (schema g) channels) w with
            | (Raise e, w') =>
                Outcome (Raise e) channels [Enter cur; Abort cur e] w'
            | (Ret st, w') =>
                let channels' := apply_writes (schema g) channels st in
                match assoc (edges g) cur with
                | None =>
                    Outcome (Ret (read_channels (schema g) channels'))
                            channels' [Enter cur; Leave cur] w'
                | Some next =>
                    add_events [Enter cur; Leave cur]
                               (run_from limit' g next channels' w')
                end
            end
        end
    end.

(** The default [recursion_limit] of [invoke]. *)
Definition recursion_limit : nat := 25.

(** [graph.invoke(input)], with everything an observer can see. *)
Definition invoke_observed (g : t) (input : pydict) (w : W) : outcome :=
  match entry_point g with
  | None => Outcome (Raise (ValueError "no entry point")) [] [] w
  | Some start =>
      run_from recursion_limit g start (apply_writes (schema g) [] input) w
  end.

(** [graph.invoke(input)] as the caller has it. *)
Definition invoke (g : t) (input : pydict) : M W pydict :=
  fun w => let o := invoke_observed g input w in (result o, world o).

(** A run of the nodes [ns] one after the other: what [run_from] does on
    a graph whose edges chain [ns] from the entry point to [END]. *)
Fixpoint run_chain (sch : list string) (ns : list (string * NodeFn))
         (channels : pydict) (w : W) : outcome :=
  match ns with
  | [] => Outcome (Ret (read_channels sch channels)) channels [] w
  | (name, fn) :: rest =>
      match fn (read_channels sch channels) w with
      | (Raise e, w') => Outcome (Raise e) channels [Enter name; Abort name e] w'
      | (Ret st, w') =>
          add_events [Enter name; Leave name]
                     (run_chain sch rest (apply_writes sch channels st) w')
      end
  end.

(** The events of nodes that were entered and left, one after the other. *)
Definition completed (names : list string) : list event :=
  flat_map (fun n => [Enter n; Leave n]) names.

End WithStore.
End StateGraph.

(** ** The workflow of [graph.py] *)

(** The agents the nodes instantiate and run. Each field is the call
    [Agent(arguments).run()]: it returns the agent's [dict | None], or raises
    what the constructor or [run] raises. The workflow is written over any
    such agents, so that the stages can be replaced by stubs. *)
Record Agents (W : Type) : Type := {
  DataDownloaderAgent : M W (option pydict);
  DataPreprocessorAgent : pyval -> M W (option pydict);
  MetricsCalculatorAgent : pyval -> M W (option pydict);
  VisualizationsAgent : pyval -> M W (option pydict);
  NewsCollectorAgent : M W (option pydict);
  ReportGeneratorAgent : pyval -> pyval -> pyval -> pyval -> M W (option pydict);
  FinalReportGeneratorAgent :
    pyval -> pyval -> pyval -> pyval -> pyval -> pyval -> M W (option pydict)
}.
Arguments DataDownloaderAgent {W}.
Arguments DataPreprocessorAgent {W}.
Arguments MetricsCalculatorAgent {W}.
Arguments VisualizationsAgent {W}.
Arguments NewsCollectorAgent {W}.
Arguments ReportGeneratorAgent {W}.
Arguments FinalReportGeneratorAgent {W}.

Module FinancialReportWorkflow.

(** The keys of [class AgentState(TypedDict)], in the order of the class. *)
Definition AgentState : list string :=
  [ "downloaded_file_path";
    "metadata_file_path";
    "processed_data_file_path";
    "metrics_file_path";
    "periods_file_path";
    "last_30_days_json_file_path";
    "last_12_months_json_file_path";
    "last_30_days_plot_file_path";
    "last_12_months_plot_file_path";
    "news_file_path";
    "report_file_path";
    "final_report_file_path" ].

(** The names of the nodes, in the order of the edges of [_build_graph]. *)
Definition chain : list string :=
  [ "data_downloader";
    "data_preprocessor";
    "metrics_calculator";
    "visualizations";
    "news_collector";
    "report_generator";
    "final_report_generator" ].

(** The keys a node assigns in [state] ([state[k] = result[k]]). *)
Definition output_keys (node : string) : list string :=
  if String.eqb node "data_downloader" then
    ["downloaded_file_path"; "metadata_file_path"]
  else if String.eqb node "data_preprocessor" then
    ["processed_data_file_path"]
  else if String.eqb node "metrics_calculator" then
    ["periods_file_path"; "metrics_file_path"]
  else if String.eqb node "visualizations" then
    ["last_30_days_json_file_path"; "last_30_days_plot_file_path";
     "last_12_months_json_file_path"; "last_12_months_plot_file_path"]
  else if String.eqb node "news_collector" then
    ["news_file_path"]
  else if String.eqb node "report_generator" then
    ["report_file_path"]
  else if String.eqb node "final_report_generator" then
    ["final_report_file_path"]
  else [].


Section WithAgents.

Variable W : Type.
Variable agents : Agents W.

(** The body of a node method runs against the [state] dict it was handed,
    which it changes in place, and the world. *)
Definition body (A : Type) : Type := M (pydict * W) A.

(** [state.get(k)] *)
Definition state_get (k : string) : body pyval :=
  fun s => (Ret (dict_get (fst s) k), s).

(** [state[k] = v] *)
Definition state_setitem (k : string) (v : pyval) : body unit :=
  fun s => (Ret tt, (dict_setitem (fst s) k v, snd s)).

(** A call that does not touch [state]. *)
Definition call {A} (m : M W A) : body A :=
  fun s => let (r, w') := m (snd s) in (r, (fst s, w')).

Definition _node_data_downloader : body unit :=
  result <- call (DataDownloaderAgent agents) ;;
  v <- of_res (subscript result "downloaded_file_path") ;;
  state_setitem "downloaded_file_path" v ;;;
  v <- of_res (subscript result "metadata_file_path") ;;
  state_setitem "metadata_file_path" v.

Definition _node_data_preprocessor : body unit :=
  p <- state_get "downloaded_file_path" ;;
  result <- call (DataPreprocessorAgent agents p) ;;
  v <- of_res (subscript result "processed_data_file_path") ;;
  state_setitem "processed_data_file_path" v.

Definition _node_metrics_calculator : body unit :=
  p <- state_get "processed_data_file_path" ;;
  result <- call (MetricsCalculatorAgent agents p) ;;
  v <- of_res (subscript result "periods_file_path") ;;
  state_setitem "periods_file_path" v ;;;
  v <- of_res (subscript result "metrics_file_path") ;;
  state_setitem "metrics_file_path" v.

Definition _node_visualizations : body unit :=
  p <- state_get "processed_data_file_path" ;;
  result <- call (VisualizationsAgent agents p) ;;
  v <- of_res (subscript result "last_30_days_json_file_path") ;;
  state_setitem "last_30_days_json_file_path" v ;;;
  v <- of_res (subscript result "last_30_days_plot_file_path") ;;
  state_setitem "last_30_days_plot_file_path" v ;;;
  v <- of_res (subscript result "last_12_months_json_file_path") ;;
  state_setitem "last_12_months_json_file_path" v ;;;
  v <- of_res (subscript result "last_12_months_plot_file_path") ;;
  state_setitem "last_12_months_plot_file_path" v.

Definition _node_news_collector : body unit :=
  result <- call (NewsCollectorAgent agents) ;;
  v <- of_res (subscript result "news_file_path") ;;
  state_setitem "news_file_path" v.

Definition _node_report_generator : body unit :=
  a <- state_get "metrics_file_path" ;;
  b <- state_get "last_30_days_json_file_path" ;;
  c <- state_get "last_12_months_json_file_path" ;;
  d <- state_get "news_file_path" ;;
  result <- call (ReportGeneratorAgent agents a b c d) ;;
  v <- of_res (subscript result "report_file_path") ;;
  state_setitem "report_file_path" v.

Definition _node_final_report_generator : body unit :=
  a <- state_get "metadata_file_path" ;;
  b <- state_get "periods_file_path" ;;
  c <- state_get "metrics_file_path" ;;
  d <- state_get "report_file_path" ;;
  e <- state_get "last_30_days_plot_file_path" ;;
  f <- state_get "last_12_months_plot_file_path" ;;
  result <- call (FinalReportGeneratorAgent agents a b c d e f) ;;
  v <- of_res (subscript result "final_report_file_path") ;;
  state_setitem "final_report_file_path" v.

(** The agent call of a node, with the arguments the node reads from
    [state]. *)
Definition stage_call (name : string) (state : pydict) : M W (option pydict) :=
  if String.eqb name "data_downloader" then DataDownloaderAgent agents
  else if String.eqb name "data_preprocessor" then
    DataPreprocessorAgent agents (dict_get state "downloaded_file_path")
  else if String.eqb name "metrics_calculator" then
    MetricsCalculatorAgent agents (dict_get state "processed_data_file_path")
  else if String.eqb name "visualizations" then
    VisualizationsAgent agents (dict_get state "processed_data_file_path")
  else if String.eqb name "news_collector" then NewsCollectorAgent agents
  else if String.eqb name "report_generator" then
    ReportGeneratorAgent agents
      (dict_get state "metrics_file_path")
      (dict_get state "last_30_days_json_file_path")
      (dict_get state "last_12_months_json_file_path")
      (dict_get state "news_file_path")
  else if String.eqb name "final_report_generator" then
    FinalReportGeneratorAgent agents
      (dict_get state "metadata_file_path")
      (dict_get state "periods_file_path")
      (dict_get state "metrics_file_path")
      (dict_get state "report_file_path")
      (dict_get state "last_30_days_plot_file_path")
      (dict_get state "last_12_months_plot_file_path")
  else ret None.

(** [state[k] = result[k]] for each [k] of [ks], in order. *)
Fixpoint copy_keys (result : option pydict) (ks : list string) : body unit :=
  match ks with
  | [] => ret tt
  | k :: rest =>
      v <- of_res (subscript result k) ;;
      state_setitem k v ;;;
      copy_keys result rest
  end.

(** The shape every node method has: run the agent, copy its keys. *)
Definition node_shape (name : string) : body unit :=
  fun s =>
    (result <- call (stage_call name (fst s)) ;;
     copy_keys result (output_keys name)) s.

(** A node method as the graph calls it: [return state] hands back the
    dict the body changed; when the body raises, the dict it was changing
    is lost with the call. *)
Definition as_node (b : body unit) : StateGraph.NodeFn W :=
  fun st w =>
    match b (st, w) with
    | (Ret _, (st', w')) => (Ret st', w')
    | (Raise e, (_, w')) => (Raise e, w')
    end.

(** The method of a node, by the name it is added under. *)
Definition node_body (name : string) : option (body unit) :=
  if String.eqb name "data_downloader" then Some _node_data_downloader
  else if String.eqb name "data_preprocessor" then Some _node_data_preprocessor
  else if String.eqb name "metrics_calculator" then Some _node_metrics_calculator
  else if String.eqb name "visualizations" then Some _node_visualizations
  else if String.eqb name "news_collector" then Some _node_news_collector
  else if String.eqb name "report_generator" then Some _node_report_generator
  else if String.eqb name "final_report_generator"
       then Some _node_final_report_generator
  else None.

Definition _build_graph : StateGraph.t W :=
  let workflow := StateGraph.new W AgentState in
  let workflow := StateGraph.add_node W "data_downloader"
                    (as_node _node_data_downloader) workflow in
  let workflow := StateGraph.add_node W "data_preprocessor"
                    (as_node _node_data_preprocessor) workflow in
  let workflow := StateGraph.add_node W "metrics_calculator"
                    (as_node _node_metrics_calculator) workflow in
  let workflow := StateGraph.add_node W "visualizations"
                    (as_node _node_visualizations) workflow in
  let workflow := StateGraph.add_node W "news_collector"
                    (as_node _node_news_collector) workflow in
  let workflow := StateGraph.add_node W "report_generator"
                    (as_node _node_report_generator) workflow in
  let workflow := StateGraph.add_node W "final_report_generator"
                    (as_node _node_final_report_generator) workflow in
  let workflow := StateGraph.set_entry_point W "data_downloader" workflow in
  let workflow := StateGraph.add_edge W "data_downloader" "data_preprocessor"
                    workflow in
  let workflow := StateGraph.add_edge W "data_preprocessor" "metrics_calculator"
                    workflow in
  let workflow := StateGraph.add_edge W "metrics_calculator" "visualizations"
                    workflow in
  let workflow := StateGraph.add_edge W "visualizations" "news_collector"
                    workflow in
  let workflow := StateGraph.add_edge W "news_collector" "report_generator"
                    workflow in
  let workflow := StateGraph.add_edge W "report_generator"
                    "final_report_generator" workflow in
  let workflow := StateGraph.add_edge W "final_report_generator"
                    (StateGraph.END) workflow in
  workflow.

(** The nodes in the order of [chain]. *)
Definition stages : list (string * StateGraph.NodeFn W) :=
  [ ("data_downloader", as_node _node_data_downloader);
    ("data_preprocessor", as_node _node_data_preprocessor);
    ("metrics_calculator", as_node _node_metrics_calculator);
    ("visualizations", as_node _node_visualizations);
    ("news_collector", as_node _node_news_collector);
    ("report_generator", as_node _node_report_generator);
    ("final_report_generator", as_node _node_final_report_generator) ].

(** The nodes of a chain are node methods, each under its own name. *)
Definition node_methods (ns : list (string * StateGraph.NodeFn W)) : Prop :=
  Forall (fun nf => exists b, node_body (fst nf) = Some b
                              /\ snd nf = as_node b) ns.

(** The run of the first [k] stages from the empty state. *)
Definition run_prefix (k : nat) (w : W) : StateGraph.outcome W :=
  StateGraph.run_chain W AgentState (firstn k stages) [] w.

(** [run]: the workflow from the empty initial state. *)
Definition run : M W pydict :=
  let initial_state : pydict := [] in
  StateGraph.invoke W _build_graph initial_state.

(** The same run with what an observer of the graph sees. *)
Definition run_observed (w : W) : StateGraph.outcome W :=
  StateGraph.invoke_observed W _build_graph [] w.

End WithAgents.
End FinancialReportWorkflow.

(** ** Data frames

    A [pandas.DataFrame] as the tools use it: named columns and rows of
    cells. A cell read from a CSV is a number, a string or missing; a cell
    of a date column is a timestamp (microseconds since the epoch) or [NaT]. *)

Module DataFrame.

Inductive cell : Type :=
| NaN
| Num (f : float)
| Str (s : string)
| Timestamp (t : Z)
| NaT.

Definition row : Type := list (string * cell).

Record t : Type := Build { columns : list string; rows : list row }.

(** [pd.DataFrame()] *)
Definition new : t := Build [] [].

(** [df.empty]: some axis has length 0. *)
Definition empty (df : t) : bool :=
  match columns df, rows df with
  | [], _ => true
  | _, [] => true
  | _, _ => false
  end.

(** [df.shape[0]] *)
Definition shape0 (df : t) : Z := Z.of_nat (List.length (rows df)).

Fixpoint row_lookup (r : row) (c : string) : option cell :=
  match r with
  | [] => None
  | (c', x) :: t => if String.eqb c' c then Some x else row_lookup t c
  end.

Definition row_get (r : row) (c : string) : cell :=
  match row_lookup r c with Some x => x | None => NaN end.

Definition has_column (df : t) (c : string) : bool :=
  existsb (String.eqb c) (columns df).

(** [df[c]]: the column as a function of the row, [KeyError] when the
    frame has no such column. *)
Definition getitem (df : t) (c : string) : res (row -> cell) :=
  if has_column df c then Ret (fun r => row_get r c) else Raise (KeyError c).

(** [df[mask]] *)
Definition select (mask : row -> bool) (df : t) : t :=
  Build (columns df) (filter mask (rows df)).

(** [series.isin(values)] on one cell. *)
Definition isin (values : list string) (x : cell) : bool :=
  match x with
  | Str s => existsb (String.eqb s) values
  | _ => false
  end.

(** [series == value] on one cell, for a string [value]. *)
Definition eq_str (value : string) (x : cell) : bool :=
  match x with
  | Str s => String.eqb s value
  | _ => false
  end.

(** [(series >= lo) & (series <= hi)] on one cell: a comparison with
    [NaT] is false. *)
Definition between (lo hi : Z) (x : cell) : bool :=
  match x with
  | Timestamp t => (lo <=? t) && (t <=? hi)
  | _ => false
  end.

Definition isna (x : cell) : bool :=
  match x with NaN | NaT => true | _ => false end.

Definition map_cell (c : string) (f : cell -> cell) (r : row) : row :=
  map (fun kv => if String.eqb (fst kv) c then (fst kv, f (snd kv)) else kv) r.

(** [df[c] = df[c].<f>] *)
Definition map_column (c : string) (f : cell -> cell) (df : t) : t :=
  Build (columns df) (map (map_cell c f) (rows df)).

(** [df.rename(columns={old: new})] *)
Definition rename (old new : string) (df : t) : t :=
  let rn := fun c => if String.eqb c old then new else c in
  Build (map rn (columns df))
        (map (map (fun kv => (rn (fst kv), snd kv))) (rows df)).

(** [df.dropna(subset=[c])]: the rows whose cell in [c] is not missing;
    when [c] is no column, the [KeyError] of the list of the labels that
    are missing, as Python prints it. *)
Definition dropna (c : string) (df : t) : res t :=
  if has_column df c
  then Ret (select (fun r => negb (isna (row_get r c))) df)
  else Raise (KeyError ("['" ++ c ++ "']")).

(** [df[cols].copy()] *)
Definition project (cols : list string) (df : t) : t :=
  Build cols (map (fun r => map (fun c => (c, row_get r c)) cols) (rows df)).

End DataFrame.

(** ** Floating-point numbers and JSON documents *)

Module PyFloat.

(** [float(z)] for an [int] below [2^53] in absolute value. *)
Definition of_int (z : Z) : float :=
  if z <? 0 then PrimFloat.opp (PrimFloat.of_uint63 (Uint63.of_Z (- z)))
  else PrimFloat.of_uint63 (Uint63.of_Z z).

Definition ZeroDivisionError : exn := Exn "ZeroDivisionError" "division by zero".

(** [a / b] on two [int]s (exact below [2^53]). *)
Definition truediv (a b : Z) : res float :=
  if b =? 0 then Raise ZeroDivisionError
  else Ret (PrimFloat.div (of_int a) (of_int b)).

(** [x * n] for a float [x] and an [int] [n]. *)
Definition mul_int (x : float) (n : Z) : float := PrimFloat.mul x (of_int n).

(** [float("inf")] *)
Definition inf : float := PrimFloat.infinity.

(** The literal [0.0]. *)
Definition zero : float := PrimFloat.zero.

(** The integer nearest to [num / den], halves to even ([den > 0]). *)
Definition div_half_even (num den : Z) : Z :=
  let q := num / den in
  let r := num mod den in
  if 2 * r <? den then q
  else if den <? 2 * r then q + 1
  else if Z.even q then q else q + 1.

(** [round(x, 2)]: the float nearest to the exact value of [x] rounded to
    two decimal places, halves to even; infinities, NaN and floats that
    hold an integer are returned as they are. Exact while the rounded
    value times 100 is below [2^53]. *)
Definition round2 (x : float) : float :=
  match Prim2SF x with
  | SpecFloat.S754_finite s m e =>
      if 0 <=? e then x
      else
        let n := div_half_even (Z.pos m * 100) (2 ^ (- e)) in
        let r := PrimFloat.div (of_int n) (of_int 100) in
        if s then PrimFloat.opp r else r
  | _ => x
  end.

End PyFloat.

#[warnings="-register-all"]
Inductive json : Type :=
| JNull
| JStr (s : string)
| JNum (f : float)
| JArr (l : list json)
| JObj (l : list (string * json)).

(** ** Python values and strings

    A JSON value as Python holds it after [json.load], and the methods of
    [dict] and [str] the tools call on such values. *)

Module PyJson.

#[warnings="-register-all"]
Inductive value : Type :=
| VNone
| VBool (b : bool)
| VNum (f : float)
| VStr (s : string)
| VList (l : list value)
| VDict (l : list (string * value)).

(** The truth value of [v] ([if v:]). *)
Definition truthy (v : value) : bool :=
  match v with
  | VNone => false
  | VBool b => b
  | VNum f => negb (PrimFloat.eqb f 0)
  | VStr s => str_truthy s
  | VList l => match l with [] => false | _ :: _ => true end
  | VDict l => match l with [] => false | _ :: _ => true end
  end.

Fixpoint lookup (d : list (string * value)) (k : string) : option value :=
  match d with
  | [] => None
  | (k', v) :: t => if String.eqb k' k then Some v else lookup t k
  end.

Definition rbind {A B} (r : res A) (k : A -> res B) : res B :=
  match r with
  | Ret a => k a
  | Raise e => Raise e
  end.

Definition AttributeError (what : string) : exn := Exn "AttributeError" what.

Definition TypeError_not_iterable : exn :=
  Exn "TypeError" "object is not iterable".

(** [d.get(key, default)] on a dict. *)
Definition dict_get_default (d : list (string * value)) (key : string)
           (default : value) : value :=
  match lookup d key with
  | Some v => v
  | None => default
  end.

(** [item.get(key, default)]: only a dict has [get]. *)
Definition get (item : value) (key : string) (default : value) : res value :=
  match item with
  | VDict d => Ret (dict_get_default d key default)
  | _ => Raise (AttributeError "get")
  end.

Definition is_dict (v : value) : bool :=
  match v with VDict _ => true | _ => false end.

Fixpoint chars (s : string) : list value :=
  match s with
  | EmptyString => []
  | String c t => VStr (String c EmptyString) :: chars t
  end.

(** [for item in v]: the items of a list, the keys of a dict, the
    characters of a string. *)
Definition iterate (v : value) : res (list value) :=
  match v with
  | VList l => Ret l
  | VDict d => Ret (map (fun kv => VStr (fst kv)) d)
  | VStr s => Ret (chars s)
  | _ => Raise TypeError_not_iterable
  end.

End PyJson.

Module PyStr.

(** [s.startswith(p)] *)
Fixpoint starts_with (p s : string) : bool :=
  match p, s with
  | EmptyString, _ => true
  | String a p', String b s' => Ascii.eqb a b && starts_with p' s'
  | String _ _, EmptyString => false
  end.

(** The scan of [str.replace] for a non-empty [old]: [skip] characters of
    a match are still to be passed over. *)
Fixpoint replace_scan (old new s : string) (skip : nat) : string :=
  match s with
  | EmptyString => EmptyString
  | String c t =>
      match skip with
      | S k => replace_scan old new t k
      | O =>
          if starts_with old s
          then new ++ replace_scan old new t (String.length old - 1)
          else String c (replace_scan old new t 0)
      end
  end.

(** For an empty [old], [new] goes before every character and at the end. *)
Fixpoint intersperse (new s : string) : string :=
  match s with
  | EmptyString => new
  | String c t => new ++ String c (intersperse new t)
  end.

(** [s.replace(old, new)] *)
Definition str_replace (s old new : string) : string :=
  match old with
  | EmptyString => intersperse new s
  | String _ _ => replace_scan old new s 0
  end.

End PyStr.

(** ** The world outside the process *)

(** The sections of [conf/parameters.yaml] the tools read, with the
    entries the tools themselves use. *)
Module Config.

Record downloader_config : Type := {
  days_to_try : nat;
  base_url : string
}.

Record file_output : Type := {
  destination_folder : string;
  destination_filename : string
}.

Record preprocessing : Type := {
  output_folder : string;
  output_filename : string;
  columns_to_keep : list string
}.

Record output_dir_section : Type := { output_dir : string }.

(** [news_config]: the entries the tool reads after the search; the search
    terms and parameters go to the API. *)
Module News.
Record t : Type := { output_dir : string; output_filename : string }.
End News.

(** [report_generator_config]: the entries the tool reads itself; the
    model, the system prompt, the temperature and the token limit go to
    the API with the prompt. *)
Module Report.
Record t : Type := {
  prompt_file : string;
  output_dir : string;
  output_filename : string
}.
End Report.

(** [final_report_config]: its entry [paths], a dict of path strings. *)
Module Final.
Record t : Type := { paths : list (string * string) }.
End Final.

Record t : Type := {
  get_downloader_config : option downloader_config;
  get_file_output : option file_output;
  get_preprocessing : option preprocessing;
  get_metrics_calculator : option output_dir_section;
  get_visualizations_tool : option output_dir_section;
  get_news_config : option News.t;
  get_report_generator_config : option Report.t;
  get_final_report_config : option Final.t
}.

(** What [yaml.safe_load] returns for the file: a mapping with its
    sections, or a value that is no mapping ([None] for an empty file, a
    scalar, a list). Subscripting such a value with the name of a section
    raises [TypeError], with a message that depends on the value and is
    kept here. *)
Inductive doc : Type :=
| Mapping (c : t)
| NotMapping (message : string).

(** An empty file: [yaml.safe_load] returns [None]. *)
Definition empty_file : doc :=
  NotMapping "'NoneType' object is not subscriptable".

(** [config[name]], where [get] reads the section [name] of a mapping. *)
Definition section {A} (name : string) (get : t -> option A) (config : doc)
  : res A :=
  match config with
  | Mapping c =>
      match get c with
      | Some a => Ret a
      | None => Raise (KeyError name)
      end
  | NotMapping message => Raise (Exn "TypeError" message)
  end.

End Config.

(** What a file holds. *)
Inductive filedata : Type :=
| FBytes (content : string)
| FCsv (df : DataFrame.t)
| FJson (j : json)
| FPlot (title : string).

(** An HTTP response to a request made with [stream=True]: the status is
    there when [requests.get] returns, the body is read when [content] is
    first asked for, and that reading can raise. *)
Record response : Type := { status_code : Z; content : res string }.

(** The world: what the environment answers (the first group of fields
    never changes during a run), the library functions that are left
    abstract, and the files written so far. *)
Record World : Type := {
  (* the environment *)
  config_file : res Config.doc;            (* what [load_config()] returns or raises *)
  getenv : string -> option string;
  requests_get : string -> res response;   (* [requests.get(url, ...)] *)
  can_write : string -> bool;              (* may this path be opened for writing *)
  can_mkdir : string -> bool;              (* does [os.makedirs(path)] succeed *)
  read_csv : string -> res DataFrame.t;    (* [pd.read_csv(path, ...)] *)
  file_text : string -> res string;        (* [open(path, "r").read()] *)
  file_json : string -> res PyJson.value;  (* [json.load(open(path, "r"))] *)
  serper_results : res (list (string * PyJson.value));
                                           (* the answer of the news search *)
  chat_completion : string -> res pyval;   (* the answer of the model to a prompt *)
  pdf_story : string -> res string;        (* what the PDF step extracts from the HTML *)
  abspath : string -> string;              (* [Path.cwd() / Path(p)] *)
  copy_on_write : bool;                    (* does pandas copy on write (always from 3.0) *)
  today : Z;                               (* [date.today()], in days *)
  now : Z;                                 (* [datetime.now()], in microseconds *)
  (* library functions *)
  strftime : string -> Z -> string;         (* of a [datetime] *)
  strftime_date : string -> Z -> string;    (* of a [date] *)
  format_url : string -> string -> string -> string;  (* [base_url.format(year=, filename=)] *)
  to_datetime : DataFrame.cell -> option DataFrame.cell;
  month_start : Z -> Z;                    (* [replace(day=1, hour=0, minute=0, second=0, microsecond=0)] *)
  replace_day_1 : Z -> Z;                  (* [replace(day=1)] *)
  daily_counts : DataFrame.t -> json;      (* the records of the 30-day analysis *)
  monthly_counts : DataFrame.t -> json;    (* the records of the 12-month analysis *)
  json_dumps : list (list (string * PyJson.value)) -> string;
                                           (* [json.dump] of the formatted news *)
  json_reindent : string -> res string;    (* [json.dumps(json.loads(text), indent=2)] *)
  str_of_value : PyJson.value -> string;   (* [str(v)] *)
  (* the files written so far, latest first *)
  disk : list (string * filedata)
}.

Definition set_disk (d : list (string * filedata)) (w : World) : World :=
  {| config_file := config_file w; getenv := getenv w;
     requests_get := requests_get w; can_write := can_write w;
     can_mkdir := can_mkdir w; read_csv := read_csv w;
     file_text := file_text w; file_json := file_json w;
     serper_results := serper_results w;
     chat_completion := chat_completion w; pdf_story := pdf_story w;
     abspath := abspath w; copy_on_write := copy_on_write w;
     today := today w; now := now w; strftime := strftime w;
     strftime_date := strftime_date w; format_url := format_url w;
     to_datetime := to_datetime w; month_start := month_start w;
     replace_day_1 := replace_day_1 w; daily_counts := daily_counts w;
     monthly_counts := monthly_counts w; json_dumps := json_dumps w;
     json_reindent := json_reindent w; str_of_value := str_of_value w;
     disk := d |}.

Definition on_disk (w : World) (path : string) : bool :=
  existsb (fun kv => String.eqb (fst kv) path) (disk w).

(** The calls into the operating system and the libraries. *)
Module Os.

(** [load_config()] of [utils/utils.py]: the parsed file, or the
    exception of [open] or of the YAML parser, raised again. *)
Definition load_config : M World Config.doc := fun w => (config_file w, w).

(** [open(path, "w")] and a write of [data]. *)
Definition write_file (path : string) (data : filedata) : M World unit :=
  fun w =>
    if can_write w path
    then (Ret tt, set_disk ((path, data) :: disk w) w)
    else (Raise (OSError path), w).

(** [with open(path, "wb") as f: f.write(<data>)], where evaluating
    [<data>] can raise: the file is opened, and so emptied, before [<data>]
    is evaluated. *)
Definition write_evaluated (path : string) (data : res string) : M World unit :=
  fun w =>
    if can_write w path
    then match data with
         | Ret content => (Ret tt, set_disk ((path, FBytes content) :: disk w) w)
         | Raise e => (Raise e, set_disk ((path, FBytes "") :: disk w) w)
         end
    else (Raise (OSError path), w).

(** [os.makedirs(path, exist_ok=True)] *)
Definition makedirs (path : string) : M World unit :=
  fun w => if can_mkdir w path then (Ret tt, w) else (Raise (OSError path), w).

Definition ask {A} (f : World -> A) : M World A := fun w => (Ret (f w), w).

Fixpoint ends_with_slash (s : string) : bool :=
  match s with
  | EmptyString => false
  | String c EmptyString => Ascii.eqb c "/"%char
  | String _ t => ends_with_slash t
  end.

Definition starts_with_slash (s : string) : bool :=
  match s with
  | String c _ => Ascii.eqb c "/"%char
  | EmptyString => false
  end.

(** [os.path.join(a, b)] *)
Definition path_join (a b : string) : string :=
  if starts_with_slash b then b
  else if orb (String.eqb a "") (ends_with_slash a) then a ++ b
  else a ++ "/" ++ b.

(** The part of [s] before its last slash, if it has one. *)
Fixpoint before_last_slash (s : string) : option string :=
  match s with
  | EmptyString => None
  | String c t =>
      match before_last_slash t with
      | Some h => Some (String c h)
      | None => if Ascii.eqb c "/"%char then Some EmptyString else None
      end
  end.

(** [os.path.dirname(p)] for a path without repeated slashes. *)
Definition dirname (p : string) : string :=
  match before_last_slash p with
  | Some EmptyString => "/"
  | Some h => h
  | None => ""
  end.

(** [pd.read_csv(path, ...)]: pandas refuses [None] with a [ValueError]. *)
Definition pd_read_csv (path : pyval) : M World DataFrame.t :=
  fun w =>
    match path with
    | None => (Raise (ValueError "Invalid file path or buffer object type"), w)
    | Some p => (read_csv w p, w)
    end.

(** [pd.to_datetime(df[c])]: an unparsable cell raises. *)
Definition to_datetime_column (c : string) (df : DataFrame.t)
  : M World DataFrame.t :=
  fun w =>
    if forallb (fun r => match to_datetime w (DataFrame.row_get r c) with
                         | Some _ => true
                         | None => false
                         end) (DataFrame.rows df)
    then (Ret (DataFrame.map_column c
                 (fun x => match to_datetime w x with
                           | Some t => t
                           | None => DataFrame.NaT
                           end) df), w)
    else (Raise (ValueError "Unknown datetime string format"), w).

(** [pd.to_datetime(df[c], errors="coerce")]: an unparsable cell is [NaT]. *)
Definition to_datetime_coerce (c : string) (df : DataFrame.t)
  : M World DataFrame.t :=
  fun w =>
    (Ret (DataFrame.map_column c
            (fun x => match to_datetime w x with
                      | Some t => t
                      | None => DataFrame.NaT
                      end) df), w).

(** [timedelta(days=n)], in microseconds. *)
Definition timedelta_days (n : Z) : Z := n * 86400000000.

(** The exceptions of [except (IOError, OSError)]. *)
Definition is_OSError (e : exn) : bool :=
  is_class "OSError" e || is_class "IOError" e
  || is_class "FileNotFoundError" e || is_class "PermissionError" e
  || is_class "RequestException" e.

(** The exceptions of [except FileNotFoundError]. *)
Definition is_FileNotFoundError (e : exn) : bool := is_class "FileNotFoundError" e.

(** The exceptions of [except (FileNotFoundError, KeyError)]. *)
Definition is_config_error (e : exn) : bool :=
  is_class "FileNotFoundError" e || is_class "KeyError" e.

(** The exceptions of [except requests.exceptions.RequestException]. *)
Definition is_RequestException (e : exn) : bool := is_class "RequestException" e.

(** The exceptions of [except Exception]. *)
Definition is_Exception (e : exn) : bool :=
  negb (is_class "KeyboardInterrupt" e || is_class "SystemExit" e
        || is_class "GeneratorExit" e).

(** The exceptions of [except ValueError]. *)
Definition is_ValueError (e : exn) : bool := is_class "ValueError" e.

End Os.

(** ** The download stage: [tools/data_downloader.py], [agents/data_downloader.py] *)

Definition config_error_message : string :=
  "Erro de configuração impede a continuação.".

Module DataDownloaderTool.

Record t : Type := {
  downloader_cfg : Config.downloader_config;
  output_cfg : Config.file_output
}.

Definition __init__ : M World t :=
  try_except
    (config <- Os.load_config ;;
     d <- of_res (Config.section "downloader_config"
                    Config.get_downloader_config config) ;;
     o <- of_res (Config.section "file_output" Config.get_file_output config) ;;
     ret {| downloader_cfg := d; output_cfg := o |})
    Os.is_config_error
    (fun _ => raise (ValueError config_error_message)).

Record link_info : Type := { date : Z; filename : string; url : string }.

Definition _generate_download_links (self : t) : M World (list link_info) :=
  fun w =>
    let today := today w in
    let days_to_check := Config.days_to_try (downloader_cfg self) in
    let base_url := Config.base_url (downloader_cfg self) in
    (Ret (map (fun i =>
                 let current_date := today - Z.of_nat i in
                 let date_str := strftime_date w "%d-%m-%Y" current_date in
                 let year_str := strftime_date w "%Y" current_date in
                 let year_short := strftime_date w "%y" current_date in
                 let filename := "INFLUD" ++ year_short ++ "-" ++ date_str ++ ".csv" in
                 {| date := current_date;
                    filename := filename;
                    url := format_url w base_url year_str filename |})
              (seq 0 days_to_check)), w).

Definition _download_and_save_file (url save_path : string) : M World bool :=
  try_except
    (response <- (fun w => (requests_get w url, w)) ;;
     if status_code response =? 200 then
       Os.write_evaluated save_path (content response) ;;;
       ret true
     else ret false)
    Os.is_RequestException
    (fun _ => ret false).

Definition _save_metadata (dest_folder : string) (file_date : Z) : M World pyval :=
  try_except
    (formatted_timestamp <- Os.ask (fun w => strftime w "%Y-%m-%d %H:%M:%S" (now w)) ;;
     file_date_str <- Os.ask (fun w => strftime_date w "%d-%m-%Y" file_date) ;;
     let metadata := JObj [("update_date", JStr formatted_timestamp);
                           ("date_last_file", JStr file_date_str)] in
     let metadata_path := Os.path_join dest_folder "metadata.json" in
     Os.write_file metadata_path (FJson metadata) ;;;
     ret (Some metadata_path))
    Os.is_OSError
    (fun _ => ret None).

(** The [for link_info in links_to_try] loop of [run_download_process]. *)
Fixpoint try_links (links_to_try : list link_info)
         (dest_folder full_save_path : string) : M World (option pydict) :=
  match links_to_try with
  | [] => ret None
  | link_info :: rest =>
      ok <- _download_and_save_file (url link_info) full_save_path ;;
      if ok then
        metadata_path <- _save_metadata dest_folder (date link_info) ;;
        ret (Some [("downloaded_file_path", Some full_save_path);
                   ("metadata_file_path", metadata_path)])
      else try_links rest dest_folder full_save_path
  end.

Definition run_download_process (self : t) : M World (option pydict) :=
  let dest_folder := Config.destination_folder (output_cfg self) in
  Os.makedirs dest_folder ;;;
  let full_save_path :=
    Os.path_join dest_folder (Config.destination_filename (output_cfg self)) in
  links_to_try <- _generate_download_links self ;;
  try_links links_to_try dest_folder full_save_path.

End DataDownloaderTool.

(** [if result: return result else: return None] for a [dict | None]. *)
Definition dict_or_None (result : option pydict) : option pydict :=
  match result with
  | Some d => if dict_truthy d then Some d else None
  | None => None
  end.

(** [if path: return {key: path} else: return None] for a [str | None]. *)
Definition path_or_None (key : string) (path : pyval) : option pydict :=
  match path with
  | Some p => if str_truthy p then Some [(key, Some p)] else None
  | None => None
  end.

Module DataDownloaderAgent.

Record t : Type := { downloader_tool : DataDownloaderTool.t }.

Definition __init__ : M World t :=
  try_except
    (tool <- DataDownloaderTool.__init__ ;;
     ret {| downloader_tool := tool |})
    Os.is_ValueError
    (fun e => raise e).

Definition run (self : t) : M World (option pydict) :=
  result <- DataDownloaderTool.run_download_process (downloader_tool self) ;;
  ret (dict_or_None result).

End DataDownloaderAgent.

(** ** The preprocess stage: [tools/data_preprocessor.py], [agents/data_preprocessor.py] *)

Module DataPreprocessorTool.

Record t : Type := {
  downloaded_file_path : pyval;
  proc_cfg : Config.preprocessing
}.

Definition __init__ (downloaded_file_path : pyval) : M World t :=
  try_except
    (config <- Os.load_config ;;
     p <- of_res (Config.section "preprocessing" Config.get_preprocessing config) ;;
     ret {| downloaded_file_path := downloaded_file_path; proc_cfg := p |})
    Os.is_config_error
    (fun _ => raise (ValueError config_error_message)).

Definition _load_raw_data (full_path : pyval) (columns : list string)
  : M World (option DataFrame.t) :=
  try_except
    (df <- Os.pd_read_csv full_path ;;
     let missing_cols :=
       filter (fun col => negb (DataFrame.has_column df col)) columns in
     match missing_cols with
     | _ :: _ => ret None
     | [] => ret (Some (DataFrame.project columns df))
     end)
    (fun e => Os.is_FileNotFoundError e || Os.is_Exception e)
    (fun _ => ret None).

Definition _process_notification_date (df : DataFrame.t) : M World DataFrame.t :=
  df <- of_res (DataFrame.dropna "DT_NOTIFIC" df) ;;
  df <- Os.to_datetime_coerce "DT_NOTIFIC" df ;;
  ret (DataFrame.rename "DT_NOTIFIC" "DATA_NOTIFICACAO" df).

(** [series.fillna(v)] on one cell. *)
Definition fillna (v : float) (x : DataFrame.cell) : DataFrame.cell :=
  if DataFrame.isna x then DataFrame.Num v else x.

(** [series.replace(mapping)] on one cell, for a mapping from numbers. *)
Definition replace (mapping : list (float * DataFrame.cell)) (x : DataFrame.cell)
  : DataFrame.cell :=
  match x with
  | DataFrame.Num f =>
      match find (fun kv => PrimFloat.eqb (fst kv) f) mapping with
      | Some kv => snd kv
      | None => x
      end
  | _ => x
  end.

(** [df[col].fillna(v, inplace=True)]: the fill is made on the Series
    that [df[col]] returns. Without copy-on-write that Series shares the
    data of the frame, and the column of the frame is filled; with
    copy-on-write the fill stays in the temporary Series and the frame
    is left as it was. *)
Definition fillna_inplace (w : World) (col : string) (v : float)
           (df : DataFrame.t) : DataFrame.t :=
  if copy_on_write w then df else DataFrame.map_column col (fillna v) df.

Definition _process_mapped_columns (df : DataFrame.t) (columns : list string)
           (mapping : list (float * DataFrame.cell)) : M World DataFrame.t :=
  fun w =>
    (Ret (fold_left
            (fun df col =>
               if DataFrame.has_column df col
               then DataFrame.map_column col (replace mapping)
                      (fillna_inplace w col 9 df)
               else df)
            columns df), w).

Definition _process_evolution_column (df : DataFrame.t)
           (mapping : list (float * DataFrame.cell)) : M World DataFrame.t :=
  fun w =>
    (Ret (if DataFrame.has_column df "EVOLUCAO"
          then DataFrame.map_column "EVOLUCAO" (replace mapping)
                 (DataFrame.map_column "EVOLUCAO"
                    (replace [(3%float, DataFrame.Num 2)])
                    (fillna_inplace w "EVOLUCAO" 9 df))
          else df), w).

Definition _clean_and_transform_data (df : DataFrame.t) : M World DataFrame.t :=
  if DataFrame.empty df then ret DataFrame.new
  else
    let map_sim_nao := [(1%float, DataFrame.Str "SIM");
                        (2%float, DataFrame.Str "NAO");
                        (9%float, DataFrame.Str "IGNORADO")] in
    let map_evolucao := [(1%float, DataFrame.Str "CURA");
                         (2%float, DataFrame.Str "OBITO");
                         (9%float, DataFrame.Str "IGNORADO")] in
    df <- _process_notification_date df ;;
    df <- _process_mapped_columns df ["UTI"; "VACINA"; "VACINA_COV"]
            map_sim_nao ;;
    _process_evolution_column df map_evolucao.

Definition _save_processed_data (df : DataFrame.t) (full_path : string)
  : M World bool :=
  if DataFrame.empty df then ret false
  else
    try_except
      (Os.makedirs (Os.dirname full_path) ;;;
       Os.write_file full_path (FCsv df) ;;;
       ret true)
      Os.is_Exception
      (fun _ => ret false).

Definition _save_metadata (output_folder : string) : M World bool :=
  let metadata_path := Os.path_join output_folder "metadata.json" in
  formatted_timestamp <- Os.ask (fun w => strftime w "%Y-%m-%d %H:%M:%S" (now w)) ;;
  let metadata := JObj [("update_date", JStr formatted_timestamp)] in
  try_except
    (Os.write_file metadata_path (FJson metadata) ;;;
     ret true)
    Os.is_Exception
    (fun _ => ret false).

Definition run_preprocessing_process (self : t) : M World (option pydict) :=
  let output_folder := Config.output_folder (proc_cfg self) in
  let output_path :=
    Os.path_join output_folder (Config.output_filename (proc_cfg self)) in
  df_raw <- _load_raw_data (downloaded_file_path self)
              (Config.columns_to_keep (proc_cfg self)) ;;
  match df_raw with
  | None => ret None
  | Some df_raw =>
      df_processed <- _clean_and_transform_data df_raw ;;
      csv_success <- _save_processed_data df_processed output_path ;;
      if negb csv_success then ret None
      else
        metadata_success <- _save_metadata output_folder ;;
        if negb metadata_success then ret None
        else ret (Some [("processed_data_file_path", Some output_path)])
  end.

End DataPreprocessorTool.

Module DataPreprocessorAgent.

Record t : Type := {
  downloaded_file_path : pyval;
  preprocessor_tool : DataPreprocessorTool.t
}.

Definition __init__ (downloaded_file_path : pyval) : M World t :=
  try_except
    (tool <- DataPreprocessorTool.__init__ downloaded_file_path ;;
     ret {| downloaded_file_path := downloaded_file_path;
            preprocessor_tool := tool |})
    Os.is_ValueError
    (fun e => raise e).

Definition run (self : t) : M World (option pydict) :=
  result <- DataPreprocessorTool.run_preprocessing_process (preprocessor_tool self) ;;
  ret (dict_or_None result).

End DataPreprocessorAgent.

(** ** The metrics stage: [tools/metrics_calculator.py], [agents/metrics_calculator.py] *)

Module MetricsCalculatorTool.

Record t : Type := {
  processed_data_file_path : pyval;
  cfg : Config.output_dir_section
}.

Definition metrics_config_error_message : string :=
  "Erro de configuração impede a continuação do cálculo de métricas.".

Definition __init__ (processed_data_file_path : pyval) : M World t :=
  try_except
    (config <- Os.load_config ;;
     c <- of_res (Config.section "metrics_calculator"
                    Config.get_metrics_calculator config) ;;
     ret {| processed_data_file_path := processed_data_file_path; cfg := c |})
    Os.is_config_error
    (fun _ => raise (ValueError metrics_config_error_message)).

Definition _load_and_preprocess_data (filepath : pyval)
  : M World (option DataFrame.t) :=
  try_except
    (df <- Os.pd_read_csv filepath ;;
     _ <- of_res (DataFrame.getitem df "DATA_NOTIFICACAO") ;;
     df <- Os.to_datetime_column "DATA_NOTIFICACAO" df ;;
     ret (Some df))
    (fun e => Os.is_FileNotFoundError e || Os.is_Exception e)
    (fun _ => ret None).

(** [df[(df["DATA_NOTIFICACAO"] >= start) & (df["DATA_NOTIFICACAO"] <= end)]] *)
Definition period (df : DataFrame.t) (start_date end_date : Z) : res DataFrame.t :=
  match DataFrame.getitem df "DATA_NOTIFICACAO" with
  | Ret col =>
      Ret (DataFrame.select
             (fun r => DataFrame.between start_date end_date (col r)) df)
  | Raise e => Raise e
  end.

(** [df[df[column].isin(values)]] *)
Definition defined (df : DataFrame.t) (column : string) (values : list string)
  : res DataFrame.t :=
  match DataFrame.getitem df column with
  | Ret col => Ret (DataFrame.select (fun r => DataFrame.isin values (col r)) df)
  | Raise e => Raise e
  end.

(** [df[df[column] == value].shape[0]] *)
Definition count_eq (df : DataFrame.t) (column value : string) : res Z :=
  match DataFrame.getitem df column with
  | Ret col =>
      Ret (DataFrame.shape0
             (DataFrame.select (fun r => DataFrame.eq_str value (col r)) df))
  | Raise e => Raise e
  end.

Definition rbind {A B} (r : res A) (k : A -> res B) : res B :=
  match r with
  | Ret a => k a
  | Raise e => Raise e
  end.

Definition _calculate_increase_rate (df : DataFrame.t)
           (current_period_start current_period_end
            previous_period_start previous_period_end : Z) : res float :=
  rbind (period df current_period_start current_period_end) (fun cur =>
  let current_cases := DataFrame.shape0 cur in
  rbind (period df previous_period_start previous_period_end) (fun prev =>
  let previous_cases := DataFrame.shape0 prev in
  if previous_cases =? 0 then
    Ret (if 0 <? current_cases then PyFloat.inf else PyFloat.zero)
  else
    rbind (PyFloat.truediv (current_cases - previous_cases) previous_cases)
          (fun q => Ret (PyFloat.mul_int q 100)))).

Definition _calculate_mortality_rate (df : DataFrame.t) (start_date end_date : Z)
  : res float :=
  rbind (period df start_date end_date) (fun period_df =>
  rbind (defined period_df "EVOLUCAO" ["CURA"; "OBITO"]) (fun evolution_defined =>
  if DataFrame.empty evolution_defined then Ret PyFloat.zero
  else
    rbind (count_eq evolution_defined "EVOLUCAO" "OBITO") (fun deaths =>
    rbind (PyFloat.truediv deaths (DataFrame.shape0 evolution_defined))
          (fun q => Ret (PyFloat.mul_int q 100))))).

Definition _calculate_uti_occupancy_rate (df : DataFrame.t)
           (start_date end_date : Z) : res float :=
  rbind (period df start_date end_date) (fun period_df =>
  rbind (defined period_df "UTI" ["SIM"; "NAO"]) (fun uti_defined =>
  if DataFrame.empty uti_defined then Ret PyFloat.zero
  else
    rbind (count_eq uti_defined "UTI" "SIM") (fun uti_cases =>
    rbind (PyFloat.truediv uti_cases (DataFrame.shape0 uti_defined))
          (fun q => Ret (PyFloat.mul_int q 100))))).

Definition _calculate_vaccination_rate (df : DataFrame.t)
           (start_date end_date : Z) (vaccine_column : string) : res float :=
  rbind (period df start_date end_date) (fun period_df =>
  rbind (defined period_df vaccine_column ["SIM"; "NAO"]) (fun vaccine_defined =>
  if DataFrame.empty vaccine_defined then Ret PyFloat.zero
  else
    rbind (count_eq vaccine_defined vaccine_column "SIM") (fun vaccinated_cases =>
    rbind (PyFloat.truediv vaccinated_cases (DataFrame.shape0 vaccine_defined))
          (fun q => Ret (PyFloat.mul_int q 100))))).

Definition _save_json_file (self : t) (data : json) (filename : string)
  : M World unit :=
  let output_dir := Config.output_dir (cfg self) in
  Os.makedirs output_dir ;;;
  let filepath := Os.path_join output_dir filename in
  try_except
    (Os.write_file filepath (FJson data))
    Os.is_Exception
    (fun _ => ret tt).

(** The periods [run_metrics_calculation] derives from [now]. *)
Record periods : Type := {
  last_30_days_start : Z; last_30_days_end : Z;
  previous_30_days_start : Z; previous_30_days_end : Z;
  last_7_days_start : Z; last_7_days_end : Z;
  previous_7_days_start : Z; previous_7_days_end : Z;
  current_month_start : Z;
  last_month_start : Z; last_month_end : Z
}.

Definition periods_of (w : World) : periods :=
  let now := now w in
  let last_30_days_end := now in
  let last_30_days_start := now - Os.timedelta_days 30 in
  let previous_30_days_end := last_30_days_start - Os.timedelta_days 1 in
  let previous_30_days_start := previous_30_days_end - Os.timedelta_days 30 in
  let last_7_days_end := now in
  let last_7_days_start := now - Os.timedelta_days 7 in
  let previous_7_days_end := last_7_days_start - Os.timedelta_days 1 in
  let previous_7_days_start := previous_7_days_end - Os.timedelta_days 7 in
  let current_month_start := month_start w now in
  let last_month_end := current_month_start - Os.timedelta_days 1 in
  let last_month_start := replace_day_1 w last_month_end in
  {| last_30_days_start := last_30_days_start;
     last_30_days_end := last_30_days_end;
     previous_30_days_start := previous_30_days_start;
     previous_30_days_end := previous_30_days_end;
     last_7_days_start := last_7_days_start;
     last_7_days_end := last_7_days_end;
     previous_7_days_start := previous_7_days_start;
     previous_7_days_end := previous_7_days_end;
     current_month_start := current_month_start;
     last_month_start := last_month_start;
     last_month_end := last_month_end |}.

(** The [periods_analyzed] dict. *)
Definition periods_analyzed (w : World) (p : periods) : json :=
  let day := fun t => JStr (strftime w "%Y-%m-%d" t) in
  let span := fun s e => JObj [("start", day s); ("end", day e)] in
  JObj [("current_month", span (current_month_start p) (now w));
        ("last_month", span (last_month_start p) (last_month_end p));
        ("last_7_days", span (last_7_days_start p) (last_7_days_end p));
        ("previous_7_days", span (previous_7_days_start p) (previous_7_days_end p));
        ("last_30_days", span (last_30_days_start p) (last_30_days_end p));
        ("previous_30_days",
         span (previous_30_days_start p) (previous_30_days_end p))].

(** One group of the [metrics] dict: the three rates of [rate], rounded. *)
Definition group3 (k1 k2 k3 : string) (r1 r2 r3 : res float)
  : res (list (string * float)) :=
  rbind r1 (fun x1 => rbind r2 (fun x2 => rbind r3 (fun x3 =>
  Ret [(k1, PyFloat.round2 x1); (k2, PyFloat.round2 x2);
       (k3, PyFloat.round2 x3)]))).

(** The [metrics] dict, group by group in the order it is written. *)
Definition metrics (df : DataFrame.t) (now : Z) (p : periods)
  : res (list (string * list (string * float))) :=
  rbind (group3 "last_30_days_vs_previous" "last_7_days_vs_previous"
           "current_month_vs_previous"
           (_calculate_increase_rate df (last_30_days_start p) (last_30_days_end p)
              (previous_30_days_start p) (previous_30_days_end p))
           (_calculate_increase_rate df (last_7_days_start p) (last_7_days_end p)
              (previous_7_days_start p) (previous_7_days_end p))
           (_calculate_increase_rate df (current_month_start p) now
              (last_month_start p) (last_month_end p))) (fun increase_rate =>
  rbind (group3 "last_30_days" "last_7_days" "current_month"
           (_calculate_mortality_rate df (last_30_days_start p) (last_30_days_end p))
           (_calculate_mortality_rate df (last_7_days_start p) (last_7_days_end p))
           (_calculate_mortality_rate df (current_month_start p) now))
        (fun mortality_rate =>
  rbind (group3 "last_30_days" "last_7_days" "current_month"
           (_calculate_uti_occupancy_rate df (last_30_days_start p)
              (last_30_days_end p))
           (_calculate_uti_occupancy_rate df (last_7_days_start p)
              (last_7_days_end p))
           (_calculate_uti_occupancy_rate df (current_month_start p) now))
        (fun uti_occupancy_rate =>
  rbind (group3 "last_30_days" "last_7_days" "current_month"
           (_calculate_vaccination_rate df (last_30_days_start p)
              (last_30_days_end p) "VACINA")
           (_calculate_vaccination_rate df (last_7_days_start p)
              (last_7_days_end p) "VACINA")
           (_calculate_vaccination_rate df (current_month_start p) now "VACINA"))
        (fun vaccination_rate_flu =>
  rbind (group3 "last_30_days" "last_7_days" "current_month"
           (_calculate_vaccination_rate df (last_30_days_start p)
              (last_30_days_end p) "VACINA_COV")
           (_calculate_vaccination_rate df (last_7_days_start p)
              (last_7_days_end p) "VACINA_COV")
           (_calculate_vaccination_rate df (current_month_start p) now
              "VACINA_COV"))
        (fun vaccination_rate_covid =>
  Ret [("increase_rate", increase_rate);
       ("mortality_rate", mortality_rate);
       ("uti_occupancy_rate", uti_occupancy_rate);
       ("vaccination_rate_flu", vaccination_rate_flu);
       ("vaccination_rate_covid", vaccination_rate_covid)]))))).

Definition metrics_json (m : list (string * list (string * float))) : json :=
  JObj (map (fun g => (fst g, JObj (map (fun kv => (fst kv, JNum (snd kv)))
                                      (snd g)))) m).

Definition run_metrics_calculation (self : t) : M World (option pydict) :=
  let filepath := processed_data_file_path self in
  df <- _load_and_preprocess_data filepath ;;
  match df with
  | None => ret None
  | Some df =>
      w <- Os.ask (fun w => w) ;;
      let p := periods_of w in
      let metadata :=
        JObj [("update_date", JStr (strftime w "%Y-%m-%d %H:%M:%S" (now w)));
              ("data_source", match filepath with
                              | Some path => JStr path
                              | None => JNull
                              end)] in
      m <- of_res (metrics df (now w) p) ;;
      _save_json_file self metadata "metadata.json" ;;;
      _save_json_file self (periods_analyzed w p) "periods.json" ;;;
      _save_json_file self (metrics_json m) "metrics.json" ;;;
      let output_dir := Config.output_dir (cfg self) in
      ret (Some [("periods_file_path", Some (Os.path_join output_dir "periods.json"));
                 ("metrics_file_path", Some (Os.path_join output_dir "metrics.json"))])
  end.

End MetricsCalculatorTool.

Module MetricsCalculatorAgent.

Record t : Type := {
  processed_data_file_path : pyval;
  metrics_tool : MetricsCalculatorTool.t
}.

Definition __init__ (processed_data_file_path : pyval) : M World t :=
  try_except
    (tool <- MetricsCalculatorTool.__init__ processed_data_file_path ;;
     ret {| processed_data_file_path := processed_data_file_path;
            metrics_tool := tool |})
    Os.is_ValueError
    (fun e => raise e).

Definition run (self : t) : M World (option pydict) :=
  result <- MetricsCalculatorTool.run_metrics_calculation (metrics_tool self) ;;
  ret (dict_or_None result).

End MetricsCalculatorAgent.

(** ** The visualize stage: [tools/visualizations.py], [agents/visualizations.py] *)

Module VisualizationsTool.

Record t : Type := {
  processed_data_file_path : pyval;
  cfg : Config.output_dir_section
}.

Definition visualizations_config_error_message : string :=
  "Erro de configuração impede a continuação da geração de visualizações.".

Definition __init__ (processed_data_file_path : pyval) : M World t :=
  try_except
    (config <- Os.load_config ;;
     c <- of_res (Config.section "visualizations_tool"
                    Config.get_visualizations_tool config) ;;
     ret {| processed_data_file_path := processed_data_file_path; cfg := c |})
    Os.is_config_error
    (fun _ => raise (ValueError visualizations_config_error_message)).

Definition _load_and_preprocess_data (filepath : pyval)
  : M World (option DataFrame.t) :=
  try_except
    (df <- Os.pd_read_csv filepath ;;
     _ <- of_res (DataFrame.getitem df "DATA_NOTIFICACAO") ;;
     df <- Os.to_datetime_column "DATA_NOTIFICACAO" df ;;
     ret (Some df))
    (fun e => Os.is_FileNotFoundError e || Os.is_Exception e)
    (fun _ => ret None).

Definition _save_json_file (self : t) (data : json) (filename : string)
  : M World unit :=
  let output_dir := Config.output_dir (cfg self) in
  Os.makedirs output_dir ;;;
  let filepath := Os.path_join output_dir filename in
  try_except
    (Os.write_file filepath (FJson data))
    Os.is_Exception
    (fun _ => ret tt).

(** The counting and the drawing are pandas' and matplotlib's: the records
    are a function of the frame, the plot is a file written by [savefig]. *)
Definition _generate_last_30_days_analysis (self : t) (df : DataFrame.t)
  : M World unit :=
  let output_folder := Config.output_dir (cfg self) in
  records <- Os.ask (fun w => daily_counts w df) ;;
  _save_json_file self records "last_30_days.json" ;;;
  let plot_path := Os.path_join output_folder "last_30_days.png" in
  Os.write_file plot_path (FPlot "Número Diário de Casos nos Últimos 30 Dias").

Definition _generate_last_12_months_analysis (self : t) (df : DataFrame.t)
  : M World unit :=
  let output_folder := Config.output_dir (cfg self) in
  records <- Os.ask (fun w => monthly_counts w df) ;;
  _save_json_file self records "last_12_months.json" ;;;
  let plot_path := Os.path_join output_folder "last_12_months.png" in
  Os.write_file plot_path (FPlot "Número Mensal de Casos nos Últimos 12 Meses").

Definition run_visualization_process (self : t) : M World (option pydict) :=
  let filepath := processed_data_file_path self in
  let output_folder := Config.output_dir (cfg self) in
  Os.makedirs output_folder ;;;
  formatted <- Os.ask (fun w => strftime w "%Y-%m-%d %H:%M:%S" (now w)) ;;
  let metadata := JObj [("update_date", JStr formatted)] in
  _save_json_file self metadata "metadata.json" ;;;
  df <- _load_and_preprocess_data filepath ;;
  match df with
  | None => ret None
  | Some df =>
      _generate_last_30_days_analysis self df ;;;
      _generate_last_12_months_analysis self df ;;;
      ret (Some
        [("last_30_days_json_file_path",
          Some (Os.path_join output_folder "last_30_days.json"));
         ("last_30_days_plot_file_path",
          Some (Os.path_join output_folder "last_30_days.png"));
         ("last_12_months_json_file_path",
          Some (Os.path_join output_folder "last_12_months.json"));
         ("last_12_months_plot_file_path",
          Some (Os.path_join output_folder "last_12_months.png"))])
  end.

End VisualizationsTool.

Module VisualizationsAgent.

Record t : Type := {
  processed_data_file_path : pyval;
  tool : VisualizationsTool.t
}.

Definition __init__ (processed_data_file_path : pyval) : M World t :=
  try_except
    (tool <- VisualizationsTool.__init__ processed_data_file_path ;;
     ret {| processed_data_file_path := processed_data_file_path; tool := tool |})
    Os.is_ValueError
    (fun e => raise e).

Definition run (self : t) : M World (option pydict) :=
  result <- VisualizationsTool.run_visualization_process (tool self) ;;
  ret (dict_or_None result).

End VisualizationsAgent.

(** ** The news stage: [tools/news_collector.py], [agents/news_collector.py] *)

(** [if not os.getenv(name): raise ValueError(...)] *)
Definition require_env (name : string) : M World unit :=
  fun w =>
    match getenv w name with
    | Some v =>
        if str_truthy v then (Ret tt, w)
        else (Raise (ValueError (name ++ " não definida no arquivo .env ou no ambiente.")), w)
    | None =>
        (Raise (ValueError (name ++ " não definida no arquivo .env ou no ambiente.")), w)
    end.

Module NewsCollectorTool.

(** The constructor leaves [self.news_cfg]. *)
Definition __init__ : M World Config.News.t :=
  require_env "SERPER_API_KEY" ;;;
  try_except
    (config <- Os.load_config ;;
     of_res (Config.section "news_config" Config.get_news_config config))
    Os.is_config_error
    (fun _ => raise (ValueError config_error_message)).

End NewsCollectorTool.

(** The methods of the tool. The search itself is the API's; what the
    tool does with its answer is modelled here, over any search, so that
    the properties of the tool hold whatever the API answers. *)

Module NewsCollection.

Import PyJson.

(** One pass of the loop of [_format_results]. *)
Definition format_item (item : value) : res (list (string * value)) :=
  rbind (get item "title" (VStr "N/A")) (fun titulo =>
  rbind (get item "snippet" (VStr "N/A")) (fun conteudo =>
  rbind (get item "date" (VStr "N/A")) (fun data =>
  rbind (get item "source" (VStr "N/A")) (fun fonte =>
  Ret [("titulo", titulo); ("conteudo", conteudo);
       ("data", data); ("fonte", fonte)])))).

Fixpoint format_items (items : list value)
  : res (list (list (string * value))) :=
  match items with
  | [] => Ret []
  | item :: rest =>
      rbind (format_item item) (fun noticia =>
      rbind (format_items rest) (fun formatted => Ret (noticia :: formatted)))
  end.

Definition _format_results (results : list (string * value))
  : res (list (list (string * value))) :=
  match lookup results "news" with
  | Some news =>
      if truthy news then rbind (iterate news) format_items else Ret []
  | None => Ret []
  end.

(** [self.news_cfg] *)
Abbreviation config := Config.News.t (only parsing).
Abbreviation output_dir := Config.News.output_dir (only parsing).
Abbreviation output_filename := Config.News.output_filename (only parsing).

Section WithSearch.

(** [GoogleSerperAPIWrapper(...).results(query=...)] with the parameters of
    the configuration: the dict of the answer, or what the call raised. *)
Variable search : World -> res (list (string * value)).

(** [json.dump(..., ensure_ascii=False, indent=4)] of the formatted news. *)
Variable dumps : list (list (string * value)) -> string.

Variable news_cfg : config.

Definition _search_news : M World (list (string * value)) :=
  try_except (fun w => (search w, w)) Os.is_Exception (fun _ => ret []).

Definition _save_results (formatted_news : list (list (string * value)))
  : M World pyval :=
  let output_dir := output_dir news_cfg in
  let output_file := Os.path_join output_dir (output_filename news_cfg) in
  try_except
    (Os.makedirs output_dir ;;;
     Os.write_file output_file (FBytes (dumps formatted_news)) ;;;
     ret (Some output_file))
    Os.is_OSError
    (fun _ => ret None).

Definition _save_metadata : M World unit :=
  let dest_folder := output_dir news_cfg in
  let metadata_path := Os.path_join dest_folder "metadata.json" in
  try_except
    (update_timestamp <- Os.ask (fun w => strftime w "%Y-%m-%d %H:%M:%S" (now w)) ;;
     let metadata := JObj [("update_date", JStr update_timestamp)] in
     Os.write_file metadata_path (FJson metadata))
    Os.is_OSError
    (fun _ => ret tt).

Definition run_collection_process : M World pyval :=
  raw_results <- _search_news ;;
  match raw_results with
  | [] => ret None
  | _ :: _ =>
      formatted_news <- of_res (_format_results raw_results) ;;
      match formatted_news with
      | [] => ret None
      | _ :: _ =>
          result <- _save_results formatted_news ;;
          match result with
          | Some path =>
              if str_truthy path then _save_metadata ;;; ret (Some path)
              else ret None
          | None => ret None
          end
      end
  end.

(** [NewsCollectorAgent.run] over this tool. *)
Definition agent_run : M World (option pydict) :=
  result <- run_collection_process ;;
  ret (path_or_None "news_file_path" result).

End WithSearch.

(** An answer with two news items, the second without a date. *)
Definition two_news : list (string * value) :=
  [("searchParameters", VDict [("q", VStr "SRAG")]);
   ("news",
    VList [VDict [("title", VStr "t1"); ("snippet", VStr "s1");
                  ("date", VStr "d1"); ("source", VStr "f1");
                  ("link", VStr "l1")];
           VDict [("title", VStr "t2"); ("snippet", VStr "s2");
                  ("source", VStr "f2")]])].

(** An answer whose news are not dicts. *)
Definition bad_news : list (string * value) :=
  [("news", VList [VDict [("title", VStr "t1")]; VStr "t2"])].

Definition example_config : config :=
  {| Config.News.output_dir := "data/news";
     Config.News.output_filename := "news.json" |}.

End NewsCollection.

Module NewsCollectorAgent.

Definition __init__ : M World Config.News.t :=
  try_except NewsCollectorTool.__init__ Os.is_ValueError (fun e => raise e).

(** [run], with the search and [json.dump] of the world. *)
Definition run (self : Config.News.t) : M World (option pydict) :=
  fun w =>
    NewsCollection.agent_run (fun w => serper_results w) (json_dumps w) self w.

End NewsCollectorAgent.

(** ** The report stage: [tools/report_generator.py], [agents/report_generator.py] *)

Module ReportGeneratorTool.

(** The paths the constructor is given. *)
Record t : Type := {
  metrics_file_path : pyval;
  last_30_days_json_file_path : pyval;
  last_12_months_json_file_path : pyval;
  news_file_path : pyval
}.

(** The tool once constructed: the paths and [self.report_cfg]. *)
Record instance : Type := {
  arguments : t;
  report_cfg : Config.Report.t
}.

Definition __init__ (a b c d : pyval) : M World instance :=
  require_env "OPENAI_API_KEY" ;;;
  try_except
    (config <- Os.load_config ;;
     cfg <- of_res (Config.section "report_generator_config"
                      Config.get_report_generator_config config) ;;
     ret {| arguments :=
              {| metrics_file_path := a; last_30_days_json_file_path := b;
                 last_12_months_json_file_path := c; news_file_path := d |};
            report_cfg := cfg |})
    Os.is_config_error
    (fun _ => raise (ValueError config_error_message)).

End ReportGeneratorTool.

(** The methods of the tool. The call to the language model and the
    reading of files are the world's; what the tool does around them is
    modelled here, over any model and any files. *)

Module ReportGeneration.

Import PyStr.

(** [self.report_cfg] *)
Abbreviation config := Config.Report.t (only parsing).
Abbreviation prompt_file := Config.Report.prompt_file (only parsing).
Abbreviation output_dir := Config.Report.output_dir (only parsing).
Abbreviation output_filename := Config.Report.output_filename (only parsing).

Definition TypeError_open_None : exn :=
  Exn "TypeError" "expected str, bytes or os.PathLike object, not NoneType".

Section WithWorld.

(** [open(path, "r", encoding="utf-8").read()] *)
Variable read_text : World -> string -> res string.

(** [json.dumps(json.loads(text), indent=2, ensure_ascii=False)]: a text
    that is no JSON raises [JSONDecodeError]. *)
Variable json_pretty : string -> res string.

(** [client.chat.completions.create(...).choices[0].message.content] for
    the user prompt [final_prompt]. *)
Variable chat : World -> string -> res pyval.

Variable report_cfg : config.

Definition open_read (file_path : pyval) : M World string :=
  fun w =>
    match file_path with
    | Some path => (read_text w path, w)
    | None => (Raise TypeError_open_None, w)
    end.

Definition _load_data_file (file_path : pyval) (is_json : bool) : M World pyval :=
  try_except
    (text <- open_read file_path ;;
     if is_json then
       pretty <- of_res (json_pretty text) ;;
       ret (Some pretty)
     else ret (Some text))
    (fun e => Os.is_FileNotFoundError e || is_class "JSONDecodeError" e
              || Os.is_Exception e)
    (fun _ => ret None).

(** The truth value of a [str | None]. *)
Definition truthy (v : pyval) : bool :=
  match v with
  | Some s => str_truthy s
  | None => false
  end.

Definition _build_prompt (self : ReportGeneratorTool.t) : M World pyval :=
  prompt_template <- _load_data_file (Some (prompt_file report_cfg)) false ;;
  match prompt_template with
  | None => ret None
  | Some prompt_template =>
      if negb (str_truthy prompt_template) then ret None
      else
        metrics_content <-
          _load_data_file (ReportGeneratorTool.metrics_file_path self) true ;;
        viz_months_content <-
          _load_data_file
            (ReportGeneratorTool.last_12_months_json_file_path self) true ;;
        viz_days_content <-
          _load_data_file
            (ReportGeneratorTool.last_12_months_json_file_path self) true ;;
        news_content <-
          _load_data_file (ReportGeneratorTool.news_file_path self) true ;;
        match metrics_content, viz_months_content, viz_days_content,
              news_content with
        | Some metrics_content, Some viz_months_content,
          Some viz_days_content, Some news_content =>
            if str_truthy metrics_content && str_truthy viz_months_content
               && str_truthy viz_days_content && str_truthy news_content
            then
              let final_prompt :=
                str_replace prompt_template "json_metricas" metrics_content in
              let final_prompt :=
                str_replace final_prompt "json_grafico_meses"
                            viz_months_content in
              let final_prompt :=
                str_replace final_prompt "json_grafico_dias" viz_days_content in
              let final_prompt :=
                str_replace final_prompt "json_noticias" news_content in
              ret (Some final_prompt)
            else ret None
        | _, _, _, _ => ret None
        end
  end.

Definition _generate_report (final_prompt : string) : M World pyval :=
  try_except (fun w => (chat w final_prompt, w)) Os.is_Exception
             (fun _ => ret None).

Definition _save_report (content : string) : M World pyval :=
  let output_dir := output_dir report_cfg in
  let output_file := Os.path_join output_dir (output_filename report_cfg) in
  try_except
    (Os.makedirs output_dir ;;;
     Os.write_file output_file (FBytes content) ;;;
     ret (Some output_file))
    Os.is_OSError
    (fun _ => ret None).

Definition _save_metadata : M World unit :=
  let dest_folder := output_dir report_cfg in
  let metadata_path := Os.path_join dest_folder "metadata.json" in
  try_except
    (update_timestamp <- Os.ask (fun w => strftime w "%Y-%m-%d %H:%M:%S" (now w)) ;;
     let metadata := JObj [("update_date", JStr update_timestamp)] in
     Os.write_file metadata_path (FJson metadata))
    Os.is_OSError
    (fun _ => ret tt).

Definition run_report_process (self : ReportGeneratorTool.t) : M World pyval :=
  final_prompt <- _build_prompt self ;;
  if truthy final_prompt then
    report_content <-
      _generate_report (match final_prompt with Some p => p | None => "" end) ;;
    if truthy report_content then
      report_path <-
        _save_report (match report_content with Some c => c | None => "" end) ;;
      if truthy report_path then
        _save_metadata ;;;
        ret report_path
      else ret None
    else ret None
  else ret None.

End WithWorld.

(** A template with the four placeholders, and files that hold one word
    each; the file of the last thirty days is not there. *)
Definition example_config : config :=
  {| Config.Report.prompt_file := "conf/prompt.txt";
     Config.Report.output_dir := "data/report";
     Config.Report.output_filename := "report.md" |}.

Definition example_files (w : World) (path : string) : res string :=
  if String.eqb path "conf/prompt.txt"
  then Ret "m=json_metricas, months=json_grafico_meses, days=json_grafico_dias, news=json_noticias"
  else if String.eqb path "data/metrics/metrics.json" then Ret "METRICS"
  else if String.eqb path "data/viz/last_12_months.json" then Ret "MONTHS"
  else if String.eqb path "data/news/news.json" then Ret "NEWS"
  else Raise (FileNotFoundError path).

Definition example_tool : ReportGeneratorTool.t := {|
  ReportGeneratorTool.metrics_file_path := Some "data/metrics/metrics.json";
  ReportGeneratorTool.last_30_days_json_file_path :=
    Some "data/viz/last_30_days.json";
  ReportGeneratorTool.last_12_months_json_file_path :=
    Some "data/viz/last_12_months.json";
  ReportGeneratorTool.news_file_path := Some "data/news/news.json"
|}.

(** A model that answers with the prompt it was given. *)
Definition echo (w : World) (prompt : string) : res pyval := Ret (Some prompt).

End ReportGeneration.

Module ReportGeneratorAgent.

Definition __init__ (a b c d : pyval) : M World ReportGeneratorTool.instance :=
  try_except (ReportGeneratorTool.__init__ a b c d) Os.is_ValueError
             (fun e => raise e).

(** [run], with the files, the JSON library and the model of the world. *)
Definition run (self : ReportGeneratorTool.instance) : M World (option pydict) :=
  fun w =>
    (report_path <-
       ReportGeneration.run_report_process
         (fun w => file_text w) (json_reindent w) (fun w => chat_completion w)
         (ReportGeneratorTool.report_cfg self)
         (ReportGeneratorTool.arguments self) ;;
     ret (path_or_None "report_file_path" report_path)) w.

End ReportGeneratorAgent.

(** ** The final-report stage: [tools/final_report_generator.py],
    [agents/final_report_generator.py] *)

Module FinalReportGeneratorTool.

(** The paths the constructor is given. *)
Record t : Type := {
  metadata_file_path : pyval;
  periods_file_path : pyval;
  metrics_file_path : pyval;
  report_file_path : pyval;
  last_30_days_plot_file_path : pyval;
  last_12_months_plot_file_path : pyval
}.

(** The tool once constructed: the paths it was given and [self.paths],
    the paths of the configuration made absolute. *)
Record instance : Type := {
  arguments : t;
  paths : list (string * string)
}.

Definition __init__ (a b c d e f : pyval) : M World instance :=
  try_except
    (config <- Os.load_config ;;
     cfg <- of_res (Config.section "final_report_config"
                      Config.get_final_report_config config) ;;
     paths <- Os.ask (fun w => map (fun kv => (fst kv, abspath w (snd kv)))
                                   (Config.Final.paths cfg)) ;;
     ret {| arguments :=
              {| metadata_file_path := a; periods_file_path := b;
                 metrics_file_path := c; report_file_path := d;
                 last_30_days_plot_file_path := e;
                 last_12_months_plot_file_path := f |};
            paths := paths |})
    Os.is_config_error
    (fun _ => raise (ValueError config_error_message)).

(** [_gerar_pdf_de_html(html_content)]: what is laid out is extracted from
    the HTML first, which raises when the HTML lacks an element the
    extraction looks for; building [relatorio.pdf] is inside a
    [try ... except Exception], which only prints. *)
Definition _gerar_pdf_de_html (html_content : string) : M World unit :=
  story <- (fun w => (pdf_story w html_content, w)) ;;
  try_except
    (Os.write_file "relatorio.pdf" (FBytes story))
    Os.is_Exception
    (fun _ => ret tt).

End FinalReportGeneratorTool.

(** The methods of the tool. Reading the files, printing a value and
    rendering the PDF are the world's; the collection of the replacements
    and their application to the template are modelled here, over any
    files and any PDF step. *)

Module FinalReport.

Import PyJson.
Import PyStr.

Definition TypeError_replace : exn :=
  Exn "TypeError" "replace() argument 2 must be str".

Definition TypeError_open_None : exn :=
  Exn "TypeError" "expected str, bytes or os.PathLike object, not NoneType".

(** A [str | None] as a value. *)
Definition of_pyval (v : pyval) : value :=
  match v with
  | Some s => VStr s
  | None => VNone
  end.

(** [d[k] = v] on a dict of replacements: a present key keeps its place. *)
Fixpoint setitem (d : list (string * value)) (k : string) (v : value)
  : list (string * value) :=
  match d with
  | [] => [(k, v)]
  | (k', v') :: t =>
      if String.eqb k' k then (k', v) :: t else (k', v') :: setitem t k v
  end.

(** [v.items()]: only a dict has items. *)
Definition items (v : value) : res (list (string * value)) :=
  match v with
  | VDict d => Ret d
  | _ => Raise (AttributeError "items")
  end.

(** [final_html_content.replace(placeholder, value)]: the value must be
    a [str]. *)
Definition replace_value (html placeholder : string) (v : value) : res string :=
  match v with
  | VStr s => Ret (str_replace html placeholder s)
  | _ => Raise TypeError_replace
  end.

(** Is [v] a [str]? *)
Definition is_str (v : value) : bool :=
  match v with VStr _ => true | _ => false end.

(** The loop over [replacements.items()]. *)
Fixpoint apply_replacements (html : string) (replacements : list (string * value))
  : res string :=
  match replacements with
  | [] => Ret html
  | (placeholder, v) :: rest =>
      rbind (replace_value html placeholder v) (fun html' =>
      apply_replacements html' rest)
  end.

Section WithWorld.

(** [open(path, "r", encoding="utf-8").read()] *)
Variable read_text : World -> string -> res string.

(** [json.load(open(path))] *)
Variable read_json : World -> string -> res value.

(** [str(v)] of a value of a JSON document. *)
Variable py_str : value -> string.

(** [_gerar_pdf_de_html(html)]: the parsing of the HTML and the layout of
    the PDF are those of the libraries. *)
Variable _gerar_pdf_de_html : string -> M World unit.

(** [self.paths]: the entries of [final_report_config["paths"]], each
    made absolute. *)
Variable paths : list (string * string).

Definition path_of (key : string) : res string :=
  match StateGraph.assoc paths key with
  | Some p => Ret p
  | None => Raise (KeyError key)
  end.

Definition _load_json (file_path : pyval) : M World value :=
  fun w =>
    match file_path with
    | Some path => (read_json w path, w)
    | None => (Raise TypeError_open_None, w)
    end.

Definition _read_text (file_path : pyval) : M World string :=
  fun w =>
    match file_path with
    | Some path => (read_text w path, w)
    | None => (Raise TypeError_open_None, w)
    end.

Definition _write_text (file_path content : string) : M World unit :=
  Os.makedirs (Os.dirname file_path) ;;;
  Os.write_file file_path (FBytes content).

(** [for key, value in values.items(): replacements[f"[{category}.{key}]"] = str(value)] *)
Definition add_values (category : string) (values : list (string * value))
           (replacements : list (string * value)) : list (string * value) :=
  fold_left
    (fun r kv => setitem r ("[" ++ category ++ "." ++ fst kv ++ "]")
                         (VStr (py_str (snd kv))))
    values replacements.

(** [for category, values in document.items(): ...] *)
Fixpoint add_document (document : list (string * value))
         (replacements : list (string * value))
  : res (list (string * value)) :=
  match document with
  | [] => Ret replacements
  | (category, values) :: rest =>
      rbind (items values) (fun values =>
      add_document rest (add_values category values replacements))
  end.

Definition _get_replacements (self : FinalReportGeneratorTool.t)
  : M World (list (string * value)) :=
  metadata <- _load_json (FinalReportGeneratorTool.metadata_file_path self) ;;
  metrics <- _load_json (FinalReportGeneratorTool.metrics_file_path self) ;;
  periods <- _load_json (FinalReportGeneratorTool.periods_file_path self) ;;
  report_md_content <-
    _read_text (FinalReportGeneratorTool.report_file_path self) ;;
  update_date <- of_res (get metadata "update_date" (VStr "")) ;;
  date_last_file <- of_res (get metadata "date_last_file" (VStr "")) ;;
  let replacements :=
    [("[raw_auto_metadata.update_date]", update_date);
     ("[raw_auto_metadata.date_last_file]", date_last_file);
     ("[path.report.md]", VStr report_md_content);
     ("[path.last_12_months.png]",
      of_pyval (FinalReportGeneratorTool.last_12_months_plot_file_path self));
     ("[path.last_30_days.png]",
      of_pyval (FinalReportGeneratorTool.last_30_days_plot_file_path self))] in
  metrics <- of_res (items metrics) ;;
  replacements <- of_res (add_document metrics replacements) ;;
  periods <- of_res (items periods) ;;
  of_res (add_document periods replacements).

Definition run_generation_process (self : FinalReportGeneratorTool.t)
  : M World pyval :=
  try_except
    (template_html <- of_res (path_of "template_html") ;;
     html_template_content <- _read_text (Some template_html) ;;
     replacements <- _get_replacements self ;;
     final_html_content <-
       of_res (apply_replacements html_template_content replacements) ;;
     output_path <- of_res (path_of "output_html") ;;
     _write_text output_path final_html_content ;;;
     _gerar_pdf_de_html final_html_content ;;;
     ret (Some output_path))
    (fun e => Os.is_FileNotFoundError e || is_class "KeyError" e
              || Os.is_Exception e)
    (fun _ => ret None).

End WithWorld.

(** The placeholders a document gives rise to. *)
Definition placeholders (document : value) : list string :=
  match document with
  | VDict d =>
      flat_map (fun cv =>
                  match snd cv with
                  | VDict values =>
                      map (fun kv => "[" ++ fst cv ++ "." ++ fst kv ++ "]") values
                  | _ => []
                  end) d
  | _ => []
  end.

(** A template, the documents of the earlier stages, and a tool for them. *)
Definition example_paths : list (string * string) :=
  [("template_html", "/app/conf/template.html");
   ("output_html", "/app/report/final.html")].

Definition example_text (w : World) (path : string) : res string :=
  if String.eqb path "/app/conf/template.html"
  then Ret "<h1>[raw_auto_metadata.update_date]</h1><p>[mortality_rate.last_30_days]</p><img src='[path.last_30_days.png]'>"
  else if String.eqb path "data/report/report.md" then Ret "REPORT"
  else Raise (FileNotFoundError path).

Definition example_json (w : World) (path : string) : res value :=
  if String.eqb path "data/raw/metadata.json"
  then Ret (VDict [("update_date", VStr "2025-01-01 10:00:00");
                   ("date_last_file", VStr "01-01-2025")])
  else if String.eqb path "data/metrics/metrics.json"
  then Ret (VDict [("mortality_rate", VDict [("last_30_days", VNum 12.5)])])
  else if String.eqb path "data/metrics/periods.json"
  then Ret (VDict [("last_30_days",
                    VDict [("start", VStr "2024-12-02");
                           ("end", VStr "2025-01-01")])])
  else Raise (FileNotFoundError path).

Definition example_str (v : value) : string :=
  match v with
  | VStr s => s
  | VNum _ => "12.5"
  | _ => "?"
  end.

(** A PDF step that returns, and one that fails on the HTML. *)
Definition pdf_ok (html : string) : M World unit := ret tt.

Definition pdf_fails (html : string) : M World unit :=
  raise (AttributeError "get_text").

Definition example_tool (plot_30_days : pyval) : FinalReportGeneratorTool.t := {|
  FinalReportGeneratorTool.metadata_file_path := Some "data/raw/metadata.json";
  FinalReportGeneratorTool.periods_file_path := Some "data/metrics/periods.json";
  FinalReportGeneratorTool.metrics_file_path := Some "data/metrics/metrics.json";
  FinalReportGeneratorTool.report_file_path := Some "data/report/report.md";
  FinalReportGeneratorTool.last_30_days_plot_file_path := plot_30_days;
  FinalReportGeneratorTool.last_12_months_plot_file_path :=
    Some "data/viz/last_12_months.png"
|}.

End FinalReport.

Module FinalReportGeneratorAgent.

Definition __init__ (a b c d e f : pyval)
  : M World FinalReportGeneratorTool.instance :=
  try_except (FinalReportGeneratorTool.__init__ a b c d e f) Os.is_ValueError
             (fun e => raise e).

(** [run], with the files and [str] of the world. *)
Definition run (self : FinalReportGeneratorTool.instance)
  : M World (option pydict) :=
  fun w =>
    (report_path <-
       FinalReport.run_generation_process
         (fun w => file_text w) (fun w => file_json w) (str_of_value w)
         FinalReportGeneratorTool._gerar_pdf_de_html
         (FinalReportGeneratorTool.paths self)
         (FinalReportGeneratorTool.arguments self) ;;
     ret (path_or_None "final_report_file_path" report_path)) w.

End FinalReportGeneratorAgent.

(** The agents of the repository: each node constructs its agent and runs it. *)
Definition repository_agents : Agents World := {|
  DataDownloaderAgent :=
    (agent <- DataDownloaderAgent.__init__ ;; DataDownloaderAgent.run agent);
  DataPreprocessorAgent := fun p =>
    (agent <- DataPreprocessorAgent.__init__ p ;; DataPreprocessorAgent.run agent);
  MetricsCalculatorAgent := fun p =>
    (agent <- MetricsCalculatorAgent.__init__ p ;; MetricsCalculatorAgent.run agent);
  VisualizationsAgent := fun p =>
    (agent <- VisualizationsAgent.__init__ p ;; VisualizationsAgent.run agent);
  NewsCollectorAgent :=
    (agent <- NewsCollectorAgent.__init__ ;; NewsCollectorAgent.run agent);
  ReportGeneratorAgent := fun a b c d =>
    (agent <- ReportGeneratorAgent.__init__ a b c d ;; ReportGeneratorAgent.run agent);
  FinalReportGeneratorAgent := fun a b c d e f =>
    (agent <- FinalReportGeneratorAgent.__init__ a b c d e f ;;
     FinalReportGeneratorAgent.run agent)
|}.

(** Stub agents: every stage returns a fixed result, whatever the world
    and its arguments. *)
Definition stub_agents (W : Type)
           (r1 r2 r3 r4 r5 r6 r7 : res (option pydict)) : Agents W := {|
  DataDownloaderAgent := of_res r1;
  DataPreprocessorAgent := fun _ => of_res r2;
  MetricsCalculatorAgent := fun _ => of_res r3;
  VisualizationsAgent := fun _ => of_res r4;
  NewsCollectorAgent := of_res r5;
  ReportGeneratorAgent := fun _ _ _ _ => of_res r6;
  FinalReportGeneratorAgent := fun _ _ _ _ _ _ => of_res r7
|}.

(** ** Example worlds *)

Module Examples.

Definition cfg : Config.t := {|
  Config.get_downloader_config :=
    Some {| Config.days_to_try := 3;
            Config.base_url := "https://example.org/{year}/{filename}" |};
  Config.get_file_output :=
    Some {| Config.destination_folder := "data/raw";
            Config.destination_filename := "srag.csv" |};
  Config.get_preprocessing :=
    Some {| Config.output_folder := "data/processed";
            Config.output_filename := "srag.csv";
            Config.columns_to_keep :=
              ["DT_NOTIFIC"; "EVOLUCAO"; "UTI"; "VACINA"; "VACINA_COV"] |};
  Config.get_metrics_calculator := Some {| Config.output_dir := "data/metrics" |};
  Config.get_visualizations_tool := Some {| Config.output_dir := "data/viz" |};
  Config.get_news_config := Some NewsCollection.example_config;
  Config.get_report_generator_config := Some ReportGeneration.example_config;
  Config.get_final_report_config :=
    Some {| Config.Final.paths := [("template_html", "conf/template.html");
                                   ("output_html", "report/final.html")] |}
|}.

(** One day, in microseconds. *)
Definition day : Z := 86400000000.

(** The raw CSV: the kept columns and one more. *)
Definition raw_frame : DataFrame.t :=
  DataFrame.Build
    ["DT_NOTIFIC"; "EVOLUCAO"; "UTI"; "VACINA"; "VACINA_COV"; "SEM_NOT"]
    [ [("DT_NOTIFIC", DataFrame.Str "day 98"); ("EVOLUCAO", DataFrame.Num 2);
       ("UTI", DataFrame.Num 1); ("VACINA", DataFrame.NaN);
       ("VACINA_COV", DataFrame.Num 1); ("SEM_NOT", DataFrame.Num 14)];
      [("DT_NOTIFIC", DataFrame.Str "day 60"); ("EVOLUCAO", DataFrame.Num 1);
       ("UTI", DataFrame.Num 2); ("VACINA", DataFrame.Num 2);
       ("VACINA_COV", DataFrame.Num 9); ("SEM_NOT", DataFrame.Num 9)];
      [("DT_NOTIFIC", DataFrame.NaN); ("EVOLUCAO", DataFrame.Num 1);
       ("UTI", DataFrame.Num 2); ("VACINA", DataFrame.Num 2);
       ("VACINA_COV", DataFrame.Num 2); ("SEM_NOT", DataFrame.Num 9)] ].

(** The processed CSV as [pd.read_csv] returns it. *)
Definition processed_frame : DataFrame.t :=
  DataFrame.Build
    ["DATA_NOTIFICACAO"; "EVOLUCAO"; "UTI"; "VACINA"; "VACINA_COV"]
    [ [("DATA_NOTIFICACAO", DataFrame.Str "day 98");
       ("EVOLUCAO", DataFrame.Str "OBITO"); ("UTI", DataFrame.Str "SIM");
       ("VACINA", DataFrame.Str "IGNORADO"); ("VACINA_COV", DataFrame.Str "SIM")];
      [("DATA_NOTIFICACAO", DataFrame.Str "day 60");
       ("EVOLUCAO", DataFrame.Str "CURA"); ("UTI", DataFrame.Str "NAO");
       ("VACINA", DataFrame.Str "NAO"); ("VACINA_COV", DataFrame.Str "IGNORADO")] ].

Definition parse (x : DataFrame.cell) : option DataFrame.cell :=
  match x with
  | DataFrame.Str s =>
      if String.eqb s "day 98" then Some (DataFrame.Timestamp (98 * day))
      else if String.eqb s "day 60" then Some (DataFrame.Timestamp (60 * day))
      else None
  | DataFrame.Timestamp t => Some (DataFrame.Timestamp t)
  | _ => Some DataFrame.NaT
  end.

Definition files (path : string) : res DataFrame.t :=
  if String.eqb path "data/raw/srag.csv" then Ret raw_frame
  else if String.eqb path "data/processed/srag.csv" then Ret processed_frame
  else Raise (FileNotFoundError path).

(** The text files: the prompt of the report, the template of the final
    report, and what the stages have written. *)
Definition texts (path : string) : res string :=
  if String.eqb path "conf/prompt.txt"
  then Ret "m=json_metricas, months=json_grafico_meses, days=json_grafico_dias, news=json_noticias"
  else if String.eqb path "/app/conf/template.html"
  then Ret "<h1>[raw_auto_metadata.update_date]</h1><p>[mortality_rate.last_30_days]</p><img src='[path.last_30_days.png]'>"
  else if String.eqb path "data/metrics/metrics.json" then Ret "METRICS"
  else if String.eqb path "data/viz/last_12_months.json" then Ret "MONTHS"
  else if String.eqb path "data/news/news.json" then Ret "NEWS"
  else if String.eqb path "data/report/report.md" then Ret "REPORT"
  else Raise (FileNotFoundError path).

(** The same files read as JSON documents. *)
Definition documents (path : string) : res PyJson.value :=
  if String.eqb path "data/raw/metadata.json"
  then Ret (PyJson.VDict [("update_date", PyJson.VStr "2025-01-01 10:00:00");
                          ("date_last_file", PyJson.VStr "01-01-2025")])
  else if String.eqb path "data/metrics/metrics.json"
  then Ret (PyJson.VDict
              [("mortality_rate",
                PyJson.VDict [("last_30_days", PyJson.VNum 12.5)])])
  else if String.eqb path "data/metrics/periods.json"
  then Ret (PyJson.VDict
              [("last_30_days",
                PyJson.VDict [("start", PyJson.VStr "2024-12-02");
                              ("end", PyJson.VStr "2025-01-01")])])
  else Raise (FileNotFoundError path).

(** A world with the network [net] and the writable paths [writable]. *)
Definition world (net : string -> res response) (writable : string -> bool)
  : World := {|
  config_file := Ret (Config.Mapping cfg);
  getenv := fun _ => Some "key";
  requests_get := net;
  can_write := writable;
  can_mkdir := fun _ => true;
  read_csv := files;
  file_text := texts;
  file_json := documents;
  serper_results := Ret NewsCollection.two_news;
  chat_completion := fun prompt => Ret (Some prompt);
  pdf_story := fun html => Ret html;
  abspath := fun p => "/app/" ++ p;
  copy_on_write := false;
  today := 100;
  now := 100 * day;
  strftime := fun fmt _ => fmt;
  strftime_date := fun fmt _ => fmt;
  format_url := fun base year filename => base ++ year ++ filename;
  to_datetime := parse;
  month_start := fun t => 90 * day;
  replace_day_1 := fun t => 59 * day;
  daily_counts := fun _ => JArr [];
  monthly_counts := fun _ => JArr [];
  json_dumps := fun _ => "news";
  json_reindent := fun text => Ret text;
  str_of_value := FinalReport.example_str;
  disk := []
|}.

(** Every download succeeds and every file can be written. *)
Definition online : World :=
  world (fun _ => Ret {| status_code := 200; content := Ret "csv" |})
        (fun _ => true).

(** The network is down: every request raises. *)
Definition offline : World :=
  world (fun url => Raise (Exn "RequestException" url)) (fun _ => true).

(** The metadata file of the preprocess stage cannot be written. *)
Definition metadata_readonly : World :=
  world (fun _ => Ret {| status_code := 200; content := Ret "csv" |})
        (fun path => negb (String.eqb path "data/processed/metadata.json")).

(** Stub stages that return their declared keys with dummy paths. *)
Definition dummy_agents (W : Type) : Agents W :=
  stub_agents W
    (Ret (Some [("downloaded_file_path", Some "/tmp/a.csv");
                ("metadata_file_path", Some "/tmp/meta.json")]))
    (Ret (Some [("processed_data_file_path", Some "/tmp/p.csv")]))
    (Ret (Some [("periods_file_path", Some "/tmp/periods.json");
                ("metrics_file_path", Some "/tmp/metrics.json")]))
    (Ret (Some [("last_30_days_json_file_path", Some "/tmp/d.json");
                ("last_30_days_plot_file_path", Some "/tmp/d.png");
                ("last_12_months_json_file_path", Some "/tmp/m.json");
                ("last_12_months_plot_file_path", Some "/tmp/m.png")]))
    (Ret (Some [("news_file_path", Some "/tmp/news.json")]))
    (Ret (Some [("report_file_path", Some "/tmp/report.md")]))
    (Ret (Some [("final_report_file_path", Some "/tmp/final.html")])).

End Examples.

(** ** Agents whose results do not depend on the world *)

(** What each agent returns (or raises) is the same in every world: stub
    stages that return fixed results are such agents. *)
Definition world_independent (W : Type) (agents : Agents W) : Prop :=
  forall n st w1 w2,
    fst (FinancialReportWorkflow.stage_call W agents n st w1)
    = fst (FinancialReportWorkflow.stage_call W agents n st w2).

(** Seven stub stages that succeed: each returns its dict. *)
Definition succeeding_stubs (W : Type) (d1 d2 d3 d4 d5 d6 d7 : pydict)
  : Agents W :=
  stub_agents W (Ret (Some d1)) (Ret (Some d2)) (Ret (Some d3))
              (Ret (Some d4)) (Ret (Some d5)) (Ret (Some d6)) (Ret (Some d7)).

(** The dict each of the seven stubs returns, by the name of its node. *)
Definition stage_results (d1 d2 d3 d4 d5 d6 d7 : pydict)
  : list (string * pydict) :=
  [("data_downloader", d1); ("data_preprocessor", d2);
   ("metrics_calculator", d3); ("visualizations", d4);
   ("news_collector", d5); ("report_generator", d6);
   ("final_report_generator", d7)].

(** ** The counts the properties of the metrics speak of *)

Module Counts.

(** The rows of [df] notified between [start_date] and [end_date]. *)
Definition in_period (df : DataFrame.t) (start_date end_date : Z) : DataFrame.t :=
  DataFrame.select
    (fun r => DataFrame.between start_date end_date
                (DataFrame.row_get r "DATA_NOTIFICACAO")) df.

(** The number of cases of a period. *)
Definition cases (df : DataFrame.t) (start_date end_date : Z) : Z :=
  DataFrame.shape0 (in_period df start_date end_date).

(** The rows of a period whose [column] holds one of [values]. *)
Definition with_value (df : DataFrame.t) (start_date end_date : Z)
           (column : string) (values : list string) : DataFrame.t :=
  DataFrame.select
    (fun r => DataFrame.isin values (DataFrame.row_get r column))
    (in_period df start_date end_date).

(** The columns the metrics read. *)
Definition metric_columns : list string :=
  ["DATA_NOTIFICACAO"; "EVOLUCAO"; "UTI"; "VACINA"; "VACINA_COV"].

Definition has_metric_columns (df : DataFrame.t) : bool :=
  forallb (DataFrame.has_column df) metric_columns.

(** [100 * k / n] as the code computes it: [(k / n) * 100]. *)
Definition percent (k n : Z) : float :=
  PyFloat.mul_int (PrimFloat.div (PyFloat.of_int k) (PyFloat.of_int n)) 100.

(** A [metrics] dict whose fifteen rates are all [0.0]. *)
Definition all_zero : list (string * list (string * float)) :=
  let zeros := [("last_30_days", PyFloat.zero); ("last_7_days", PyFloat.zero);
                ("current_month", PyFloat.zero)] in
  [("increase_rate",
    [("last_30_days_vs_previous", PyFloat.zero);
     ("last_7_days_vs_previous", PyFloat.zero);
     ("current_month_vs_previous", PyFloat.zero)]);
   ("mortality_rate", zeros);
   ("uti_occupancy_rate", zeros);
   ("vaccination_rate_flu", zeros);
   ("vaccination_rate_covid", zeros)].

End Counts.

(** Stub stages for the failure scenarios, and frames for the rates. *)
Module Scenarios.

(** The preprocess stage reports a failure, the others succeed. *)
Definition preprocess_fails : Agents unit :=
  stub_agents unit
    (Ret (Some [("downloaded_file_path", Some "/tmp/a.csv");
                ("metadata_file_path", Some "/tmp/meta.json")]))
    (Ret None)
    (Ret (Some [("periods_file_path", Some "/tmp/periods.json");
                ("metrics_file_path", Some "/tmp/metrics.json")]))
    (Ret None) (Ret None) (Ret None) (Ret None).

(** The state after a successful download. *)
Definition downloaded : pydict :=
  [("downloaded_file_path", Some "/tmp/a.csv");
   ("metadata_file_path", Some "/tmp/meta.json")].

(** A frame with the columns of the metrics and no row. *)
Definition no_rows : DataFrame.t :=
  DataFrame.Build Counts.metric_columns [].

(** A frame with one death, notified at time 5. *)
Definition one_death : DataFrame.t :=
  DataFrame.Build Counts.metric_columns
    [ [("DATA_NOTIFICACAO", DataFrame.Timestamp 5);
       ("EVOLUCAO", DataFrame.Str "OBITO"); ("UTI", DataFrame.Str "SIM");
       ("VACINA", DataFrame.Str "NAO"); ("VACINA_COV", DataFrame.Str "IGNORADO")] ].

End Scenarios.

(** The first of the columns the metrics read that [df] lacks, in the
    order in which [metrics] reads them. *)
Definition first_missing_column (df : DataFrame.t) : option string :=
  find (fun c => negb (DataFrame.has_column df c)) Counts.metric_columns.

(** The exception a constructor raises when [load_config] raised [e]:
    [except (FileNotFoundError, KeyError)] turns it into a [ValueError]
    with the message of the tool. *)
Definition construction_error (message : string) (e : exn) : exn :=
  if Os.is_config_error e then ValueError message else e.

(** The [ValueError] for an API key that is not set. *)
Definition missing_key_error (name : string) : exn :=
  ValueError (name ++ " não definida no arquivo .env ou no ambiente.").

(** [os.getenv(name)] is set to a non-empty value. *)
Definition env_set (w : World) (name : string) : bool :=
  match getenv w name with
  | Some v => str_truthy v
  | None => false
  end.

(** ** More worlds and frames for the properties of the tools *)

Module Cases.

(** Every request is answered with status 200. *)
Definition ok_200 (u : string) : res response :=
  Ret {| status_code := 200; content := Ret "csv" |}.

(** Every request is answered with status 404. *)
Definition not_found_404 (u : string) : res response :=
  Ret {| status_code := 404; content := Ret "" |}.

(** Every request is answered with status 200, and the connection breaks
    while the body is read. *)
Definition interrupted (u : string) : res response :=
  Ret {| status_code := 200;
         content := Raise (Exn "RequestException" "IncompleteRead") |}.

(** The server has the files, no body arrives. *)
Definition broken_connection : World :=
  Examples.world interrupted (fun _ => true).


(** The downloaded file itself cannot be written. *)
Definition download_target_readonly : World :=
  Examples.world ok_200 (fun path => negb (String.eqb path "data/raw/srag.csv")).

(** The server has none of the files. *)
Definition nothing_published : World :=
  Examples.world not_found_404 (fun _ => true).

(** Nothing can be written. *)
Definition read_only : World := Examples.world ok_200 (fun _ => false).

(** The download tool and agent of the example configuration. *)
Definition downloader : DataDownloaderTool.t := {|
  DataDownloaderTool.downloader_cfg :=
    {| Config.days_to_try := 3;
       Config.base_url := "https://example.org/{year}/{filename}" |};
  DataDownloaderTool.output_cfg :=
    {| Config.destination_folder := "data/raw";
       Config.destination_filename := "srag.csv" |}
|}.

Definition downloader_agent : DataDownloaderAgent.t :=
  {| DataDownloaderAgent.downloader_tool := downloader |}.

(** The preprocess tool of the example configuration, for a downloaded
    file at [path], keeping [columns]. *)
Definition preprocessor (path : pyval) (columns : list string)
  : DataPreprocessorTool.t := {|
  DataPreprocessorTool.downloaded_file_path := path;
  DataPreprocessorTool.proc_cfg :=
    {| Config.output_folder := "data/processed";
       Config.output_filename := "srag.csv";
       Config.columns_to_keep := columns |}
|}.

Definition preprocessor_agent (path : pyval) (columns : list string)
  : DataPreprocessorAgent.t := {|
  DataPreprocessorAgent.downloaded_file_path := path;
  DataPreprocessorAgent.preprocessor_tool := preprocessor path columns
|}.

(** A raw file in which no row has a notification date. *)
Definition undated_frame : DataFrame.t :=
  DataFrame.Build
    ["DT_NOTIFIC"; "EVOLUCAO"]
    [ [("DT_NOTIFIC", DataFrame.NaN); ("EVOLUCAO", DataFrame.Num 1)];
      [("DT_NOTIFIC", DataFrame.NaN); ("EVOLUCAO", DataFrame.Num 2)] ].

(** The world [w] with other files to read. *)
Definition with_files (f : string -> res DataFrame.t) (w : World) : World := {|
  config_file := config_file w; getenv := getenv w;
  requests_get := requests_get w; can_write := can_write w;
  can_mkdir := can_mkdir w; read_csv := f;
  file_text := file_text w; file_json := file_json w;
  serper_results := serper_results w;
  chat_completion := chat_completion w; pdf_story := pdf_story w;
  abspath := abspath w; copy_on_write := copy_on_write w;
  today := today w; now := now w; strftime := strftime w;
  strftime_date := strftime_date w; format_url := format_url w;
  to_datetime := to_datetime w; month_start := month_start w;
  replace_day_1 := replace_day_1 w; daily_counts := daily_counts w;
  monthly_counts := monthly_counts w; json_dumps := json_dumps w;
  json_reindent := json_reindent w; str_of_value := str_of_value w;
  disk := disk w
|}.

(** Every file that is read holds [undated_frame]. *)
Definition undated : World := with_files (fun _ => Ret undated_frame) Examples.online.

(** The metrics tool of the example configuration. *)
Definition calculator (path : pyval) : MetricsCalculatorTool.t := {|
  MetricsCalculatorTool.processed_data_file_path := path;
  MetricsCalculatorTool.cfg := {| Config.output_dir := "data/metrics" |}
|}.

Definition calculator_agent (path : pyval) : MetricsCalculatorAgent.t := {|
  MetricsCalculatorAgent.processed_data_file_path := path;
  MetricsCalculatorAgent.metrics_tool := calculator path
|}.

(** A processed file without the vaccination columns. *)
Definition unvaccinated_frame : DataFrame.t :=
  DataFrame.Build
    ["DATA_NOTIFICACAO"; "EVOLUCAO"; "UTI"]
    [ [("DATA_NOTIFICACAO", DataFrame.Str "day 98");
       ("EVOLUCAO", DataFrame.Str "OBITO"); ("UTI", DataFrame.Str "SIM")] ].

Definition unvaccinated : World :=
  with_files (fun _ => Ret unvaccinated_frame) Examples.online.

(** The world [w] in which only the folders of [creatable] can be made. *)
Definition with_folders (creatable : string -> bool) (w : World) : World := {|
  config_file := config_file w; getenv := getenv w;
  requests_get := requests_get w; can_write := can_write w;
  can_mkdir := creatable; read_csv := read_csv w;
  file_text := file_text w; file_json := file_json w;
  serper_results := serper_results w;
  chat_completion := chat_completion w; pdf_story := pdf_story w;
  abspath := abspath w; copy_on_write := copy_on_write w;
  today := today w; now := now w; strftime := strftime w;
  strftime_date := strftime_date w; format_url := format_url w;
  to_datetime := to_datetime w; month_start := month_start w;
  replace_day_1 := replace_day_1 w; daily_counts := daily_counts w;
  monthly_counts := monthly_counts w; json_dumps := json_dumps w;
  json_reindent := json_reindent w; str_of_value := str_of_value w;
  disk := disk w
|}.

(** The visualizations tool of the example configuration. *)
Definition visualizer (path : pyval) : VisualizationsTool.t := {|
  VisualizationsTool.processed_data_file_path := path;
  VisualizationsTool.cfg := {| Config.output_dir := "data/viz" |}
|}.

Definition visualizer_agent (path : pyval) : VisualizationsAgent.t := {|
  VisualizationsAgent.processed_data_file_path := path;
  VisualizationsAgent.tool := visualizer path
|}.

(** Only JSON files can be written: no plot can be saved. *)
Definition no_plots : World :=
  Examples.world ok_200
    (fun path => negb (String.eqb path "data/viz/last_30_days.png")
                 && negb (String.eqb path "data/viz/last_12_months.png")).

(** Only the plots can be written. *)
Definition only_plots : World :=
  Examples.world ok_200
    (fun path => String.eqb path "data/viz/last_30_days.png"
                 || String.eqb path "data/viz/last_12_months.png").

(** The world [w] with another configuration file and environment. *)
Definition with_config (c : res Config.doc) (env : string -> option string)
           (w : World) : World := {|
  config_file := c; getenv := env;
  requests_get := requests_get w; can_write := can_write w;
  can_mkdir := can_mkdir w; read_csv := read_csv w;
  file_text := file_text w; file_json := file_json w;
  serper_results := serper_results w;
  chat_completion := chat_completion w; pdf_story := pdf_story w;
  abspath := abspath w; copy_on_write := copy_on_write w;
  today := today w; now := now w; strftime := strftime w;
  strftime_date := strftime_date w; format_url := format_url w;
  to_datetime := to_datetime w; month_start := month_start w;
  replace_day_1 := replace_day_1 w; daily_counts := daily_counts w;
  monthly_counts := monthly_counts w; json_dumps := json_dumps w;
  json_reindent := json_reindent w; str_of_value := str_of_value w;
  disk := disk w
|}.

(** There is no [conf/parameters.yaml]. *)
Definition unconfigured : World :=
  with_config (Raise (FileNotFoundError "conf/parameters.yaml"))
              (fun _ => Some "key") Examples.online.

(** The configuration is there, the API keys are not. *)
Definition no_keys : World :=
  with_config (Ret (Config.Mapping Examples.cfg)) (fun _ => None)
              Examples.online.

(** A configuration file that holds a mapping with no section: [{}]. *)
Definition no_sections : Config.t :=
  {| Config.get_downloader_config := None;
     Config.get_file_output := None;
     Config.get_preprocessing := None;
     Config.get_metrics_calculator := None;
     Config.get_visualizations_tool := None;
     Config.get_news_config := None;
     Config.get_report_generator_config := None;
     Config.get_final_report_config := None |}.

Definition without_sections : World :=
  with_config (Ret (Config.Mapping no_sections)) (fun _ => Some "key")
              Examples.online.

(** An empty configuration file. *)
Definition empty_config : World :=
  with_config (Ret Config.empty_file) (fun _ => Some "key") Examples.online.

(** The world [w] with pandas in the mode [cow]. *)
Definition with_pandas (cow : bool) (w : World) : World := {|
  config_file := config_file w; getenv := getenv w;
  requests_get := requests_get w; can_write := can_write w;
  can_mkdir := can_mkdir w; read_csv := read_csv w;
  file_text := file_text w; file_json := file_json w;
  serper_results := serper_results w;
  chat_completion := chat_completion w; pdf_story := pdf_story w;
  abspath := abspath w; copy_on_write := cow;
  today := today w; now := now w; strftime := strftime w;
  strftime_date := strftime_date w; format_url := format_url w;
  to_datetime := to_datetime w; month_start := month_start w;
  replace_day_1 := replace_day_1 w; daily_counts := daily_counts w;
  monthly_counts := monthly_counts w; json_dumps := json_dumps w;
  json_reindent := json_reindent w; str_of_value := str_of_value w;
  disk := disk w
|}.

(** The example world with pandas 3. *)
Definition pandas_3 : World := with_pandas true Examples.online.




(** Two frames with the same two rows, a death and a recovery, in the two
    orders. *)
Definition death_row : DataFrame.row :=
  [("DATA_NOTIFICACAO", DataFrame.Timestamp (98 * Examples.day));
   ("EVOLUCAO", DataFrame.Str "OBITO"); ("UTI", DataFrame.Str "SIM");
   ("VACINA", DataFrame.Str "NAO"); ("VACINA_COV", DataFrame.Str "IGNORADO")].

Definition recovery_row : DataFrame.row :=
  [("DATA_NOTIFICACAO", DataFrame.Timestamp (60 * Examples.day));
   ("EVOLUCAO", DataFrame.Str "CURA"); ("UTI", DataFrame.Str "NAO");
   ("VACINA", DataFrame.Str "SIM"); ("VACINA_COV", DataFrame.Str "SIM")].

Definition death_first : DataFrame.t :=
  DataFrame.Build Counts.metric_columns [death_row; recovery_row].

Definition death_last : DataFrame.t :=
  DataFrame.Build Counts.metric_columns [recovery_row; death_row].

(** No folder can be made. *)
Definition no_folders : World := with_folders (fun _ => false) Examples.online.

End Cases.

(** ** The earlier entry point: [old_main.py]

    [main] runs the seven agents one after the other, handing the paths
    on in local variables and printing each of them; whatever goes wrong
    is logged, and [main] returns. *)

Module OldMain.
Section WithAgents.

Variable W : Type.
Variable agents : Agents W.

(** [main] runs against the lines printed so far and the world. *)
Definition body (A : Type) : Type := M (list pyval * W) A.

(** [print(v)]: [None] prints as [None]. *)
Definition print (v : pyval) : body unit :=
  fun s => (Ret tt, ((fst s ++ [v])%list, snd s)).

(** A call that prints nothing. *)
Definition call {A} (m : M W A) : body A :=
  fun s => let (r, w') := m (snd s) in (r, (fst s, w')).

(** The body of the [try]. *)
Definition pipeline : body unit :=
  result <- call (DataDownloaderAgent agents) ;;
  downloaded_file_path <- of_res (subscript result "downloaded_file_path") ;;
  metadata_file_path <- of_res (subscript result "metadata_file_path") ;;
  print downloaded_file_path ;;;
  print metadata_file_path ;;;
  result <- call (DataPreprocessorAgent agents downloaded_file_path) ;;
  processed_data_file_path <-
    of_res (subscript result "processed_data_file_path") ;;
  print processed_data_file_path ;;;
  result <- call (MetricsCalculatorAgent agents processed_data_file_path) ;;
  periods_file_path <- of_res (subscript result "periods_file_path") ;;
  metrics_file_path <- of_res (subscript result "metrics_file_path") ;;
  print periods_file_path ;;;
  print metrics_file_path ;;;
  result <- call (VisualizationsAgent agents processed_data_file_path) ;;
  last_30_days_json_file_path <-
    of_res (subscript result "last_30_days_json_file_path") ;;
  last_30_days_plot_file_path <-
    of_res (subscript result "last_30_days_plot_file_path") ;;
  last_12_months_json_file_path <-
    of_res (subscript result "last_12_months_json_file_path") ;;
  last_12_months_plot_file_path <-
    of_res (subscript result "last_12_months_plot_file_path") ;;
  print last_30_days_json_file_path ;;;
  print last_30_days_plot_file_path ;;;
  print last_12_months_json_file_path ;;;
  print last_12_months_plot_file_path ;;;
  result <- call (NewsCollectorAgent agents) ;;
  news_file_path <- of_res (subscript result "news_file_path") ;;
  print news_file_path ;;;
  result <- call (ReportGeneratorAgent agents metrics_file_path
                    last_30_days_json_file_path last_12_months_json_file_path
                    news_file_path) ;;
  report_file_path <- of_res (subscript result "report_file_path") ;;
  print report_file_path ;;;
  result <- call (FinalReportGeneratorAgent agents metadata_file_path
                    periods_file_path metrics_file_path report_file_path
                    last_30_days_plot_file_path last_12_months_plot_file_path) ;;
  final_report_file_path <- of_res (subscript result "final_report_file_path") ;;
  print final_report_file_path.

(** [except ValueError] and [except Exception]: both only log. *)
Definition main : body unit :=
  try_except pipeline
             (fun e => Os.is_ValueError e || Os.is_Exception e)
             (fun _ => ret tt).

(** The same pipeline as a loop over the names of the stages, with the
    local variables kept in a dict: every stage is called with the locals
    it reads, its result is subscripted key by key, the values are
    printed, and the locals are assigned. *)
Fixpoint read_keys {A} (result : option pydict) (ks : list string)
         (k : list pyval -> body A) : body A :=
  match ks with
  | [] => k []
  | key :: rest =>
      v <- of_res (subscript result key) ;;
      read_keys result rest (fun vs => k (v :: vs))
  end.

Fixpoint print_all {A} (vs : list pyval) (k : body A) : body A :=
  match vs with
  | [] => k
  | v :: rest => print v ;;; print_all rest k
  end.

Fixpoint assign (locals : pydict) (ks : list string) (vs : list pyval) : pydict :=
  match ks, vs with
  | k :: ks', v :: vs' => assign (dict_setitem locals k v) ks' vs'
  | _, _ => locals
  end.

Fixpoint stage_loop (ns : list string) (locals : pydict) : body unit :=
  match ns with
  | [] => ret tt
  | n :: rest =>
      result <- call (FinancialReportWorkflow.stage_call W agents n locals) ;;
      read_keys result (FinancialReportWorkflow.output_keys n) (fun vs =>
      print_all vs
        (stage_loop rest
           (assign locals (FinancialReportWorkflow.output_keys n) vs)))
  end.

End WithAgents.
End OldMain.

(** The values a state holds under the keys of the first [k] stages, in
    the order in which the stages return them. *)
Definition stage_values (k : nat) (state : pydict) : list pyval :=
  map (dict_get state)
      (flat_map FinancialReportWorkflow.output_keys
                (firstn k FinancialReportWorkflow.chain)).

(** * Properties *)

(** ** Dictionaries and channels *)

Section DictFacts.

Lemma dict_lookup_setitem (d : pydict) (k : string) (v : pyval) (k' : string) :
  dict_lookup (dict_setitem d k v) k'
  = if String.eqb k k' then Some v else dict_lookup d k'.
Proof.
  induction d as [|[k0 v0] d IH]; simpl.
  - destruct (String.eqb_spec k k'); reflexivity.
  - destruct (String.eqb_spec k0 k) as [->|Hk]; simpl.
    + destruct (String.eqb_spec k k'); reflexivity.
    + destruct (String.eqb_spec k0 k') as [->|Hk'].
      * destruct (String.eqb_spec k k'); [congruence | reflexivity].
      * apply IH.
Qed.

Lemma keys_setitem (d : pydict) (k : string) (v : pyval) :
  keys (dict_setitem d k v)
  = if has_key d k then keys d else (keys d ++ [k])%list.
Proof.
  unfold has_key, keys.
  induction d as [|[k0 v0] d IH]; simpl; [reflexivity|].
  destruct (String.eqb_spec k0 k) as [->|Hk]; simpl; [reflexivity|].
  rewrite IH.
  destruct (dict_lookup d k); reflexivity.
Qed.

Lemma has_key_In (d : pydict) (k : string) :
  has_key d k = true <-> In k (keys d).
Proof.
  unfold has_key.
  induction d as [|[k0 v0] d IH]; simpl.
  - split; [discriminate | tauto].
  - destruct (String.eqb_spec k0 k) as [->|Hk].
    + split; auto.
    + rewrite IH. split; [auto | intros [H|H]; [congruence | exact H]].
Qed.

Lemma NoDup_keys_setitem (d : pydict) (k : string) (v : pyval) :
  NoDup (keys d) -> NoDup (keys (dict_setitem d k v)).
Proof.
  intro H. rewrite keys_setitem.
  destruct (has_key d k) eqn:E; [exact H|].
  apply NoDup_app; [exact H | repeat constructor; simpl; tauto |].
  intros x Hx [<-|[]].
  apply has_key_In in Hx. congruence.
Qed.

Lemma lookup_read_channels (sch : list string) (c : pydict) (k : string) :
  dict_lookup (StateGraph.read_channels sch c) k
  = if existsb (String.eqb k) sch then dict_lookup c k else None.
Proof.
  unfold StateGraph.read_channels.
  induction sch as [|k0 sch IH]; simpl; [reflexivity|].
  rewrite (String.eqb_sym k k0).
  destruct (dict_lookup c k0) eqn:E; simpl.
  - destruct (String.eqb_spec k0 k) as [->|Hk]; simpl; [exact (eq_sym E) | exact IH].
  - destruct (String.eqb_spec k0 k) as [->|Hk]; simpl; [|exact IH].
    rewrite IH, E. destruct (existsb _ sch); reflexivity.
Qed.

Lemma keys_read_channels (sch : list string) (c : pydict) :
  keys (StateGraph.read_channels sch c) = filter (has_key c) sch.
Proof.
  unfold StateGraph.read_channels, has_key.
  induction sch as [|k0 sch IH]; simpl; [reflexivity|].
  destruct (dict_lookup c k0); simpl; [f_equal|]; exact IH.
Qed.

Lemma NoDup_keys_read_channels (sch : list string) (c : pydict) :
  NoDup sch -> NoDup (keys (StateGraph.read_channels sch c)).
Proof.
  intro H. rewrite keys_read_channels. apply NoDup_filter, H.
Qed.

Lemma lookup_apply_writes (sch : list string) (st c : pydict) (k : string) :
  NoDup (keys st) ->
  dict_lookup (StateGraph.apply_writes sch c st) k
  = if existsb (String.eqb k) sch
    then match dict_lookup st k with
         | Some v => Some v
         | None => dict_lookup c k
         end
    else dict_lookup c k.
Proof.
  unfold StateGraph.apply_writes.
  revert c. induction st as [|[k0 v0] st IH]; intros c Hnd; simpl.
  - destruct (existsb _ sch); reflexivity.
  - inversion Hnd as [|? ? Hnotin Hnd']; subst.
    rewrite (IH _ Hnd'). clear IH.
    destruct (String.eqb_spec k0 k) as [->|Hk].
    + assert (Hnone : dict_lookup st k = None).
      { destruct (dict_lookup st k) eqn:E; [|reflexivity].
        exfalso. apply Hnotin. apply has_key_In. unfold has_key.
        rewrite E. reflexivity. }
      rewrite Hnone.
      destruct (existsb (String.eqb k) sch) eqn:Ek; [|reflexivity].
      rewrite dict_lookup_setitem, String.eqb_refl. reflexivity.
    + destruct (existsb (String.eqb k) sch) eqn:Ek.
      * destruct (dict_lookup st k); [reflexivity|].
        destruct (existsb (String.eqb k0) sch); [|reflexivity].
        rewrite dict_lookup_setitem.
        destruct (String.eqb_spec k0 k); [congruence | reflexivity].
      * destruct (existsb (String.eqb k0) sch); [|reflexivity].
        rewrite dict_lookup_setitem.
        destruct (String.eqb_spec k0 k); [congruence | reflexivity].
Qed.

End DictFacts.

(** ** The nodes *)

Section NodeFacts.

Variable W : Type.
Variable agents : Agents W.

Import FinancialReportWorkflow.

Ltac crunch :=
  repeat (match goal with
          | |- context [match ?x with _ => _ end] => destruct x
          end);
  try reflexivity.

(** Every node method has the shape: run the agent on what [state.get]
    returns, then copy the keys of [output_keys] one by one. *)
Lemma node_body_shape (name : string) (b : body W unit) :
  node_body W agents name = Some b ->
  forall s, b s = node_shape W agents name s.
Proof.
  unfold node_body. intros H [st w].
  repeat (match type of H with
          | (if String.eqb name ?c then _ else _) = _ =>
              destruct (String.eqb_spec name c) as [->|_];
              [injection H as <-;
               cbv -[dict_setitem dict_lookup dict_get]; crunch |]
          end).
  discriminate H.
Qed.

End NodeFacts.

Section ShapeFacts.

Variable W : Type.
Variable agents : Agents W.

Import FinancialReportWorkflow.

Lemma existsb_eqb_In (k : string) (l : list string) :
  existsb (String.eqb k) l = true <-> In k l.
Proof.
  rewrite existsb_exists. split.
  - intros [x [Hx E]]. apply String.eqb_eq in E. subst. exact Hx.
  - intro H. exists k. split; [exact H | apply String.eqb_refl].
Qed.

(** Copying never touches the world. *)
Lemma copy_keys_world (result : option pydict) (ks : list string)
      (st : pydict) (w : W) :
  snd (snd (copy_keys W result ks (st, w))) = w.
Proof.
  revert st. induction ks as [|k ks IH]; intro st; simpl; [reflexivity|].
  unfold bind, of_res, state_setitem. simpl.
  destruct (subscript result k); simpl; [apply IH | reflexivity].
Qed.

(** [None[k]] raises before anything is assigned. *)
Lemma copy_keys_None (ks : list string) (st : pydict) (w : W) :
  ks <> [] ->
  copy_keys W None ks (st, w) = (Raise TypeError_NoneType, (st, w)).
Proof.
  destruct ks; [congruence | reflexivity].
Qed.

(** When the copy succeeds the result held every key, and the state is
    the old one with those keys bound to the values of the result. *)
Lemma copy_keys_Some_ok (d : pydict) (ks : list string)
      (st st' : pydict) (w w' : W) :
  copy_keys W (Some d) ks (st, w) = (Ret tt, (st', w')) ->
  w' = w
  /\ (forall k, In k ks -> exists v, dict_lookup d k = Some v)
  /\ (forall k, dict_lookup st' k
                = if existsb (String.eqb k) ks then dict_lookup d k
                  else dict_lookup st k)
  /\ (NoDup (keys st) -> NoDup (keys st')).
Proof.
  revert st. induction ks as [|k ks IH]; intro st; simpl.
  - intro H. injection H as <- <-. repeat split; auto. intros k [].
  - unfold bind at 1, of_res at 1. simpl. unfold dict_getitem.
    destruct (dict_lookup d k) as [v|] eqn:E; [|discriminate].
    unfold bind at 1, state_setitem at 1. simpl.
    intro H. destruct (IH _ H) as (Hw & Hall & Hlook & Hnd).
    split; [exact Hw|]. split; [|split].
    + intros k0 [<-|Hin]; [eauto | auto].
    + intro k0. rewrite Hlook, dict_lookup_setitem.
      rewrite (String.eqb_sym k0 k).
      destruct (String.eqb_spec k k0) as [->|Hk]; simpl.
      * destruct (existsb _ ks); [reflexivity | auto].
      * reflexivity.
    + intro H0. apply Hnd, NoDup_keys_setitem, H0.
Qed.

(** When the copy fails on a [dict], a key was missing from it. *)
Lemma copy_keys_Some_fail (d : pydict) (ks : list string)
      (st st' : pydict) (w w' : W) (e : exn) :
  copy_keys W (Some d) ks (st, w) = (Raise e, (st', w')) ->
  exists k, In k ks /\ dict_lookup d k = None /\ e = KeyError k.
Proof.
  revert st. induction ks as [|k ks IH]; intro st; simpl.
  - discriminate.
  - unfold bind at 1, of_res at 1. simpl. unfold dict_getitem.
    destruct (dict_lookup d k) as [v|] eqn:E.
    + unfold bind at 1, state_setitem at 1. simpl. intro H.
      destruct (IH _ H) as (k0 & Hin & Hk0 & He). eauto.
    + intro H. injection H as <- _ _. eauto.
Qed.

(** A result that holds every key is copied whole. *)
Lemma copy_keys_total (d : pydict) (ks : list string) (st : pydict) (w : W) :
  (forall k, In k ks -> has_key d k = true) ->
  exists st', copy_keys W (Some d) ks (st, w) = (Ret tt, (st', w)).
Proof.
  revert st. induction ks as [|k ks IH]; intros st H; simpl.
  - eexists. reflexivity.
  - unfold bind at 1, of_res at 1. simpl. unfold dict_getitem.
    assert (Hk : has_key d k = true) by (apply H; left; reflexivity).
    unfold has_key in Hk. destruct (dict_lookup d k); [|discriminate].
    unfold bind at 1, state_setitem at 1. simpl.
    apply IH. intros k0 Hin. apply H. right. exact Hin.
Qed.

Lemma node_body_output_keys (name : string) (b : body W unit) :
  node_body W agents name = Some b -> output_keys name <> [].
Proof.
  unfold node_body, output_keys.
  repeat (destruct (String.eqb name _); [discriminate|]).
  discriminate.
Qed.

Lemma node_body_in_chain (name : string) (b : body W unit) :
  node_body W agents name = Some b -> In name chain.
Proof.
  unfold node_body, chain. intro H.
  repeat (match type of H with
          | (if String.eqb name ?c then _ else _) = _ =>
              destruct (String.eqb_spec name c) as [->|_]; [simpl; tauto|]
          end).
  discriminate H.
Qed.

(** The three ways a node method ends, by what its agent did. *)
Lemma node_agent_raises (name : string) (b : body W unit)
      (st : pydict) (w w' : W) (e : exn) :
  node_body W agents name = Some b ->
  stage_call W agents name st w = (Raise e, w') ->
  b (st, w) = (Raise e, (st, w')).
Proof.
  intros Hb Hc. rewrite (node_body_shape W agents name b Hb).
  unfold node_shape, bind, call. simpl. rewrite Hc. reflexivity.
Qed.

Lemma node_agent_None (name : string) (b : body W unit)
      (st : pydict) (w w' : W) :
  node_body W agents name = Some b ->
  stage_call W agents name st w = (Ret None, w') ->
  b (st, w) = (Raise TypeError_NoneType, (st, w')).
Proof.
  intros Hb Hc. rewrite (node_body_shape W agents name b Hb).
  unfold node_shape, bind, call. simpl. rewrite Hc.
  apply copy_keys_None. exact (node_body_output_keys name b Hb).
Qed.

Lemma node_success (name : string) (b : body W unit)
      (st st' : pydict) (w w' : W) :
  node_body W agents name = Some b ->
  b (st, w) = (Ret tt, (st', w')) ->
  exists d,
    stage_call W agents name st w = (Ret (Some d), w')
    /\ (forall k, In k (output_keys name) -> exists v, dict_lookup d k = Some v)
    /\ (forall k, dict_lookup st' k
                  = if existsb (String.eqb k) (output_keys name)
                    then dict_lookup d k else dict_lookup st k)
    /\ (NoDup (keys st) -> NoDup (keys st')).
Proof.
  intros Hb. rewrite (node_body_shape W agents name b Hb).
  unfold node_shape, bind, call. simpl.
  destruct (stage_call W agents name st w) as [[[d|]|e] w1] eqn:Hc.
  - intro H. destruct (copy_keys_Some_ok _ _ _ _ _ _ H) as (-> & H1 & H2 & H3).
    exists d. auto.
  - rewrite copy_keys_None by exact (node_body_output_keys name b Hb).
    discriminate.
  - discriminate.
Qed.

End ShapeFacts.

(** ** The graph *)

Section GraphFacts.

Variable W : Type.
Variable agents : Agents W.

Import StateGraph.
Import FinancialReportWorkflow.

(** On the graph of [_build_graph], [invoke] runs the seven nodes one
    after the other, within the step limit. *)
Lemma run_observed_chain (w : W) :
  run_observed W agents w = run_chain W AgentState (stages W agents) [] w.
Proof.
  unfold run_observed, invoke_observed, _build_graph, stages.
  generalize (as_node W (_node_data_downloader W agents)),
             (as_node W (_node_data_preprocessor W agents)),
             (as_node W (_node_metrics_calculator W agents)),
             (as_node W (_node_visualizations W agents)),
             (as_node W (_node_news_collector W agents)),
             (as_node W (_node_report_generator W agents)),
             (as_node W (_node_final_report_generator W agents)).
  intros f1 f2 f3 f4 f5 f6 f7.
  generalize AgentState. intro sch.
  cbn -[read_channels apply_writes].
  change (apply_writes sch [] []) with (@nil (string * pyval)).
  repeat (match goal with
          | |- context [match ?f (read_channels ?s ?c) ?y with _ => _ end] =>
              destruct (f (read_channels s c) y) as [[?|?] ?];
              cbn -[read_channels apply_writes]
          end; try reflexivity).
Qed.

End GraphFacts.

Section ChainFacts.

Variable W : Type.
Variable sch : list string.

Import StateGraph.

Lemma add_events_nil (o : outcome W) : add_events W [] o = o.
Proof. destruct o; reflexivity. Qed.

Lemma add_events_app (a b : list (event)) (o : outcome W) :
  add_events W (a ++ b) o = add_events W a (add_events W b o).
Proof. unfold add_events. simpl. rewrite <- app_assoc. reflexivity. Qed.

(** A run of [ns1 ++ ns2] is the run of [ns1], followed when it completes
    by the run of [ns2] from where [ns1] ended. *)
Lemma run_chain_app (ns1 ns2 : list (string * NodeFn W)) (c : pydict) (w : W) :
  run_chain W sch (ns1 ++ ns2) c w
  = let o1 := run_chain W sch ns1 c w in
    match result W o1 with
    | Ret _ => add_events W (trace W o1)
                 (run_chain W sch ns2 (accumulator W o1) (world W o1))
    | Raise _ => o1
    end.
Proof.
  revert c w. induction ns1 as [|[n fn] ns1 IH]; intros c w; simpl.
  - symmetry. apply add_events_nil.
  - destruct (fn (read_channels sch c) w) as [[st|e] w1]; simpl; [|reflexivity].
    rewrite IH. simpl.
    destruct (result W (run_chain W sch ns1 (apply_writes sch c st) w1));
      [|reflexivity].
    unfold add_events. simpl. reflexivity.
Qed.

(** A run that returns has entered and left every node, and returns the
    channels it ended with. *)
Lemma run_chain_Ret (ns : list (string * NodeFn W)) (c : pydict) (w : W)
      (st : pydict) :
  result W (run_chain W sch ns c w) = Ret st ->
  trace W (run_chain W sch ns c w) = completed (map fst ns)
  /\ st = read_channels sch (accumulator W (run_chain W sch ns c w)).
Proof.
  revert c w. induction ns as [|[n fn] ns IH]; intros c w; simpl.
  - intro H. injection H as <-. auto.
  - destruct (fn (read_channels sch c) w) as [[st1|e] w1]; simpl; [|discriminate].
    intro H. destruct (IH _ _ H) as [Ht Hs]. rewrite Ht. auto.
Qed.

(** A run that raises stopped in the node that raised: the nodes before
    it were entered and left, nothing follows the abort, and the channels
    are those the failing node was entered with. *)
Lemma run_chain_Raise (ns : list (string * NodeFn W)) (c : pydict) (w : W)
      (e : exn) :
  result W (run_chain W sch ns c w) = Raise e ->
  exists k n fn,
    nth_error ns k = Some (n, fn)
    /\ trace W (run_chain W sch ns c w)
       = (completed (map fst (firstn k ns)) ++ [Enter n; Abort n e])%list
    /\ result W (run_chain W sch (firstn k ns) c w)
       = Ret (read_channels sch (accumulator W (run_chain W sch ns c w)))
    /\ accumulator W (run_chain W sch ns c w)
       = accumulator W (run_chain W sch (firstn k ns) c w).
Proof.
  revert c w. induction ns as [|[n fn] ns IH]; intros c w; simpl.
  - discriminate.
  - destruct (fn (read_channels sch c) w) as [[st1|e1] w1] eqn:Hfn; simpl.
    + intro H. destruct (IH _ _ H) as (k & n' & fn' & Hk & Ht & Hr & Ha).
      exists (S k), n', fn'. simpl. rewrite Hfn. simpl.
      rewrite Ht. auto.
    + intro H. injection H as ->.
      exists O, n, fn. simpl. auto.
Qed.

(** When the nodes of [ns1] complete and the next node raises, the run
    ends there. *)
Lemma run_chain_abort (ns1 ns2 : list (string * NodeFn W)) (n : string)
      (fn : NodeFn W) (c : pydict) (w w' : W) (st : pydict) (e : exn) :
  result W (run_chain W sch ns1 c w) = Ret st ->
  fn st (world W (run_chain W sch ns1 c w)) = (Raise e, w') ->
  let o := run_chain W sch (ns1 ++ (n, fn) :: ns2) c w in
  result W o = Raise e
  /\ accumulator W o = accumulator W (run_chain W sch ns1 c w)
  /\ trace W o = (completed (map fst ns1) ++ [Enter n; Abort n e])%list
  /\ world W o = w'.
Proof.
  intros Hr Hfn o. unfold o. rewrite run_chain_app. simpl.
  destruct (run_chain_Ret _ _ _ _ Hr) as [Ht Hs].
  rewrite Hr, Ht. simpl. rewrite <- Hs, Hfn. simpl. auto.
Qed.

(** What precedes the entry of a node in the trace of a run: the nodes
    before it, each entered and left, in the order of the chain; and the
    run of those nodes alone returns. *)
Lemma run_chain_trace (ns : list (string * NodeFn W)) (c : pydict) (w : W)
      (pre post : list event) (s : string) :
  trace W (run_chain W sch ns c w) = (pre ++ Enter s :: post)%list ->
  exists k st, nth_error (map fst ns) k = Some s
               /\ pre = completed (firstn k (map fst ns))
               /\ result W (run_chain W sch (firstn k ns) c w) = Ret st.
Proof.
  revert c w pre. induction ns as [|[n fn] ns IH]; intros c w pre; simpl.
  - destruct pre; discriminate.
  - destruct (fn (read_channels sch c) w) as [[st1|e1] w1] eqn:Hfn; simpl.
    + destruct pre as [|ev pre]; simpl.
      * intro H. injection H as <- _. exists O. simpl. eauto.
      * intro H. injection H as <- H.
        destruct pre as [|ev pre]; simpl in H; [discriminate|].
        injection H as <- H.
        destruct (IH _ _ _ H) as (k & st & Hk & Hpre & Hres).
        exists (S k), st. simpl. rewrite Hfn. simpl. rewrite Hpre. auto.
    + destruct pre as [|ev pre]; simpl.
      * intro H. injection H as <- _. exists O. simpl. eauto.
      * intro H. injection H as <- H.
        destruct pre as [|ev pre]; simpl in H; [discriminate|].
        injection H as _ H. destruct pre; discriminate.
Qed.

End ChainFacts.

(** ** The stages of the workflow *)

Section StageFacts.

Variable W : Type.
Variable agents : Agents W.

Import StateGraph.
Import FinancialReportWorkflow.

Lemma NoDup_AgentState : NoDup AgentState.
Proof.
  unfold AgentState.
  repeat (constructor; [simpl; intuition discriminate|]). constructor.
Qed.

(** Every key of the state has exactly one stage that writes it. *)
Lemma NoDup_output_keys : NoDup (flat_map output_keys chain).
Proof.
  cbv [flat_map chain output_keys String.eqb Ascii.eqb Bool.eqb app].
  repeat (constructor; [simpl; intuition discriminate|]). constructor.
Qed.

Lemma output_keys_AgentState (key : string) :
  In key AgentState <-> In key (flat_map output_keys chain).
Proof.
  cbv [flat_map chain output_keys String.eqb Ascii.eqb Bool.eqb app AgentState].
  simpl. tauto.
Qed.

Lemma output_keys_in_schema (n key : string) :
  In n chain -> In key (output_keys n) -> In key AgentState.
Proof.
  intros Hn Hk. apply output_keys_AgentState.
  apply in_flat_map. exists n. auto.
Qed.

Lemma map_fst_stages : map fst (stages W agents) = chain.
Proof. reflexivity. Qed.

Lemma node_methods_stages : node_methods W agents (stages W agents).
Proof.
  unfold node_methods, stages.
  repeat (constructor; [eexists; split; reflexivity|]). constructor.
Qed.

Lemma as_node_Ret (b : body W unit) (st st' : pydict) (w w' : W) :
  as_node W b st w = (Ret st', w') -> b (st, w) = (Ret tt, (st', w')).
Proof.
  unfold as_node. destruct (b (st, w)) as [[[]|e] [st1 w1]]; simpl;
    [|discriminate].
  intro H. inversion H. subst. reflexivity.
Qed.

Lemma as_node_Raise (b : body W unit) (st st' : pydict) (w w' : W) (e : exn) :
  b (st, w) = (Raise e, (st', w')) -> as_node W b st w = (Raise e, w').
Proof. unfold as_node. intros ->. reflexivity. Qed.

(** One completed stage, seen from the channels: the agent returned a
    dict, the output keys of the stage now hold its values, and every
    other key holds what it held. *)
Lemma stage_write (n : string) (b : body W unit) (c st' : pydict) (w w' : W) :
  node_body W agents n = Some b ->
  as_node W b (read_channels AgentState c) w = (Ret st', w') ->
  exists d,
    stage_call W agents n (read_channels AgentState c) w = (Ret (Some d), w')
    /\ (forall key, In key (output_keys n) ->
          exists v, dict_lookup d key = Some v
                    /\ dict_lookup (apply_writes AgentState c st') key = Some v)
    /\ (forall key, ~ In key (output_keys n) ->
          dict_lookup (apply_writes AgentState c st') key = dict_lookup c key).
Proof.
  intros Hb Hn. apply as_node_Ret in Hn.
  destruct (node_success W agents n b _ _ _ _ Hb Hn) as (d & Hc & Hd & Hl & Hnd).
  specialize (Hnd (NoDup_keys_read_channels _ _ NoDup_AgentState)).
  exists d. split; [exact Hc|]. split.
  - intros key Hk. destruct (Hd key Hk) as [v Hv]. exists v. split; [exact Hv|].
    rewrite (lookup_apply_writes _ _ _ _ Hnd).
    assert (Hs : existsb (String.eqb key) AgentState = true).
    { apply existsb_eqb_In.
      exact (output_keys_in_schema n key (node_body_in_chain W agents n b Hb) Hk). }
    rewrite Hs, Hl.
    apply existsb_eqb_In in Hk. rewrite Hk, Hv. reflexivity.
  - intros key Hk.
    rewrite (lookup_apply_writes _ _ _ _ Hnd), Hl.
    destruct (existsb (String.eqb key) (output_keys n)) eqn:E.
    + apply existsb_eqb_In in E. contradiction.
    + rewrite lookup_read_channels.
      destruct (existsb (String.eqb key) AgentState); [|reflexivity].
      destruct (dict_lookup c key); reflexivity.
Qed.

Lemma NoDup_app_disjoint {A} (l1 l2 : list A) (x : A) :
  NoDup (l1 ++ l2) -> In x l1 -> In x l2 -> False.
Proof.
  induction l1 as [|a l1 IH]; simpl; [tauto|].
  intros Hnd [->|H1] H2; inversion Hnd as [|? ? Hn Hnd']; subst.
  - apply Hn, in_or_app. right. exact H2.
  - exact (IH Hnd' H1 H2).
Qed.

(** A completed run of a chain of node methods: the keys of its stages
    are bound, each to the value its stage's agent returned, and all
    other keys are as they were. *)
Lemma chain_writes (ns : list (string * NodeFn W)) (c : pydict) (w : W)
      (st : pydict) :
  node_methods W agents ns ->
  NoDup (flat_map output_keys (map fst ns)) ->
  result W (run_chain W AgentState ns c w) = Ret st ->
  let c' := accumulator W (run_chain W AgentState ns c w) in
  (forall n key, In n (map fst ns) -> In key (output_keys n) ->
     exists d st0 w0 w1 v,
       stage_call W agents n st0 w0 = (Ret (Some d), w1)
       /\ dict_lookup d key = Some v /\ dict_lookup c' key = Some v)
  /\ (forall key, ~ In key (flat_map output_keys (map fst ns)) ->
        dict_lookup c' key = dict_lookup c key).
Proof.
  revert c w. induction ns as [|[n fn] ns IH]; intros c w Hm Hnd;
    cbn [run_chain map fst flat_map].
  - intros _. split; [intros n key []|reflexivity].
  - inversion Hm as [|? ? [b [Hb Hfn]] Hm']; subst.
    cbn [fst snd] in Hb, Hfn. subst fn.
    cbn [map fst flat_map] in Hnd.
    destruct (as_node W b (read_channels AgentState c) w) as [[st1|e] w1] eqn:Hn;
      unfold add_events; cbn [result accumulator]; [|discriminate].
    intro Hr.
    destruct (stage_write n b c st1 w w1 Hb Hn) as (d & Hc & Hin & Hout).
    assert (Hnd' : NoDup (flat_map output_keys (map fst ns))).
    { clear - Hnd. induction (output_keys n); simpl in Hnd; [exact Hnd|].
      inversion Hnd; auto. }
    destruct (IH _ _ Hm' Hnd' Hr) as [IHin IHout].
    split.
    + intros n0 key [<-|Hn0] Hk.
      * destruct (Hin key Hk) as (v & Hv & Hv').
        exists d, (read_channels AgentState c), w, w1, v.
        split; [exact Hc|]. split; [exact Hv|].
        rewrite IHout; [exact Hv'|].
        intro Hk'. exact (NoDup_app_disjoint _ _ key Hnd Hk Hk').
      * exact (IHin n0 key Hn0 Hk).
    + intros key Hk. rewrite IHout.
      * apply Hout. intro Hk'. apply Hk, in_or_app. left. exact Hk'.
      * intro Hk'. apply Hk, in_or_app. right. exact Hk'.
Qed.

Lemma firstn_skipn_nth {A} (l : list A) (k : nat) (x : A) :
  nth_error l k = Some x -> l = (firstn k l ++ x :: skipn (S k) l)%list.
Proof.
  revert k. induction l as [|a l IH]; intros [|k]; simpl; try discriminate.
  - intro H. injection H as ->. reflexivity.
  - intro H. f_equal. exact (IH k H).
Qed.

Lemma node_methods_firstn (k : nat) (ns : list (string * NodeFn W)) :
  node_methods W agents ns -> node_methods W agents (firstn k ns).
Proof.
  unfold node_methods. revert k.
  induction ns as [|a ns IH]; intros [|k] H; simpl; try constructor;
    inversion H; subst; auto.
Qed.

Lemma node_methods_skipn (k : nat) (ns : list (string * NodeFn W)) :
  node_methods W agents ns -> node_methods W agents (skipn k ns).
Proof.
  unfold node_methods. revert k.
  induction ns as [|a ns IH]; intros [|k] H; simpl; auto.
  inversion H; subst; auto.
Qed.

End StageFacts.

(** ** The orchestration properties *)

Section Orchestration.

Variable W : Type.
Variable agents : Agents W.

Import StateGraph.
Import FinancialReportWorkflow.

Lemma firstn_stages (k : nat) :
  map fst (firstn k (stages W agents)) = firstn k chain.
Proof. rewrite <- firstn_map. reflexivity. Qed.

(** C1. The seven stages run in the fixed order of the chain: whenever a
    stage is entered, it is the k-th stage of the chain for some k, what
    happened before is exactly that each of the k stages before it was
    entered and left (it returned without raising), in order, and the run
    of those k stages alone completes. *)
Theorem C1_stages_run_in_chain_order (w : W) (pre post : list event) (s : string) :
  trace W (run_observed W agents w) = (pre ++ Enter s :: post)%list ->
  exists k st,
    nth_error chain k = Some s
    /\ pre = completed (firstn k chain)
    /\ result W (run_prefix W agents k w) = Ret st.
Proof.
  rewrite run_observed_chain. intro H.
  destruct (run_chain_trace W AgentState _ _ _ _ _ _ H) as (k & st & Hk & Hpre & Hr).
  exists k, st. rewrite map_fst_stages in Hk, Hpre. auto.
Qed.

(** C5. When the first k stages complete with state [st] and the next
    stage raises, the run raises that exception, the state the graph
    holds is [st], the state at the end of the stage before, nothing is
    entered after the failed stage, and a stage whose agent reports a
    failure (a [None] result, or an exception) has not assigned a key in
    the dict it was handed. *)
Theorem C5_failed_stage_adds_nothing (w w' : W) (k : nat) (n : string)
        (fn : NodeFn W) (st : pydict) (e : exn) :
  nth_error (stages W agents) k = Some (n, fn) ->
  result W (run_prefix W agents k w) = Ret st ->
  fn st (world W (run_prefix W agents k w)) = (Raise e, w') ->
  let o := run_observed W agents w in
  result W o = Raise e
  /\ read_channels AgentState (accumulator W o) = st
  /\ accumulator W o = accumulator W (run_prefix W agents k w)
  /\ trace W o = (completed (firstn k chain) ++ [Enter n; Abort n e])%list
  /\ world W o = w'
  /\ (forall b s w0 w1,
        node_body W agents n = Some b ->
        stage_call W agents n s w0 = (Ret None, w1) ->
        b (s, w0) = (Raise TypeError_NoneType, (s, w1)))
  /\ (forall b s w0 w1 e0,
        node_body W agents n = Some b ->
        stage_call W agents n s w0 = (Raise e0, w1) ->
        b (s, w0) = (Raise e0, (s, w1))).
Proof.
  intros Hk Hr Hfn o. unfold o, run_prefix in *.
  rewrite run_observed_chain.
  pose proof (run_chain_abort W AgentState _ (skipn (S k) (stages W agents))
                n fn [] w w' st e Hr Hfn) as H.
  cbv zeta in H. rewrite <- (firstn_skipn_nth _ _ _ Hk) in H.
  destruct H as (H1 & H2 & H3 & H4).
  rewrite H1, H2, H3, H4, firstn_stages.
  destruct (run_chain_Ret W AgentState _ _ _ _ Hr) as [_ Hs].
  repeat split; auto.
  - intros b s w0 w1 Hb Hc. exact (node_agent_None W agents n b s w0 w1 Hb Hc).
  - intros b s w0 w1 e0 Hb Hc. exact (node_agent_raises W agents n b s w0 w1 e0 Hb Hc).
Qed.

End Orchestration.

Section Accumulation.

Variable W : Type.
Variable agents : Agents W.

Import StateGraph.
Import FinancialReportWorkflow.

Lemma firstn_split {A} (l : list A) (k j : nat) :
  (k <= j)%nat -> firstn j l = (firstn k l ++ skipn k (firstn j l))%list.
Proof.
  intro H. rewrite <- (firstn_skipn k (firstn j l)) at 1.
  rewrite firstn_firstn, Nat.min_l by exact H. reflexivity.
Qed.

Lemma NoDup_outputs_firstn (j : nat) :
  NoDup (flat_map output_keys (firstn j chain)).
Proof.
  pose proof NoDup_output_keys as H.
  rewrite <- (firstn_skipn j chain), flat_map_app in H.
  exact (NoDup_app_remove_r _ _ H).
Qed.

(** The keys bound after the first [k] stages are output keys of those
    stages. *)
Lemma prefix_keys (k : nat) (w : W) (st : pydict) (key : string) (v : pyval) :
  result W (run_prefix W agents k w) = Ret st ->
  dict_lookup (accumulator W (run_prefix W agents k w)) key = Some v ->
  In key (flat_map output_keys (firstn k chain)).
Proof.
  unfold run_prefix. intros Hr Hv.
  destruct (in_dec string_dec key (flat_map output_keys (firstn k chain)))
    as [Hin|Hnin]; [exact Hin|].
  exfalso.
  destruct (chain_writes W agents _ [] w st
              (node_methods_firstn W agents k _ (node_methods_stages W agents))
              ltac:(rewrite firstn_stages; apply NoDup_outputs_firstn) Hr)
    as [_ Hout].
  rewrite Hout in Hv by (rewrite firstn_stages; exact Hnin).
  discriminate.
Qed.

(** A key bound after [k] stages is bound to the same value after [j >= k]. *)
Lemma prefix_monotone (w : W) (k j : nat) (sk sj : pydict)
      (key : string) (v : pyval) :
  (k <= j)%nat ->
  result W (run_prefix W agents k w) = Ret sk ->
  result W (run_prefix W agents j w) = Ret sj ->
  dict_lookup sk key = Some v ->
  dict_lookup sj key = Some v.
Proof.
  intros Hkj Hk Hj Hv.
  destruct (run_chain_Ret W AgentState _ _ _ _ Hk) as [_ Esk].
  destruct (run_chain_Ret W AgentState _ _ _ _ Hj) as [_ Esj].
  fold (run_prefix W agents k w) in Esk. fold (run_prefix W agents j w) in Esj.
  rewrite Esk, lookup_read_channels in Hv.
  rewrite Esj, lookup_read_channels.
  destruct (existsb (String.eqb key) AgentState); [|discriminate].
  pose proof (prefix_keys k w sk key v Hk Hv) as Hin.
  unfold run_prefix in Hj |- *.
  rewrite (firstn_split (stages W agents) k j Hkj) in Hj |- *.
  rewrite run_chain_app in Hj |- *. cbv zeta in Hj |- *.
  fold (run_prefix W agents k w) in Hj |- *.
  rewrite Hk in Hj |- *.
  unfold add_events in Hj |- *. cbn [result accumulator] in Hj |- *.
  set (mid := skipn k (firstn j (stages W agents))) in *.
  assert (Hmid : map fst mid = skipn k (firstn j chain)).
  { unfold mid. rewrite <- skipn_map, firstn_stages. reflexivity. }
  assert (Hnd : NoDup (flat_map output_keys (firstn k chain)
                       ++ flat_map output_keys (map fst mid))).
  { rewrite Hmid, <- flat_map_app, <- (firstn_split chain k j Hkj).
    apply NoDup_outputs_firstn. }
  destruct (chain_writes W agents mid _ _ sj
              (node_methods_skipn W agents k _
                 (node_methods_firstn W agents j _ (node_methods_stages W agents)))
              (NoDup_app_remove_l _ _ Hnd) Hj) as [_ Hout].
  rewrite Hout; [exact Hv|].
  intro Hin'. exact (NoDup_app_disjoint _ _ key Hnd Hin Hin').
Qed.

(** C4. A stage that succeeds on [s] returns [s] with exactly its output
    keys added: the keys of the returned state are those of [s] and the
    output keys of the stage, and every other key is bound as in [s].
    Each key of the state is an output key of exactly one stage, and in a
    run a key that is bound after k stages is bound to the same value
    after any later stage. *)
Theorem C4_stage_adds_exactly_its_keys (n : string) (b : body W unit)
        (s s' : pydict) (w w' : W) :
  node_body W agents n = Some b ->
  b (s, w) = (Ret tt, (s', w')) ->
  (forall key, In key (keys s') <-> In key (keys s) \/ In key (output_keys n))
  /\ (forall key, ~ In key (output_keys n) ->
        dict_lookup s' key = dict_lookup s key)
  /\ NoDup (flat_map output_keys chain)
  /\ (forall key, In key AgentState <-> In key (flat_map output_keys chain))
  /\ (forall w0 k j sk sj key v,
        (k <= j)%nat ->
        result W (run_prefix W agents k w0) = Ret sk ->
        result W (run_prefix W agents j w0) = Ret sj ->
        dict_lookup sk key = Some v ->
        dict_lookup sj key = Some v).
Proof.
  intros Hb Hs.
  destruct (node_success W agents n b s s' w w' Hb Hs) as (d & _ & Hd & Hl & _).
  split; [|split; [|split; [|split]]].
  - intro key. rewrite <- !has_key_In. unfold has_key. rewrite Hl.
    destruct (existsb (String.eqb key) (output_keys n)) eqn:E.
    + apply existsb_eqb_In in E. destruct (Hd key E) as [v ->]. tauto.
    + split; [tauto|]. intros [H|H]; [exact H|].
      apply existsb_eqb_In in H. congruence.
  - intros key Hk. rewrite Hl.
    destruct (existsb (String.eqb key) (output_keys n)) eqn:E; [|reflexivity].
    apply existsb_eqb_In in E. contradiction.
  - exact NoDup_output_keys.
  - exact output_keys_AgentState.
  - intros w0 k j sk sj key v. apply prefix_monotone.
Qed.

End Accumulation.

Section Completion.

Variable W : Type.

Import StateGraph.
Import FinancialReportWorkflow.

Lemma filter_all {A} (f : A -> bool) (l : list A) :
  (forall x, In x l -> f x = true) -> filter f l = l.
Proof.
  induction l as [|a l IH]; simpl; intro H; [reflexivity|].
  rewrite (H a) by (left; reflexivity). f_equal. apply IH. auto.
Qed.

Lemma run_as_observed (agents : Agents W) (w : W) :
  run W agents w
  = (result W (run_observed W agents w), world W (run_observed W agents w)).
Proof. unfold run, run_observed, invoke. reflexivity. Qed.

(** A run that returns, returns a state with every key of [AgentState],
    in the order of the class, each bound to a value its stage's agent
    returned under that key. *)
Lemma completed_run_state (agents : Agents W) (w : W) (final : pydict) :
  result W (run_observed W agents w) = Ret final ->
  keys final = AgentState
  /\ (forall n key, In n chain -> In key (output_keys n) ->
        exists d st0 w0 w1 v,
          stage_call W agents n st0 w0 = (Ret (Some d), w1)
          /\ dict_lookup d key = Some v /\ dict_lookup final key = Some v).
Proof.
  rewrite run_observed_chain. intro Hr.
  destruct (chain_writes W agents _ [] w final (node_methods_stages W agents)
              NoDup_output_keys Hr) as [Hin _].
  destruct (run_chain_Ret W AgentState _ _ _ _ Hr) as [_ ->].
  split.
  - rewrite keys_read_channels. apply filter_all.
    intros key Hk. apply output_keys_AgentState in Hk.
    apply in_flat_map in Hk. destruct Hk as (n & Hn & Hk).
    destruct (Hin n key Hn Hk) as (d & st0 & w0 & w1 & v & _ & _ & Hv).
    unfold has_key. rewrite Hv. reflexivity.
  - intros n key Hn Hk.
    destruct (Hin n key Hn Hk) as (d & st0 & w0 & w1 & v & Hc & Hd & Hv).
    exists d, st0, w0, w1, v. split; [exact Hc|]. split; [exact Hd|].
    rewrite lookup_read_channels.
    assert (Hs : existsb (String.eqb key) AgentState = true).
    { apply existsb_eqb_In. exact (output_keys_in_schema n key Hn Hk). }
    rewrite Hs. exact Hv.
Qed.

(** A chain whose nodes all return, whatever they are given, returns. *)
Lemma run_chain_total (sch : list string) (ns : list (string * NodeFn W))
      (c : pydict) (w : W) :
  Forall (fun nf => forall st w0, exists st', snd nf st w0 = (Ret st', w0)) ns ->
  exists st, result W (run_chain W sch ns c w) = Ret st
             /\ world W (run_chain W sch ns c w) = w.
Proof.
  revert c. induction ns as [|[n fn] ns IH]; intros c H; simpl.
  - eauto.
  - inversion H as [|? ? Hfn H']; subst. simpl in Hfn.
    destruct (Hfn (read_channels sch c) w) as [st' ->]. simpl.
    apply IH, H'.
Qed.

Section Stubs.

Variables d1 d2 d3 d4 d5 d6 d7 : pydict.

Local Abbreviation stubs := (succeeding_stubs W d1 d2 d3 d4 d5 d6 d7).
Local Abbreviation results := (stage_results d1 d2 d3 d4 d5 d6 d7).

Lemma stub_stage_call (n : string) (d : pydict) (st : pydict) (w : W) :
  In (n, d) results ->
  stage_call W stubs n st w = (Ret (Some d), w).
Proof.
  unfold stage_results. simpl.
  intros [H|[H|[H|[H|[H|[H|[H|[]]]]]]]]; injection H as <- <-; reflexivity.
Qed.

Lemma results_chain (n : string) :
  In n chain -> exists d, In (n, d) results.
Proof.
  unfold chain, stage_results. simpl.
  intros [<-|[<-|[<-|[<-|[<-|[<-|[<-|[]]]]]]]]; eexists; eauto 10.
Qed.

Lemma results_names (n : string) (d : pydict) :
  In (n, d) results -> In n chain.
Proof.
  unfold stage_results, chain. simpl.
  intros [H|[H|[H|[H|[H|[H|[H|[]]]]]]]]; injection H as <- _; auto 10.
Qed.

Hypothesis declared :
  forall n d key, In (n, d) results -> In key (output_keys n) ->
                  has_key d key = true.

Lemma stub_nodes_return :
  Forall (fun nf => forall st w0, exists st', snd nf st w0 = (Ret st', w0))
         (stages W stubs).
Proof.
  assert (H : forall n b d, node_body W stubs n = Some b -> In (n, d) results ->
              forall st w0, exists st', as_node W b st w0 = (Ret st', w0)).
  { intros n b d Hb Hd st w0. unfold as_node.
    rewrite (node_body_shape W stubs n b Hb).
    unfold node_shape, bind, call. simpl.
    rewrite (stub_stage_call n d st w0 Hd).
    destruct (copy_keys_total W d (output_keys n) st w0
                (fun key Hk => declared n d key Hd Hk)) as [st' ->].
    eauto. }
  unfold stages.
  constructor; [exact (H "data_downloader" _ d1 eq_refl ltac:(unfold stage_results; simpl; auto 10))|].
  constructor; [exact (H "data_preprocessor" _ d2 eq_refl ltac:(unfold stage_results; simpl; auto 10))|].
  constructor; [exact (H "metrics_calculator" _ d3 eq_refl ltac:(unfold stage_results; simpl; auto 10))|].
  constructor; [exact (H "visualizations" _ d4 eq_refl ltac:(unfold stage_results; simpl; auto 10))|].
  constructor; [exact (H "news_collector" _ d5 eq_refl ltac:(unfold stage_results; simpl; auto 10))|].
  constructor; [exact (H "report_generator" _ d6 eq_refl ltac:(unfold stage_results; simpl; auto 10))|].
  constructor; [exact (H "final_report_generator" _ d7 eq_refl ltac:(unfold stage_results; simpl; auto 10))|].
  constructor.
Qed.

(** C6 (as the code has it: twelve keys). When all seven stages succeed,
    each returning a dict that holds its declared output keys, [run]
    returns a final state whose keys are the twelve keys of
    [AgentState], each bound to the value its stage returned for it;
    [final_report_file_path] is among them. *)
Theorem C6_all_stages_succeed (w : W) :
  exists final,
    run W stubs w = (Ret final, w)
    /\ keys final = AgentState
    /\ List.length (keys final) = 12%nat
    /\ (forall n d key, In (n, d) results -> In key (output_keys n) ->
          dict_lookup final key = dict_lookup d key)
    /\ has_key final "final_report_file_path" = true.
Proof.
  destruct (run_chain_total AgentState (stages W stubs) [] w stub_nodes_return)
    as (final & Hr & Hw).
  rewrite <- run_observed_chain in Hr, Hw.
  exists final.
  destruct (completed_run_state stubs w final Hr) as [Hkeys Hvals].
  split; [|split; [|split; [|split]]].
  - rewrite run_as_observed, Hr, Hw. reflexivity.
  - exact Hkeys.
  - rewrite Hkeys. reflexivity.
  - intros n d key Hd Hk.
    pose proof (results_names n d Hd) as Hn.
    destruct (Hvals n key Hn Hk) as (d' & st0 & w0 & w1 & v & Hc & Hd' & Hv).
    rewrite (stub_stage_call n d st0 w0 Hd) in Hc.
    injection Hc as <- _. congruence.
  - apply has_key_In. rewrite Hkeys. unfold AgentState. simpl. auto 20.
Qed.

End Stubs.

End Completion.

Section Determinism.

Variable W : Type.
Variable agents : Agents W.

Import StateGraph.
Import FinancialReportWorkflow.

(** What a copy returns and the dict it leaves do not depend on the world. *)
Lemma copy_keys_world_irrelevant (r : option pydict) (ks : list string)
      (st : pydict) (w1 w2 : W) :
  fst (copy_keys W r ks (st, w1)) = fst (copy_keys W r ks (st, w2))
  /\ fst (snd (copy_keys W r ks (st, w1))) = fst (snd (copy_keys W r ks (st, w2))).
Proof.
  revert st. induction ks as [|k ks IH]; intro st; simpl; [auto|].
  unfold bind, of_res, state_setitem. simpl.
  destruct (subscript r k); simpl; [apply IH | auto].
Qed.

Lemma node_world_irrelevant (n : string) (b : body W unit)
      (st : pydict) (w1 w2 : W) :
  world_independent W agents ->
  node_body W agents n = Some b ->
  fst (as_node W b st w1) = fst (as_node W b st w2).
Proof.
  intros Hind Hb. unfold as_node.
  rewrite !(node_body_shape W agents n b Hb).
  unfold node_shape, bind, call. simpl.
  specialize (Hind n st w1 w2).
  destruct (stage_call W agents n st w1) as [r1 w1'].
  destruct (stage_call W agents n st w2) as [r2 w2'].
  simpl in Hind. subst r2.
  destruct r1 as [r|e]; [|reflexivity].
  destruct (copy_keys_world_irrelevant r (output_keys n) st w1' w2') as [H1 H2].
  destruct (copy_keys W r (output_keys n) (st, w1')) as [x1 [s1 v1]].
  destruct (copy_keys W r (output_keys n) (st, w2')) as [x2 [s2 v2]].
  simpl in H1, H2. subst. destruct x2; reflexivity.
Qed.

Lemma chain_world_irrelevant (ns : list (string * NodeFn W)) (c : pydict)
      (w1 w2 : W) :
  world_independent W agents ->
  node_methods W agents ns ->
  let o1 := run_chain W AgentState ns c w1 in
  let o2 := run_chain W AgentState ns c w2 in
  result W o1 = result W o2
  /\ accumulator W o1 = accumulator W o2
  /\ trace W o1 = trace W o2.
Proof.
  intros Hind. revert c w1 w2.
  induction ns as [|[n fn] ns IH]; intros c w1 w2 Hm; cbn [run_chain].
  - cbn. auto.
  - inversion Hm as [|? ? [b [Hb Hfn]] Hm']; subst.
    cbn [fst snd] in Hb, Hfn. subst fn.
    pose proof (node_world_irrelevant n b (read_channels AgentState c) w1 w2
                  Hind Hb) as E.
    destruct (as_node W b (read_channels AgentState c) w1) as [r1 w1'].
    destruct (as_node W b (read_channels AgentState c) w2) as [r2 w2'].
    simpl in E. subst r2.
    destruct r1 as [st|e]; [|cbn; auto].
    destruct (IH (apply_writes AgentState c st) w1' w2' Hm') as (H1 & H2 & H3).
    unfold add_events. cbn [result accumulator trace].
    rewrite H1, H2, H3. auto.
Qed.

(** C7. With agents whose results do not depend on the world (stub stages
    returning fixed results are such agents), two runs end alike: the same
    result (the same final state, key for key and in the same order, or
    the same exception), the same state held by the graph, and the same
    sequence of stages entered and left. In particular a second run that
    starts in the world the first one left ends like the first. *)
Theorem C7_identical_runs (w1 w2 : W) :
  world_independent W agents ->
  let o1 := run_observed W agents w1 in
  let o2 := run_observed W agents w2 in
  let o3 := run_observed W agents (world W o1) in
  (result W o1 = result W o2
   /\ accumulator W o1 = accumulator W o2
   /\ trace W o1 = trace W o2)
  /\ (result W o1 = result W o3
      /\ accumulator W o1 = accumulator W o3
      /\ trace W o1 = trace W o3).
Proof.
  intros Hind o1 o2 o3. unfold o3, o2, o1.
  rewrite !run_observed_chain.
  split; apply chain_world_irrelevant;
    [exact Hind | apply node_methods_stages | exact Hind | apply node_methods_stages].
Qed.

End Determinism.

(** ** The rates of the metrics stage *)

Section Rates.

Import MetricsCalculatorTool.
Import Counts.

Variable df : DataFrame.t.
Hypothesis columns_present : has_metric_columns df = true.

Lemma has_date : DataFrame.has_column df "DATA_NOTIFICACAO" = true.
Proof.
  unfold has_metric_columns, metric_columns in columns_present. simpl in *.
  repeat (apply andb_prop in columns_present;
          destruct columns_present as [? columns_present]).
  assumption.
Qed.

Lemma has_metric_column (c : string) :
  In c ["EVOLUCAO"; "UTI"; "VACINA"; "VACINA_COV"] ->
  DataFrame.has_column df c = true.
Proof.
  intro H. pose proof columns_present as Hc.
  unfold has_metric_columns in Hc. rewrite forallb_forall in Hc.
  apply Hc. unfold metric_columns. simpl in *. tauto.
Qed.

Lemma period_eq (s e : Z) : period df s e = Ret (in_period df s e).
Proof. unfold period, DataFrame.getitem. rewrite has_date. reflexivity. Qed.

Lemma defined_eq (s e : Z) (c : string) (values : list string) :
  DataFrame.has_column df c = true ->
  defined (in_period df s e) c values = Ret (with_value df s e c values).
Proof.
  intro H. unfold defined, DataFrame.getitem.
  change (DataFrame.has_column (in_period df s e) c)
    with (DataFrame.has_column df c).
  rewrite H. reflexivity.
Qed.

Lemma count_eq_Ret (s e : Z) (c value : string) (values : list string) :
  DataFrame.has_column df c = true ->
  exists k, count_eq (with_value df s e c values) c value = Ret k.
Proof.
  intro H. unfold count_eq, DataFrame.getitem.
  change (DataFrame.has_column (with_value df s e c values) c)
    with (DataFrame.has_column df c).
  rewrite H. eauto.
Qed.

Lemma empty_with_value (s e : Z) (c : string) (values : list string) :
  DataFrame.has_column df c = true ->
  DataFrame.empty (with_value df s e c values)
  = (DataFrame.shape0 (with_value df s e c values) =? 0).
Proof.
  intro H. unfold DataFrame.empty, DataFrame.shape0.
  change (DataFrame.columns (with_value df s e c values))
    with (DataFrame.columns df).
  unfold DataFrame.has_column in H.
  destruct (DataFrame.columns df); [discriminate|].
  destruct (DataFrame.rows (with_value df s e c values)); reflexivity.
Qed.

Lemma with_value_le_cases (s e : Z) (c : string) (values : list string) :
  cases df s e = 0 -> DataFrame.shape0 (with_value df s e c values) = 0.
Proof.
  unfold cases, with_value, DataFrame.shape0, DataFrame.select. simpl.
  destruct (filter _ (DataFrame.rows df)); [reflexivity|].
  simpl List.length. lia.
Qed.

(** The shape of the three ratio functions: [0.0] on an empty
    denominator, the ratio times 100 otherwise. *)
Lemma ratio_rate (s e : Z) (c value : string) (values : list string) :
  DataFrame.has_column df c = true ->
  let n := DataFrame.shape0 (with_value df s e c values) in
  rbind (period df s e) (fun period_df =>
  rbind (defined period_df c values) (fun d =>
  if DataFrame.empty d then Ret PyFloat.zero
  else
    rbind (count_eq d c value) (fun k =>
    rbind (PyFloat.truediv k (DataFrame.shape0 d))
          (fun q => Ret (PyFloat.mul_int q 100)))))
  = if n =? 0 then Ret PyFloat.zero
    else match count_eq (with_value df s e c values) c value with
         | Ret k => Ret (percent k n)
         | Raise x => Raise x
         end.
Proof.
  intros H n. rewrite period_eq. cbn [rbind].
  rewrite (defined_eq s e c values H). cbn [rbind].
  rewrite (empty_with_value s e c values H). fold n.
  destruct (n =? 0) eqn:En; [reflexivity|].
  destruct (count_eq_Ret s e c value values H) as [k ->]. cbn [rbind].
  unfold PyFloat.truediv. rewrite En. reflexivity.
Qed.

Lemma mortality_rate_eq (s e : Z) :
  let n := DataFrame.shape0 (with_value df s e "EVOLUCAO" ["CURA"; "OBITO"]) in
  _calculate_mortality_rate df s e
  = if n =? 0 then Ret PyFloat.zero
    else match count_eq (with_value df s e "EVOLUCAO" ["CURA"; "OBITO"])
                 "EVOLUCAO" "OBITO" with
         | Ret k => Ret (percent k n)
         | Raise x => Raise x
         end.
Proof.
  apply (ratio_rate s e "EVOLUCAO" "OBITO" ["CURA"; "OBITO"]).
  apply has_metric_column. simpl. tauto.
Qed.

Lemma uti_rate_eq (s e : Z) :
  let n := DataFrame.shape0 (with_value df s e "UTI" ["SIM"; "NAO"]) in
  _calculate_uti_occupancy_rate df s e
  = if n =? 0 then Ret PyFloat.zero
    else match count_eq (with_value df s e "UTI" ["SIM"; "NAO"]) "UTI" "SIM" with
         | Ret k => Ret (percent k n)
         | Raise x => Raise x
         end.
Proof.
  apply (ratio_rate s e "UTI" "SIM" ["SIM"; "NAO"]).
  apply has_metric_column. simpl. tauto.
Qed.

Lemma vaccination_rate_eq (s e : Z) (c : string) :
  DataFrame.has_column df c = true ->
  let n := DataFrame.shape0 (with_value df s e c ["SIM"; "NAO"]) in
  _calculate_vaccination_rate df s e c
  = if n =? 0 then Ret PyFloat.zero
    else match count_eq (with_value df s e c ["SIM"; "NAO"]) c "SIM" with
         | Ret k => Ret (percent k n)
         | Raise x => Raise x
         end.
Proof. intro H. apply (ratio_rate s e c "SIM" ["SIM"; "NAO"] H). Qed.

Lemma increase_rate_eq (cs ce ps pe : Z) :
  _calculate_increase_rate df cs ce ps pe
  = if cases df ps pe =? 0
    then Ret (if 0 <? cases df cs ce then PyFloat.inf else PyFloat.zero)
    else Ret (percent (cases df cs ce - cases df ps pe) (cases df ps pe)).
Proof.
  unfold _calculate_increase_rate. rewrite !period_eq. cbn [rbind].
  fold (cases df ps pe). fold (cases df cs ce).
  destruct (cases df ps pe =? 0) eqn:E; [reflexivity|].
  unfold PyFloat.truediv. rewrite E. reflexivity.
Qed.

Lemma cases_nonneg (s e : Z) : 0 <= cases df s e.
Proof. unfold cases, DataFrame.shape0. lia. Qed.

(** C9. When the previous period has no case, the increase rate is
    positive infinity if the current period has at least one case, and it
    is [0.0] exactly when the current period has no case either. *)
Theorem C9_increase_rate_without_previous_cases (cs ce ps pe : Z) :
  cases df ps pe = 0 ->
  (0 < cases df cs ce ->
     _calculate_increase_rate df cs ce ps pe = Ret PyFloat.inf)
  /\ (_calculate_increase_rate df cs ce ps pe = Ret PyFloat.zero
      <-> cases df cs ce = 0)
  /\ PrimFloat.is_infinity PyFloat.inf = true
  /\ PrimFloat.ltb PyFloat.zero PyFloat.inf = true.
Proof.
  intro Hp. rewrite increase_rate_eq, Hp. simpl (0 =? 0).  cbv iota.
  pose proof (cases_nonneg cs ce) as Hc.
  split; [|split; [|split; reflexivity]].
  - intro H. apply Z.ltb_lt in H. rewrite H. reflexivity.
  - destruct (0 <? cases df cs ce) eqn:E.
    + apply Z.ltb_lt in E. split; [|lia].
      intro H. exfalso.
      apply (f_equal (fun r => match r with
                               | Ret x => PrimFloat.is_infinity x
                               | Raise _ => false
                               end)) in H.
      vm_compute in H. discriminate.
    + apply Z.ltb_ge in E. split; [lia | reflexivity].
Qed.

Lemma has_vaccine_column (c : string) :
  In c ["VACINA"; "VACINA_COV"] -> DataFrame.has_column df c = true.
Proof. intro H. apply has_metric_column. simpl in *. tauto. Qed.

Lemma round2_zero : PyFloat.round2 PyFloat.zero = PyFloat.zero.
Proof. vm_compute. reflexivity. Qed.

(** C8. On data with the columns of the metrics: when no case falls in
    any of the periods analysed, the [metrics] dict is computed and all
    its rates are [0.0]. Each rate function returns a value on every
    input (no division by zero is ever attempted): the increase rate is
    [0.0] when both periods have no case, the mortality, UTI and
    vaccination rates are [0.0] when no record of the period has a
    defined value, and as soon as one record has, the rate is the ratio
    times 100, whatever the number of records. *)
Theorem C8_no_cases_gives_zero_rates (now : Z) (p : periods) :
  (cases df (last_30_days_start p) (last_30_days_end p) = 0 ->
   cases df (previous_30_days_start p) (previous_30_days_end p) = 0 ->
   cases df (last_7_days_start p) (last_7_days_end p) = 0 ->
   cases df (previous_7_days_start p) (previous_7_days_end p) = 0 ->
   cases df (current_month_start p) now = 0 ->
   cases df (last_month_start p) (last_month_end p) = 0 ->
   metrics df now p = Ret all_zero)
  /\ (forall cs ce ps pe,
        cases df cs ce = 0 -> cases df ps pe = 0 ->
        _calculate_increase_rate df cs ce ps pe = Ret PyFloat.zero)
  /\ (forall s e,
        DataFrame.shape0 (with_value df s e "EVOLUCAO" ["CURA"; "OBITO"]) = 0 ->
        _calculate_mortality_rate df s e = Ret PyFloat.zero)
  /\ (forall s e,
        DataFrame.shape0 (with_value df s e "UTI" ["SIM"; "NAO"]) = 0 ->
        _calculate_uti_occupancy_rate df s e = Ret PyFloat.zero)
  /\ (forall s e c,
        In c ["VACINA"; "VACINA_COV"] ->
        DataFrame.shape0 (with_value df s e c ["SIM"; "NAO"]) = 0 ->
        _calculate_vaccination_rate df s e c = Ret PyFloat.zero)
  /\ (forall cs ce ps pe s e c,
        In c ["VACINA"; "VACINA_COV"] ->
        (exists x, _calculate_increase_rate df cs ce ps pe = Ret x)
        /\ (exists x, _calculate_mortality_rate df s e = Ret x)
        /\ (exists x, _calculate_uti_occupancy_rate df s e = Ret x)
        /\ (exists x, _calculate_vaccination_rate df s e c = Ret x))
  /\ (forall s e,
        let d := with_value df s e "EVOLUCAO" ["CURA"; "OBITO"] in
        0 < DataFrame.shape0 d ->
        exists deaths,
          count_eq d "EVOLUCAO" "OBITO" = Ret deaths
          /\ _calculate_mortality_rate df s e
             = Ret (percent deaths (DataFrame.shape0 d)))
  /\ (forall s e,
        let d := with_value df s e "UTI" ["SIM"; "NAO"] in
        0 < DataFrame.shape0 d ->
        exists uti_cases,
          count_eq d "UTI" "SIM" = Ret uti_cases
          /\ _calculate_uti_occupancy_rate df s e
             = Ret (percent uti_cases (DataFrame.shape0 d)))
  /\ (forall s e c,
        In c ["VACINA"; "VACINA_COV"] ->
        let d := with_value df s e c ["SIM"; "NAO"] in
        0 < DataFrame.shape0 d ->
        exists vaccinated_cases,
          count_eq d c "SIM" = Ret vaccinated_cases
          /\ _calculate_vaccination_rate df s e c
             = Ret (percent vaccinated_cases (DataFrame.shape0 d))).
Proof.
  assert (Hinc : forall cs ce ps pe,
             cases df cs ce = 0 -> cases df ps pe = 0 ->
             _calculate_increase_rate df cs ce ps pe = Ret PyFloat.zero).
  { intros cs ce ps pe Hc Hp. rewrite increase_rate_eq, Hp, Hc. reflexivity. }
  assert (Hmor : forall s e,
             DataFrame.shape0 (with_value df s e "EVOLUCAO" ["CURA"; "OBITO"]) = 0 ->
             _calculate_mortality_rate df s e = Ret PyFloat.zero).
  { intros s e H. rewrite mortality_rate_eq. cbv zeta. rewrite H. reflexivity. }
  assert (Huti : forall s e,
             DataFrame.shape0 (with_value df s e "UTI" ["SIM"; "NAO"]) = 0 ->
             _calculate_uti_occupancy_rate df s e = Ret PyFloat.zero).
  { intros s e H. rewrite uti_rate_eq. cbv zeta. rewrite H. reflexivity. }
  assert (Hvac : forall s e c,
             In c ["VACINA"; "VACINA_COV"] ->
             DataFrame.shape0 (with_value df s e c ["SIM"; "NAO"]) = 0 ->
             _calculate_vaccination_rate df s e c = Ret PyFloat.zero).
  { intros s e c Hc H.
    rewrite (vaccination_rate_eq s e c (has_vaccine_column c Hc)).
    cbv zeta. rewrite H. reflexivity. }
  split; [|split; [exact Hinc|split; [exact Hmor|split; [exact Huti|
          split; [exact Hvac|split; [|split; [|split]]]]]]].
  - intros H1 H2 H3 H4 H5 H6. unfold metrics, group3.
    rewrite !Hinc by assumption.
    rewrite !Hmor by (apply with_value_le_cases; assumption).
    rewrite !Huti by (apply with_value_le_cases; assumption).
    rewrite !Hvac by (first [apply with_value_le_cases; assumption
                            | simpl; tauto]).
    cbn [rbind]. rewrite round2_zero. reflexivity.
  - intros cs ce ps pe s e c Hc. split; [|split; [|split]].
    + rewrite increase_rate_eq. destruct (cases df ps pe =? 0); eauto.
    + rewrite mortality_rate_eq. cbv zeta.
      destruct (_ =? 0); [eauto|].
      destruct (count_eq_Ret s e "EVOLUCAO" "OBITO" ["CURA"; "OBITO"]
                  (has_metric_column "EVOLUCAO" ltac:(simpl; tauto))) as [k ->].
      eauto.
    + rewrite uti_rate_eq. cbv zeta.
      destruct (_ =? 0); [eauto|].
      destruct (count_eq_Ret s e "UTI" "SIM" ["SIM"; "NAO"]
                  (has_metric_column "UTI" ltac:(simpl; tauto))) as [k ->].
      eauto.
    + rewrite (vaccination_rate_eq s e c (has_vaccine_column c Hc)). cbv zeta.
      destruct (_ =? 0); [eauto|].
      destruct (count_eq_Ret s e c "SIM" ["SIM"; "NAO"]
                  (has_vaccine_column c Hc)) as [k ->].
      eauto.
  - intros s e d Hd.
    destruct (count_eq_Ret s e "EVOLUCAO" "OBITO" ["CURA"; "OBITO"]
                (has_metric_column "EVOLUCAO" ltac:(simpl; tauto))) as [k Hk].
    exists k. fold d in Hk. split; [exact Hk|].
    rewrite mortality_rate_eq. cbv zeta. fold d. rewrite Hk.
    destruct (DataFrame.shape0 d =? 0) eqn:E; [|reflexivity].
    apply Z.eqb_eq in E. lia.
  - intros s e d Hd.
    destruct (count_eq_Ret s e "UTI" "SIM" ["SIM"; "NAO"]
                (has_metric_column "UTI" ltac:(simpl; tauto))) as [k Hk].
    exists k. fold d in Hk. split; [exact Hk|].
    rewrite uti_rate_eq. cbv zeta. fold d. rewrite Hk.
    destruct (DataFrame.shape0 d =? 0) eqn:E; [|reflexivity].
    apply Z.eqb_eq in E. lia.
  - intros s e c Hc d Hd.
    destruct (count_eq_Ret s e c "SIM" ["SIM"; "NAO"]
                (has_vaccine_column c Hc)) as [k Hk].
    exists k. fold d in Hk. split; [exact Hk|].
    rewrite (vaccination_rate_eq s e c (has_vaccine_column c Hc)).
    cbv zeta. fold d. rewrite Hk.
    destruct (DataFrame.shape0 d =? 0) eqn:E; [|reflexivity].
    apply Z.eqb_eq in E. lia.
Qed.

End Rates.

(** ** The stages of the repository *)

Section Preprocess.

Import FinancialReportWorkflow.
Import DataPreprocessorTool.

Lemma on_disk_set_disk (w : World) (path : string) (data : filedata)
      (q : string) :
  on_disk (set_disk ((path, data) :: disk w) w) q
  = String.eqb path q || on_disk w q.
Proof. reflexivity. Qed.

(** A save of the processed data that reports success wrote the file. *)
Lemma save_processed_true (df : DataFrame.t) (path : string) (w w' : World) :
  _save_processed_data df path w = (Ret true, w') ->
  w' = set_disk ((path, FCsv df) :: disk w) w.
Proof.
  unfold _save_processed_data, try_except, bind, Os.makedirs, Os.write_file, ret.
  destruct (DataFrame.empty df); [discriminate|].
  destruct (can_mkdir w (Os.dirname path)).
  - destruct (can_write w path); simpl.
    + intro H. injection H as <-. reflexivity.
    + discriminate.
  - simpl. discriminate.
Qed.

(** A save of the metadata that reports failure wrote nothing. *)
Lemma save_metadata_false (folder : string) (w w' : World) :
  _save_metadata folder w = (Ret false, w') -> w' = w.
Proof.
  unfold _save_metadata, try_except, bind, Os.ask, Os.write_file, ret.
  destruct (can_write w (Os.path_join folder "metadata.json")); simpl.
  - discriminate.
  - intro H. injection H as <-. reflexivity.
Qed.

(** A save of the metadata that reports success wrote the file. *)
Lemma save_metadata_true (folder : string) (w w' : World) :
  _save_metadata folder w = (Ret true, w') ->
  on_disk w' (Os.path_join folder "metadata.json") = true
  /\ (forall q, on_disk w q = true -> on_disk w' q = true).
Proof.
  unfold _save_metadata, try_except, bind, Os.ask, Os.write_file, ret.
  destruct (can_write w (Os.path_join folder "metadata.json")); simpl.
  - intro H. injection H as <-. split.
    + rewrite on_disk_set_disk, String.eqb_refl. reflexivity.
    + intros q Hq. rewrite on_disk_set_disk, Hq. apply orb_true_r.
  - discriminate.
Qed.

Lemma save_metadata_bool (folder : string) (w : World) :
  exists ok w', _save_metadata folder w = (Ret ok, w').
Proof.
  unfold _save_metadata, try_except, bind, Os.ask, Os.write_file, ret.
  destruct (can_write w (Os.path_join folder "metadata.json")); simpl; eauto.
Qed.

Lemma save_processed_bool (df : DataFrame.t) (path : string) (w : World) :
  exists ok w', _save_processed_data df path w = (Ret ok, w').
Proof.
  unfold _save_processed_data, try_except, bind, Os.makedirs, Os.write_file, ret.
  destruct (DataFrame.empty df); [eauto|].
  destruct (can_mkdir w (Os.dirname path)); simpl; [|eauto].
  destruct (can_write w path); simpl; eauto.
Qed.

(** C10. When the raw data is loaded and cleaned, the processed CSV is
    saved, and the save of the metadata then fails, the preprocess tool
    returns [None] although the processed file is on disk; the agent
    returns [None], and the node raises without adding
    [processed_data_file_path] to the state. Whenever the tool does return
    a dict, both files are on disk. *)
Theorem C10_metadata_failure_fails_the_stage
        (s : pydict) (agent : DataPreprocessorAgent.t)
        (w0 w w1 w2 w3 w4 : World) (df_raw df : DataFrame.t) :
  let self := DataPreprocessorAgent.preprocessor_tool agent in
  let output_folder := Config.output_folder (proc_cfg self) in
  let output_path :=
    Os.path_join output_folder (Config.output_filename (proc_cfg self)) in
  DataPreprocessorAgent.__init__ (dict_get s "downloaded_file_path") w0
  = (Ret agent, w) ->
  _load_raw_data (downloaded_file_path self)
                 (Config.columns_to_keep (proc_cfg self)) w
  = (Ret (Some df_raw), w1) ->
  _clean_and_transform_data df_raw w1 = (Ret df, w2) ->
  _save_processed_data df output_path w2 = (Ret true, w3) ->
  _save_metadata output_folder w3 = (Ret false, w4) ->
  run_preprocessing_process self w = (Ret None, w4)
  /\ on_disk w4 output_path = true
  /\ DataPreprocessorAgent.run agent w = (Ret None, w4)
  /\ _node_data_preprocessor World repository_agents (s, w0)
     = (Raise TypeError_NoneType, (s, w4))
  /\ (forall d wa wb,
        run_preprocessing_process self wa = (Ret (Some d), wb) ->
        d = [("processed_data_file_path", Some output_path)]
        /\ on_disk wb output_path = true
        /\ on_disk wb (Os.path_join output_folder "metadata.json") = true).
Proof.
  intros self output_folder output_path Hinit Hload Hclean Hcsv Hmeta.
  assert (Hrun : run_preprocessing_process self w = (Ret None, w4)).
  { unfold run_preprocessing_process, bind.
    fold output_folder. fold output_path.
    rewrite Hload, Hclean, Hcsv. simpl. rewrite Hmeta. reflexivity. }
  assert (Hagent : DataPreprocessorAgent.run agent w = (Ret None, w4)).
  { unfold DataPreprocessorAgent.run, bind. fold self. rewrite Hrun.
    reflexivity. }
  split; [exact Hrun|]. split; [|split; [exact Hagent|split]].
  - rewrite (save_metadata_false _ _ _ Hmeta).
    rewrite (save_processed_true _ _ _ _ Hcsv).
    rewrite on_disk_set_disk, String.eqb_refl. reflexivity.
  - apply (node_agent_None World repository_agents "data_preprocessor");
      [reflexivity|].
    unfold stage_call. simpl. unfold bind. rewrite Hinit. exact Hagent.
  - intros d wa wb. unfold run_preprocessing_process, bind.
    fold output_folder. fold output_path.
    destruct (_load_raw_data _ _ wa) as [[[raw|]|e] wa1]; try discriminate.
    destruct (_clean_and_transform_data raw wa1) as [[cleaned|e] wa2];
      try discriminate.
    destruct (save_processed_bool cleaned output_path wa2) as (ok & wa3 & Hs).
    rewrite Hs. destruct ok; simpl; [|discriminate].
    destruct (save_metadata_bool output_folder wa3) as (ok & wa4 & Hm).
    rewrite Hm. destruct ok; simpl; [|discriminate].
    intro H. injection H as <- <-.
    destruct (save_metadata_true _ _ _ Hm) as [H1 H2].
    split; [reflexivity|]. split; [|exact H1].
    apply H2. rewrite (save_processed_true _ _ _ _ Hs).
    rewrite on_disk_set_disk, String.eqb_refl. reflexivity.
Qed.

End Preprocess.

Section Download.

Import StateGraph.
Import FinancialReportWorkflow.
Import DataDownloaderTool.

(** A request that raises a [RequestException] is a failed attempt. *)
Lemma download_RequestException (w : World) (url save_path : string) (e : exn) :
  requests_get w url = Raise e ->
  Os.is_RequestException e = true ->
  _download_and_save_file url save_path w = (Ret false, w).
Proof.
  intros Hr He. unfold _download_and_save_file, try_except, bind.
  rewrite Hr, He. reflexivity.
Qed.

(** When every attempt fails, the loop ends without a result. *)
Lemma try_links_all_fail (w : World) (links : list link_info)
      (dest_folder full_save_path : string) :
  (forall u, _download_and_save_file u full_save_path w = (Ret false, w)) ->
  try_links links dest_folder full_save_path w = (Ret None, w).
Proof.
  intro H. induction links as [|l links IH]; simpl; [reflexivity|].
  unfold bind. rewrite H. exact IH.
Qed.

(** With the network down the download agent returns [None]: the tool
    catches the exception of every request. *)
Lemma download_agent_None (self : DataDownloaderAgent.t) (w : World) :
  can_mkdir w (Config.destination_folder
                 (output_cfg (DataDownloaderAgent.downloader_tool self))) = true ->
  (forall u, exists e, requests_get w u = Raise e
                       /\ Os.is_RequestException e = true) ->
  DataDownloaderAgent.run self w = (Ret None, w).
Proof.
  intros Hdir Hnet.
  unfold DataDownloaderAgent.run, run_download_process, bind, Os.makedirs,
    _generate_download_links.
  rewrite Hdir. rewrite try_links_all_fail; [reflexivity|].
  intro u. destruct (Hnet u) as (e & Hr & He).
  exact (download_RequestException w u _ e Hr He).
Qed.

(** C3 (as the code has it). The nodes catch nothing. An error that the
    tool of a stage catches is reported by the agent as a [None] result
    (the download agent does so when every request fails), and the node
    then raises the plain [TypeError] of subscripting [None]; an
    exception the agent raises passes through the node unchanged. The
    run of the workflow raises the exception of the node that failed:
    its caller observes that exception, not a failure value. *)
Theorem C3_failures_propagate_as_exceptions
        (W : Type) (agents : Agents W) (n : string) (b : body W unit)
        (st : pydict) (w w' : W) :
  node_body W agents n = Some b ->
  (stage_call W agents n st w = (Ret None, w') ->
     as_node W b st w = (Raise TypeError_NoneType, w'))
  /\ (forall e, stage_call W agents n st w = (Raise e, w') ->
        as_node W b st w = (Raise e, w'))
  /\ (forall w0 e,
        result W (run_observed W agents w0) = Raise e ->
        fst (run W agents w0) = Raise e
        /\ exists k n',
             nth_error chain k = Some n'
             /\ trace W (run_observed W agents w0)
                = (completed (firstn k chain) ++ [Enter n'; Abort n' e])%list)
  /\ (forall (self : DataDownloaderAgent.t) (wd : World),
        can_mkdir wd (Config.destination_folder
                        (output_cfg (DataDownloaderAgent.downloader_tool self)))
        = true ->
        (forall u, exists e, requests_get wd u = Raise e
                             /\ Os.is_RequestException e = true) ->
        DataDownloaderAgent.run self wd = (Ret None, wd)).
Proof.
  intro Hb. split; [|split; [|split]].
  - intro Hc. apply as_node_Raise with (st' := st).
    exact (node_agent_None W agents n b st w w' Hb Hc).
  - intros e Hc. apply as_node_Raise with (st' := st).
    exact (node_agent_raises W agents n b st w w' e Hb Hc).
  - intros w0 e Hr. split.
    + rewrite run_as_observed. exact Hr.
    + rewrite run_observed_chain in Hr |- *.
      destruct (run_chain_Raise W AgentState _ _ _ _ Hr)
        as (k & n' & fn & Hk & Ht & _ & _).
      exists k, n'. split.
      * rewrite <- (map_fst_stages W agents).
        rewrite nth_error_map, Hk. reflexivity.
      * rewrite Ht, firstn_stages. reflexivity.
  - exact download_agent_None.
Qed.

End Download.

(** ** The properties at concrete inputs *)

Section Instances.

Import StateGraph.
Import FinancialReportWorkflow.

(** With a preprocess stage that fails: the preprocess stage is entered
    after the download stage was entered and left. *)
Lemma C1_witness :
  exists k st,
    nth_error chain k = Some "data_preprocessor"
    /\ [Enter "data_downloader"; Leave "data_downloader"]
       = completed (firstn k chain)
    /\ result unit (run_prefix unit Scenarios.preprocess_fails k tt) = Ret st.
Proof.
  apply (C1_stages_run_in_chain_order unit Scenarios.preprocess_fails tt
           [Enter "data_downloader"; Leave "data_downloader"]
           [Abort "data_preprocessor" TypeError_NoneType]
           "data_preprocessor").
  vm_compute. reflexivity.
Defined.


(** With the network down, the download node raises and so does [run]. *)
Lemma C3_counterexample :
  fst (as_node World (_node_data_downloader World repository_agents) []
         Examples.offline) = Raise TypeError_NoneType
  /\ fst (run World repository_agents Examples.offline) = Raise TypeError_NoneType.
Proof. split; vm_compute; reflexivity. Qed.

(** A preprocess agent that returns [None] makes its node raise. *)
Lemma C3_witness :
  as_node unit (_node_data_preprocessor unit Scenarios.preprocess_fails)
    Scenarios.downloaded tt
  = (Raise TypeError_NoneType, tt).
Proof.
  refine (proj1 (C3_failures_propagate_as_exceptions unit
                   Scenarios.preprocess_fails "data_preprocessor" _
                   Scenarios.downloaded tt tt eq_refl) eq_refl).
Defined.

(** The preprocess stub on the state of a successful download. *)
Lemma C4_witness :
  In "processed_data_file_path"
     (keys (Scenarios.downloaded
            ++ [("processed_data_file_path", Some "/tmp/p.csv")])%list)
  <-> In "processed_data_file_path" (keys Scenarios.downloaded)
      \/ In "processed_data_file_path" (output_keys "data_preprocessor").
Proof.
  refine (proj1 (C4_stage_adds_exactly_its_keys unit (Examples.dummy_agents unit)
                   "data_preprocessor" _ Scenarios.downloaded _ tt tt
                   eq_refl eq_refl) "processed_data_file_path").
Defined.

(** The preprocess stage fails after a successful download. *)
Lemma C5_witness :
  let o := run_observed unit Scenarios.preprocess_fails tt in
  result unit o = Raise TypeError_NoneType
  /\ read_channels AgentState (accumulator unit o) = Scenarios.downloaded
  /\ trace unit o
     = [Enter "data_downloader"; Leave "data_downloader";
        Enter "data_preprocessor"; Abort "data_preprocessor" TypeError_NoneType].
Proof.
  destruct (C5_failed_stage_adds_nothing unit Scenarios.preprocess_fails tt tt
              1 "data_preprocessor"
              (as_node unit (_node_data_preprocessor unit Scenarios.preprocess_fails))
              Scenarios.downloaded TypeError_NoneType
              eq_refl eq_refl eq_refl) as (H1 & H2 & _ & H4 & _).
  split; [exact H1|]. split; [exact H2 | exact H4].
Defined.

(** Seven succeeding stubs with dummy paths: the final state has twelve
    keys, as [AgentState] has. *)
Lemma C6_counterexample :
  exists final,
    fst (run unit (Examples.dummy_agents unit) tt) = Ret final
    /\ List.length (keys final) = 12%nat
    /\ List.length AgentState <> 11%nat.
Proof.
  eexists. split; [vm_compute; reflexivity|].
  split; [reflexivity | discriminate].
Qed.

(** The same stubs: the final state has the keys of [AgentState] and the
    dummy path of the final report. *)
Lemma C6_witness :
  exists final,
    run unit (Examples.dummy_agents unit) tt = (Ret final, tt)
    /\ keys final = AgentState
    /\ dict_lookup final "final_report_file_path" = Some (Some "/tmp/final.html").
Proof.
  destruct (C6_all_stages_succeed unit
              [("downloaded_file_path", Some "/tmp/a.csv");
               ("metadata_file_path", Some "/tmp/meta.json")]
              [("processed_data_file_path", Some "/tmp/p.csv")]
              [("periods_file_path", Some "/tmp/periods.json");
               ("metrics_file_path", Some "/tmp/metrics.json")]
              [("last_30_days_json_file_path", Some "/tmp/d.json");
               ("last_30_days_plot_file_path", Some "/tmp/d.png");
               ("last_12_months_json_file_path", Some "/tmp/m.json");
               ("last_12_months_plot_file_path", Some "/tmp/m.png")]
              [("news_file_path", Some "/tmp/news.json")]
              [("report_file_path", Some "/tmp/report.md")]
              [("final_report_file_path", Some "/tmp/final.html")])
    with (w := tt) as (final & Hrun & Hkeys & _ & Hvals & _).
  - intros n d key Hd Hk. simpl in Hd.
    repeat (destruct Hd as [Hd|Hd];
            [injection Hd as <- <-; simpl in Hk;
             repeat (destruct Hk as [<-|Hk]; [reflexivity|]); destruct Hk|]).
    destruct Hd.
  - exists final. split; [exact Hrun|]. split; [exact Hkeys|].
    rewrite (Hvals "final_report_generator"
               [("final_report_file_path", Some "/tmp/final.html")]
               "final_report_file_path");
      [reflexivity | simpl; auto 10 | simpl; auto].
Defined.

Lemma dummy_agents_world_independent :
  world_independent nat (Examples.dummy_agents nat).
Proof.
  unfold world_independent, stage_call. intros n st w1 w2.
  repeat (destruct (String.eqb n _); [reflexivity|]). reflexivity.
Defined.

(** Two runs of the dummy stubs from two different worlds. *)
Lemma C7_witness :
  result nat (run_observed nat (Examples.dummy_agents nat) 0%nat)
  = result nat (run_observed nat (Examples.dummy_agents nat) 1%nat)
  /\ trace nat (run_observed nat (Examples.dummy_agents nat) 0%nat)
     = trace nat (run_observed nat (Examples.dummy_agents nat) 1%nat).
Proof.
  destruct (C7_identical_runs nat (Examples.dummy_agents nat) 0%nat 1%nat
              dummy_agents_world_independent) as [(H1 & _ & H3) _].
  split; [exact H1 | exact H3].
Defined.

(** A frame with no row: every rate of the [metrics] dict is [0.0]. *)
Lemma C8_witness :
  MetricsCalculatorTool.metrics Scenarios.no_rows (100 * Examples.day)
    (MetricsCalculatorTool.periods_of Examples.online)
  = Ret Counts.all_zero.
Proof.
  refine (proj1 (C8_no_cases_gives_zero_rates Scenarios.no_rows eq_refl
                   (100 * Examples.day)
                   (MetricsCalculatorTool.periods_of Examples.online))
                eq_refl eq_refl eq_refl eq_refl eq_refl eq_refl).
Defined.

(** One case in the current period, none in the previous one. *)
Lemma C9_witness :
  MetricsCalculatorTool._calculate_increase_rate Scenarios.one_death 0 10 (-20) (-1)
  = Ret PyFloat.inf.
Proof.
  refine (proj1 (C9_increase_rate_without_previous_cases Scenarios.one_death
                   eq_refl 0 10 (-20) (-1) eq_refl) eq_refl).
Defined.

(** In a world where the metadata file of the preprocess stage cannot be
    written, the preprocess node raises after a successful download. *)
Lemma C10_witness :
  fst (_node_data_preprocessor World repository_agents
         ([("downloaded_file_path", Some "data/raw/srag.csv")],
          Examples.metadata_readonly))
  = Raise TypeError_NoneType.
Proof.
  edestruct (C10_metadata_failure_fails_the_stage
               [("downloaded_file_path", Some "data/raw/srag.csv")])
    with (w0 := Examples.metadata_readonly)
    as (_ & _ & _ & H & _).
  - cbv. reflexivity.
  - cbv. reflexivity.
  - cbv. reflexivity.
  - cbv. reflexivity.
  - cbv. reflexivity.
  - exact (f_equal fst H).
Defined.

End Instances.

(** * Further properties *)

(** ** The download tool *)

Section DownloadTool.

Import FinancialReportWorkflow.
Import DataDownloaderTool.


(** Saving the metadata of a download never raises: it returns the path,
    or [None] when the file cannot be written. *)
Lemma download_save_metadata_cases (dest_folder : string) (file_date : Z)
      (w : World) :
  let metadata_path := Os.path_join dest_folder "metadata.json" in
  (can_write w metadata_path = true
   /\ exists data,
        _save_metadata dest_folder file_date w
        = (Ret (Some metadata_path),
           set_disk ((metadata_path, data) :: disk w) w))
  \/ (can_write w metadata_path = false
      /\ _save_metadata dest_folder file_date w = (Ret None, w)).
Proof.
  intro metadata_path.
  unfold _save_metadata, try_except, bind, Os.ask, Os.write_file, ret.
  fold metadata_path.
  destruct (can_write w metadata_path) eqn:E; cbn -[Os.path_join].
  - left. split; [reflexivity|]. eexists. reflexivity.
  - right. split; reflexivity.
Qed.



(** One attempt with a writable destination, when the request and the
    reading of the body raise nothing but [RequestException]: it saves
    the body, or it fails and leaves the network and the permissions as
    they were. *)
Lemma download_attempt_cases (w : World) (u save_path : string) :
  can_write w save_path = true ->
  (forall e, requests_get w u = Raise e -> Os.is_RequestException e = true) ->
  (forall r e, requests_get w u = Ret r -> content r = Raise e ->
               Os.is_RequestException e = true) ->
  (exists r body,
     requests_get w u = Ret r /\ status_code r = 200 /\ content r = Ret body
     /\ _download_and_save_file u save_path w
        = (Ret true, set_disk ((save_path, FBytes body) :: disk w) w))
  \/ ((forall r body, requests_get w u = Ret r -> status_code r = 200 ->
                      content r <> Ret body)
      /\ exists w',
           _download_and_save_file u save_path w = (Ret false, w')
           /\ requests_get w' = requests_get w
           /\ can_write w' = can_write w).
Proof.
  intros Hw Hreq Hbody.
  unfold _download_and_save_file, try_except, bind, Os.write_evaluated, ret.
  destruct (requests_get w u) as [r|e] eqn:Hr.
  - destruct (status_code r =? 200) eqn:Hs.
    + rewrite Hw. destruct (content r) as [body|e] eqn:Hc.
      * left. exists r, body. apply Z.eqb_eq in Hs. repeat split; assumption.
      * right. split; [intros r' body' Hr' _; congruence|].
        rewrite (Hbody r e eq_refl Hc). eexists. split; [reflexivity|].
        split; reflexivity.
    + right. split.
      * intros r' body' Hr' Hs'. injection Hr' as <-.
        apply Z.eqb_neq in Hs. contradiction.
      * exists w. repeat split.
  - right. split; [intros r' body' Hr'; discriminate|].
    rewrite (Hreq e eq_refl). exists w. repeat split.
Qed.

(** The download process, on a list of links. *)
Lemma try_links_None_iff (net : string -> res response) (links : list link_info)
      (dest_folder full_save_path : string) (w : World) :
  requests_get w = net ->
  can_write w full_save_path = true ->
  (forall u e, net u = Raise e -> Os.is_RequestException e = true) ->
  (forall u r e, net u = Ret r -> content r = Raise e ->
                 Os.is_RequestException e = true) ->
  (fst (try_links links dest_folder full_save_path w) = Ret None
   <-> forall l r body, In l links -> net (url l) = Ret r ->
                        status_code r = 200 -> content r <> Ret body).
Proof.
  intros Hnet Hw Hreq Hbody. revert w Hnet Hw.
  induction links as [|l links IH]; intros w Hnet Hw; simpl.
  - split; [intros _ l r body [] | reflexivity].
  - unfold bind at 1.
    destruct (download_attempt_cases w (url l) full_save_path Hw)
      as [(r & body & Hr & Hs & Hc & Hrun)|[Hno (w' & Hrun & Hn' & Hw')]].
    + intros e He. rewrite Hnet in He. exact (Hreq _ _ He).
    + intros r e Hr Hc. rewrite Hnet in Hr. exact (Hbody _ _ _ Hr Hc).
    + rewrite Hrun.
      destruct (download_save_metadata_cases dest_folder (date l)
                  (set_disk ((full_save_path, FBytes body) :: disk w) w))
        as [[_ [data Hm]]|[_ Hm]]; unfold bind; rewrite Hm; simpl.
      * split; [discriminate|]. intro H. exfalso.
        rewrite Hnet in Hr.
        exact (H l r body (or_introl eq_refl) Hr Hs Hc).
      * split; [discriminate|]. intro H. exfalso.
        rewrite Hnet in Hr.
        exact (H l r body (or_introl eq_refl) Hr Hs Hc).
    + rewrite Hrun.
      rewrite (IH w') by (rewrite ?Hn', ?Hw'; assumption).
      split.
      * intros H l' r' body' [<-|Hl'] Hr' Hs'.
        -- rewrite <- Hnet in Hr'. exact (Hno r' body' Hr' Hs').
        -- exact (H l' r' body' Hl' Hr' Hs').
      * intros H l' r' body' Hl'. apply H. right. exact Hl'.
Qed.

(** X2. With a writable destination, and when the requests and the
    reading of a body raise nothing but [RequestException], the download
    returns [None] exactly when none of the candidate links is answered
    with status 200 and a body that can be read. A link that is answered
    with status 200 but whose body cannot be read counts as failed, and
    leaves the destination file empty. *)
Theorem download_returns_None_iff (self : t) (w : World) (links : list link_info) :
  let dest_folder := Config.destination_folder (output_cfg self) in
  let full_save_path :=
    Os.path_join dest_folder (Config.destination_filename (output_cfg self)) in
  can_mkdir w dest_folder = true ->
  can_write w full_save_path = true ->
  (forall u e, requests_get w u = Raise e -> Os.is_RequestException e = true) ->
  (forall u r e, requests_get w u = Ret r -> content r = Raise e ->
                 Os.is_RequestException e = true) ->
  _generate_download_links self w = (Ret links, w) ->
  (fst (run_download_process self w) = Ret None
   <-> forall l r body, In l links -> requests_get w (url l) = Ret r ->
                        status_code r = 200 -> content r <> Ret body)
  /\ (forall u r e,
        requests_get w u = Ret r -> status_code r = 200 ->
        content r = Raise e ->
        _download_and_save_file u full_save_path w
        = (Ret false, set_disk ((full_save_path, FBytes "") :: disk w) w)).
Proof.
  intros dest_folder full_save_path Hdir Hw Hexn Hbody Hgen. split.
  - unfold run_download_process, bind at 1, Os.makedirs.
    fold dest_folder. rewrite Hdir. unfold bind at 1. rewrite Hgen.
    fold full_save_path.
    exact (try_links_None_iff (requests_get w) links dest_folder
             full_save_path w eq_refl Hw Hexn Hbody).
  - intros u r e Hr Hs Hc.
    unfold _download_and_save_file, try_except, bind, Os.write_evaluated.
    rewrite Hr, Hs. cbn [Z.eqb Pos.eqb]. rewrite Hw, Hc.
    rewrite (Hbody u r e Hr Hc). reflexivity.
Qed.

(** X3. When a link is answered with status 200 but the destination file
    cannot be written, the [OSError] is not caught: the download process,
    the agent and the node all raise it, and no later link is tried. *)
Theorem download_unwritable_destination_raises
        (agent : DataDownloaderAgent.t) (w : World) (s : pydict)
        (link : link_info) (rest : list link_info) (r : response) :
  let self := DataDownloaderAgent.downloader_tool agent in
  let dest_folder := Config.destination_folder (output_cfg self) in
  let full_save_path :=
    Os.path_join dest_folder (Config.destination_filename (output_cfg self)) in
  DataDownloaderAgent.__init__ w = (Ret agent, w) ->
  can_mkdir w dest_folder = true ->
  _generate_download_links self w = (Ret (link :: rest), w) ->
  requests_get w (url link) = Ret r ->
  status_code r = 200 ->
  can_write w full_save_path = false ->
  run_download_process self w = (Raise (OSError full_save_path), w)
  /\ DataDownloaderAgent.run agent w = (Raise (OSError full_save_path), w)
  /\ _node_data_downloader World repository_agents (s, w)
     = (Raise (OSError full_save_path), (s, w)).
Proof.
  intros self dest_folder full_save_path Hinit Hdir Hgen Hr Hs Hw.
  assert (Hrun : run_download_process self w = (Raise (OSError full_save_path), w)).
  { unfold run_download_process, bind at 1, Os.makedirs.
    fold dest_folder. rewrite Hdir. unfold bind at 1. rewrite Hgen.
    fold full_save_path. simpl.
    unfold bind at 1, _download_and_save_file, try_except, bind,
      Os.write_evaluated.
    rewrite Hr, Hs. simpl. rewrite Hw. reflexivity. }
  assert (Hagent : DataDownloaderAgent.run agent w
                   = (Raise (OSError full_save_path), w)).
  { unfold DataDownloaderAgent.run, bind. fold self. rewrite Hrun. reflexivity. }
  split; [exact Hrun|]. split; [exact Hagent|].
  apply (node_agent_raises World repository_agents "data_downloader");
    [reflexivity|].
  unfold stage_call. simpl. unfold bind. rewrite Hinit. exact Hagent.
Qed.




End DownloadTool.

(** ** The preprocess tool *)

Section PreprocessTool.

Import DataPreprocessorTool.

Lemma filter_nil_iff {A} (f : A -> bool) (l : list A) :
  filter f l = [] <-> forall x, In x l -> f x = false.
Proof.
  induction l as [|a l IH]; simpl.
  - split; [intros _ x [] | reflexivity].
  - destruct (f a) eqn:E.
    + split; [discriminate|]. intro H.
      rewrite (H a) in E by (left; reflexivity). discriminate.
    + rewrite IH. split.
      * intros H x [<-|Hx]; auto.
      * intros H x Hx. apply H. right. exact Hx.
Qed.

Lemma has_column_project (cols : list string) (df : DataFrame.t) (c : string) :
  DataFrame.has_column (DataFrame.project cols df) c = existsb (String.eqb c) cols.
Proof. reflexivity. Qed.

Lemma shape0_project (cols : list string) (df : DataFrame.t) :
  DataFrame.shape0 (DataFrame.project cols df) = DataFrame.shape0 df.
Proof.
  unfold DataFrame.shape0, DataFrame.project. simpl.
  rewrite length_map. reflexivity.
Qed.

(** X4. Loading the raw data never raises and leaves the world as it was.
    It returns [None] exactly when the file cannot be read or lacks one of
    the configured columns; otherwise it returns a frame with exactly the
    configured columns, in their order, and as many rows as the file. *)
Theorem load_raw_data_cases (w : World) (p : string) (cols : list string) :
  (forall e, read_csv w p = Raise e -> Os.is_Exception e = true) ->
  exists r,
    _load_raw_data (Some p) cols w = (Ret r, w)
    /\ (r = None
        <-> (exists e, read_csv w p = Raise e)
            \/ (exists df c, read_csv w p = Ret df /\ In c cols
                             /\ DataFrame.has_column df c = false))
    /\ (forall out, r = Some out ->
          exists df, read_csv w p = Ret df
                     /\ DataFrame.columns out = cols
                     /\ DataFrame.shape0 out = DataFrame.shape0 df).
Proof.
  intro Hexn.
  unfold _load_raw_data, try_except, bind, Os.pd_read_csv, ret.
  destruct (read_csv w p) as [df|e] eqn:Hr.
  - destruct (filter (fun col => negb (DataFrame.has_column df col)) cols)
      as [|c0 rest] eqn:Hf.
    + exists (Some (DataFrame.project cols df)). split; [reflexivity|]. split.
      * split; [discriminate|].
        intros [[e He]|(df' & c & Hdf & Hc & Hno)]; [discriminate|].
        injection Hdf as <-.
        pose proof (proj1 (filter_nil_iff _ _) Hf c Hc) as H.
        simpl in H. rewrite Hno in H. discriminate.
      * intros out H. injection H as <-. exists df.
        split; [reflexivity|]. split; [reflexivity | apply shape0_project].
    + exists None. split; [reflexivity|]. split.
      * split; [|reflexivity]. intros _. right. exists df, c0.
        assert (Hin : In c0 (filter (fun col => negb (DataFrame.has_column df col)) cols))
          by (rewrite Hf; left; reflexivity).
        apply filter_In in Hin. destruct Hin as [Hin Hneg].
        apply negb_true_iff in Hneg. auto.
      * discriminate.
  - exists None. rewrite (Hexn e eq_refl), orb_true_r.
    split; [reflexivity|]. split.
    + split; [|reflexivity]. intros _. left. eauto.
    + discriminate.
Qed.

(** Loading returns, and what it returns has the configured columns. *)
Lemma load_raw_data_columns (w : World) (p : string) (cols : list string) :
  (forall e, read_csv w p = Raise e -> Os.is_Exception e = true) ->
  exists r,
    _load_raw_data (Some p) cols w = (Ret r, w)
    /\ (forall out, r = Some out -> DataFrame.columns out = cols).
Proof.
  intro Hexn.
  unfold _load_raw_data, try_except, bind, Os.pd_read_csv, ret.
  destruct (read_csv w p) as [df|e] eqn:Hr.
  - destruct (filter (fun col => negb (DataFrame.has_column df col)) cols).
    + eexists. split; [reflexivity|]. intros out H. injection H as <-.
      reflexivity.
    + exists None. split; [reflexivity | discriminate].
  - exists None. rewrite (Hexn e eq_refl), orb_true_r.
    split; [reflexivity | discriminate].
Qed.

Lemma load_raw_data_world (p : pyval) (cols : list string) (w : World) :
  snd (_load_raw_data p cols w) = w.
Proof.
  unfold _load_raw_data, try_except, bind, Os.pd_read_csv, ret.
  destruct p as [p|]; simpl.
  - destruct (read_csv w p) as [df|e]; simpl.
    + destruct (filter _ cols); reflexivity.
    + destruct (_ || _); reflexivity.
  - reflexivity.
Qed.

Lemma rows_map_column (c : string) (f : DataFrame.cell -> DataFrame.cell)
      (df : DataFrame.t) :
  List.length (DataFrame.rows (DataFrame.map_column c f df))
  = List.length (DataFrame.rows df).
Proof. unfold DataFrame.map_column. simpl. apply length_map. Qed.

Lemma rows_fillna_inplace (w : World) (c : string) (v : float)
      (df : DataFrame.t) :
  DataFrame.columns (fillna_inplace w c v df) = DataFrame.columns df
  /\ List.length (DataFrame.rows (fillna_inplace w c v df))
     = List.length (DataFrame.rows df).
Proof.
  unfold fillna_inplace. destruct (copy_on_write w); [auto|].
  split; [reflexivity | apply rows_map_column].
Qed.

Lemma columns_mapped (w : World) (df : DataFrame.t) (columns : list string)
      (mapping : list (float * DataFrame.cell)) :
  exists out,
    _process_mapped_columns df columns mapping w = (Ret out, w)
    /\ DataFrame.columns out = DataFrame.columns df
    /\ List.length (DataFrame.rows out) = List.length (DataFrame.rows df).
Proof.
  unfold _process_mapped_columns. eexists. split; [reflexivity|].
  revert df.
  induction columns as [|c columns IH]; intro df; cbn [fold_left]; [auto|].
  destruct (DataFrame.has_column df c).
  - destruct (IH (DataFrame.map_column c (replace mapping)
                    (fillna_inplace w c 9 df))) as [H1 H2].
    rewrite H1, H2.
    destruct (rows_fillna_inplace w c 9 df) as [F1 F2].
    split; [exact F1|]. rewrite rows_map_column. exact F2.
  - apply IH.
Qed.

Lemma columns_evolution (w : World) (df : DataFrame.t)
      (mapping : list (float * DataFrame.cell)) :
  exists out,
    _process_evolution_column df mapping w = (Ret out, w)
    /\ DataFrame.columns out = DataFrame.columns df
    /\ List.length (DataFrame.rows out) = List.length (DataFrame.rows df).
Proof.
  unfold _process_evolution_column. eexists. split; [reflexivity|].
  destruct (DataFrame.has_column df "EVOLUCAO"); [|auto].
  destruct (rows_fillna_inplace w "EVOLUCAO" 9 df) as [F1 F2].
  split; [exact F1|]. rewrite !rows_map_column. exact F2.
Qed.

Lemma has_column_rename (old new : string) (df : DataFrame.t) :
  DataFrame.has_column df old = true ->
  DataFrame.has_column (DataFrame.rename old new df) new = true.
Proof.
  unfold DataFrame.has_column, DataFrame.rename.
  cbn [DataFrame.columns].
  induction (DataFrame.columns df) as [|c cs IH]; cbn [existsb map];
    [discriminate|].
  intro H. apply orb_true_iff in H. apply orb_true_iff.
  destruct H as [H|H].
  - left. apply String.eqb_eq in H. subst c.
    rewrite String.eqb_refl. apply String.eqb_refl.
  - right. exact (IH H).
Qed.

(** What the cleaning of a frame with rows and dates computes. *)
Lemma clean_dated_rows (df : DataFrame.t) (w : World) :
  DataFrame.empty df = false ->
  DataFrame.has_column df "DT_NOTIFIC" = true ->
  exists out,
    _clean_and_transform_data df w = (Ret out, w)
    /\ DataFrame.shape0 out
       = Z.of_nat (List.length
                     (filter (fun r => negb (DataFrame.isna
                                               (DataFrame.row_get r "DT_NOTIFIC")))
                             (DataFrame.rows df)))
    /\ DataFrame.columns out
       = DataFrame.columns (DataFrame.rename "DT_NOTIFIC" "DATA_NOTIFICACAO" df).
Proof.
  intros Hne Hcol.
  unfold _clean_and_transform_data. rewrite Hne.
  unfold bind at 1, _process_notification_date, bind at 1, of_res,
    DataFrame.dropna.
  rewrite Hcol. unfold bind at 1, Os.to_datetime_coerce, ret at 1.
  unfold bind at 1.
  match goal with
  | |- context [_process_mapped_columns ?d ?c ?m w] =>
      destruct (columns_mapped w d c m) as (mapped & Hm & M1 & M2)
  end.
  rewrite Hm.
  match goal with
  | |- context [_process_evolution_column mapped ?e w] =>
      destruct (columns_evolution w mapped e) as (out & Ho & E1 & E2)
  end.
  exists out. split; [exact Ho|]. split.
  - unfold DataFrame.shape0. rewrite E2, M2. f_equal.
    unfold DataFrame.rename, DataFrame.map_column, DataFrame.select. simpl.
    rewrite !length_map. reflexivity.
  - rewrite E1, M1. reflexivity.
Qed.

(** X5. Cleaning a frame that has rows and the column [DT_NOTIFIC] returns
    a frame and leaves the world as it was: the rows without a
    notification date are dropped and all others are kept (a date that
    cannot be parsed does not drop its row), so no more rows come out
    than went in; the date column is now called [DATA_NOTIFICACAO], and
    the frame has as many columns as before. *)
Theorem clean_keeps_dated_rows (df : DataFrame.t) (w : World) :
  DataFrame.empty df = false ->
  DataFrame.has_column df "DT_NOTIFIC" = true ->
  exists out,
    _clean_and_transform_data df w = (Ret out, w)
    /\ DataFrame.shape0 out
       = Z.of_nat (List.length
                     (filter (fun r => negb (DataFrame.isna
                                               (DataFrame.row_get r "DT_NOTIFIC")))
                             (DataFrame.rows df)))
    /\ DataFrame.shape0 out <= DataFrame.shape0 df
    /\ DataFrame.has_column out "DATA_NOTIFICACAO" = true
    /\ List.length (DataFrame.columns out) = List.length (DataFrame.columns df).
Proof.
  intros Hne Hcol.
  destruct (clean_dated_rows df w Hne Hcol) as (out & Ho & Hn & Hc).
  exists out. split; [exact Ho|]. split; [exact Hn|]. split; [|split].
  - rewrite Hn. unfold DataFrame.shape0. apply inj_le, filter_length_le.
  - unfold DataFrame.has_column. rewrite Hc.
    apply (has_column_rename "DT_NOTIFIC" "DATA_NOTIFICACAO" df Hcol).
  - rewrite Hc. unfold DataFrame.rename. cbn [DataFrame.columns].
    apply length_map.
Qed.

Lemma empty_of_no_rows (df : DataFrame.t) :
  DataFrame.shape0 df = 0 -> DataFrame.empty df = true.
Proof.
  unfold DataFrame.shape0, DataFrame.empty.
  destruct (DataFrame.rows df); simpl; [|lia].
  destruct (DataFrame.columns df); reflexivity.
Qed.

(** X6. When the loaded frame is empty, or when none of its rows has a
    notification date, the preprocess tool returns [None] and writes no
    file: nothing is saved for an input without usable rows. *)
Theorem preprocess_without_dated_rows_returns_None
        (self : t) (w : World) (df_raw : DataFrame.t) :
  fst (_load_raw_data (downloaded_file_path self)
         (Config.columns_to_keep (proc_cfg self)) w) = Ret (Some df_raw) ->
  (DataFrame.empty df_raw = true
   \/ (DataFrame.has_column df_raw "DT_NOTIFIC" = true
       /\ forall r, In r (DataFrame.rows df_raw) ->
                    DataFrame.isna (DataFrame.row_get r "DT_NOTIFIC") = true)) ->
  run_preprocessing_process self w = (Ret None, w).
Proof.
  intros Hload Hcase.
  assert (Hload' : _load_raw_data (downloaded_file_path self)
                     (Config.columns_to_keep (proc_cfg self)) w
                   = (Ret (Some df_raw), w)).
  { pose proof (load_raw_data_world (downloaded_file_path self)
                  (Config.columns_to_keep (proc_cfg self)) w) as Hw.
    destruct (_load_raw_data _ _ w) as [r w']. simpl in *. congruence. }
  unfold run_preprocessing_process, bind at 1. rewrite Hload'.
  assert (Hclean : exists out, _clean_and_transform_data df_raw w = (Ret out, w)
                               /\ DataFrame.empty out = true).
  { destruct (DataFrame.empty df_raw) eqn:He.
    - exists DataFrame.new. unfold _clean_and_transform_data. rewrite He.
      split; reflexivity.
    - destruct Hcase as [Hc|[Hcol Hrows]]; [discriminate|].
      destruct (clean_dated_rows df_raw w He Hcol) as (out & Ho & Hn & _).
      exists out. split; [exact Ho|]. apply empty_of_no_rows. rewrite Hn.
      replace (filter _ (DataFrame.rows df_raw)) with (@nil DataFrame.row);
        [reflexivity|].
      symmetry. apply filter_nil_iff. intros r Hr. rewrite (Hrows r Hr).
      reflexivity. }
  destruct Hclean as (out & Ho & He).
  unfold bind at 1. rewrite Ho.
  unfold bind at 1, _save_processed_data. rewrite He. reflexivity.
Qed.

(** X7. When the configuration does not keep the column [DT_NOTIFIC], the
    cleaning of a frame with rows raises at its first statement,
    [df.dropna(subset=["DT_NOTIFIC"])]: a [KeyError] whose argument is the
    list of the missing labels, [['DT_NOTIFIC']]. Neither the tool nor the
    agent catches it; nothing is written. *)
Theorem preprocess_without_date_column_raises
        (agent : DataPreprocessorAgent.t) (w : World) (df_raw : DataFrame.t) :
  let self := DataPreprocessorAgent.preprocessor_tool agent in
  fst (_load_raw_data (downloaded_file_path self)
         (Config.columns_to_keep (proc_cfg self)) w) = Ret (Some df_raw) ->
  DataFrame.empty df_raw = false ->
  DataFrame.has_column df_raw "DT_NOTIFIC" = false ->
  run_preprocessing_process self w = (Raise (KeyError "['DT_NOTIFIC']"), w)
  /\ DataPreprocessorAgent.run agent w
     = (Raise (KeyError "['DT_NOTIFIC']"), w)
  /\ fst (_process_notification_date df_raw w)
     = Raise (KeyError "['DT_NOTIFIC']").
Proof.
  intros self Hload Hne Hcol.
  assert (Hload' : _load_raw_data (downloaded_file_path self)
                     (Config.columns_to_keep (proc_cfg self)) w
                   = (Ret (Some df_raw), w)).
  { pose proof (load_raw_data_world (downloaded_file_path self)
                  (Config.columns_to_keep (proc_cfg self)) w) as Hw.
    destruct (_load_raw_data _ _ w) as [r w']. simpl in *. congruence. }
  assert (Hrun : run_preprocessing_process self w
                 = (Raise (KeyError "['DT_NOTIFIC']"), w)).
  { unfold run_preprocessing_process, bind at 1. rewrite Hload'.
    unfold bind at 1, _clean_and_transform_data. rewrite Hne.
    unfold bind at 1, _process_notification_date, bind at 1, of_res,
      DataFrame.dropna.
    rewrite Hcol. reflexivity. }
  split; [exact Hrun|]. split.
  - unfold DataPreprocessorAgent.run, bind. fold self. rewrite Hrun.
    reflexivity.
  - unfold _process_notification_date, bind, of_res, DataFrame.dropna.
    rewrite Hcol. reflexivity.
Qed.

(** X8. When the configuration keeps [DT_NOTIFIC] and reading a file raises
    nothing but ordinary exceptions, the preprocess tool never raises: every
    failure of reading or saving comes back as [None]. *)
Theorem preprocess_never_raises (self : t) (w : World) :
  In "DT_NOTIFIC" (Config.columns_to_keep (proc_cfg self)) ->
  (forall p e, read_csv w p = Raise e -> Os.is_Exception e = true) ->
  exists r w', run_preprocessing_process self w = (Ret r, w').
Proof.
  intros Hin Hexn.
  unfold run_preprocessing_process, bind at 1.
  destruct (downloaded_file_path self) as [p|].
  - destruct (load_raw_data_columns w p (Config.columns_to_keep (proc_cfg self))
                (Hexn p)) as (r & Hr & Hsome).
    rewrite Hr. destruct r as [df_raw|]; [|do 2 eexists; reflexivity].
    pose proof (Hsome df_raw eq_refl) as Hcols.
    assert (Hcol : DataFrame.has_column df_raw "DT_NOTIFIC" = true).
    { unfold DataFrame.has_column. rewrite Hcols.
      apply existsb_exists. exists "DT_NOTIFIC". split; [exact Hin|].
      apply String.eqb_refl. }
    assert (Hclean : exists out, _clean_and_transform_data df_raw w = (Ret out, w)).
    { destruct (DataFrame.empty df_raw) eqn:He.
      - exists DataFrame.new. unfold _clean_and_transform_data. rewrite He.
        reflexivity.
      - destruct (clean_dated_rows df_raw w He Hcol) as (out & Ho & _).
        eauto. }
    destruct Hclean as [out Ho]. unfold bind at 1. rewrite Ho.
    destruct (save_processed_bool out
                (Os.path_join (Config.output_folder (proc_cfg self))
                   (Config.output_filename (proc_cfg self))) w)
      as (ok & w3 & Hs).
    unfold bind at 1. rewrite Hs. destruct ok; simpl; [|do 2 eexists; reflexivity].
    destruct (save_metadata_bool (Config.output_folder (proc_cfg self)) w3)
      as (ok & w4 & Hm).
    unfold bind. rewrite Hm. destruct ok; simpl; do 2 eexists; reflexivity.
  - rewrite (surjective_pairing (_load_raw_data None _ w)). simpl. do 2 eexists; reflexivity.
Qed.

(** A float that compares equal to a positive finite one has its
    representation. *)
Lemma SFeqb_finite_inv (m : positive) (e : Z) (f : SpecFloat.spec_float) :
  SpecFloat.SFeqb (SpecFloat.S754_finite false m e) f = true ->
  f = SpecFloat.S754_finite false m e.
Proof.
  unfold SpecFloat.SFeqb, SpecFloat.SFcompare.
  destruct f as [s|s| |s m' e']; try discriminate.
  - destruct s; discriminate.
  - destruct s; [discriminate|].
    destruct (Z.compare_spec e e') as [He|He|He]; try discriminate.
    destruct (Pos.compare_cont Eq m m') eqn:Hm; try discriminate.
    intros _. apply Pos.compare_eq in Hm. subst. reflexivity.
Qed.

Lemma float_eqb_other (a b v : float) (m : positive) (e : Z) :
  Prim2SF a = SpecFloat.S754_finite false m e ->
  PrimFloat.eqb a v = true ->
  PrimFloat.eqb b v = PrimFloat.eqb b a.
Proof.
  intros Ha H. rewrite !FloatAxioms.eqb_spec in *. rewrite Ha in *.
  apply SFeqb_finite_inv in H. rewrite H. reflexivity.
Qed.

(** The codes of [EVOLUCAO] are told apart. *)
Lemma evolution_codes_apart (a b v : float) :
  In a [1%float; 2%float; 3%float; 9%float] ->
  PrimFloat.eqb a v = true ->
  PrimFloat.eqb b v = PrimFloat.eqb b a.
Proof.
  intros [<-|[<-|[<-|[<-|[]]]]];
    eapply float_eqb_other; vm_compute; reflexivity.
Qed.

(** X9. The recoding of [EVOLUCAO]. Every cell of the column goes through
    the same function. The code 1 becomes [CURA], the codes 2 and 3 both
    become [OBITO], the code 9 becomes [IGNORADO]; any other number and
    any text are left as they are. What becomes of a missing cell depends
    on pandas, because the fill is [df["EVOLUCAO"].fillna(9.0,
    inplace=True)]: without copy-on-write the frame is filled, a missing
    cell becomes [IGNORADO] and no cell is missing afterwards; with
    copy-on-write (always so from pandas 3) the fill is lost and a
    missing cell stays missing. *)
Theorem evolution_recoding (df : DataFrame.t) (w : World) :
  DataFrame.has_column df "EVOLUCAO" = true ->
  let map_evolucao := [(1%float, DataFrame.Str "CURA");
                       (2%float, DataFrame.Str "OBITO");
                       (9%float, DataFrame.Str "IGNORADO")] in
  let recode := fun x =>
    replace map_evolucao (replace [(3%float, DataFrame.Num 2)] x) in
  let code := fun x =>
    recode (if copy_on_write w then x else fillna 9 x) in
  (exists out,
     _process_evolution_column df map_evolucao w = (Ret out, w)
     /\ DataFrame.columns out = DataFrame.columns df
     /\ DataFrame.rows out
        = map (DataFrame.map_cell "EVOLUCAO" code) (DataFrame.rows df))
  /\ (forall x, DataFrame.isna x = true ->
                code x = if copy_on_write w then x
                         else DataFrame.Str "IGNORADO")
  /\ (forall x, DataFrame.isna (code x)
                = copy_on_write w && DataFrame.isna x)
  /\ (forall v, code (DataFrame.Num v) = DataFrame.Str "OBITO"
                <-> PrimFloat.eqb 2 v || PrimFloat.eqb 3 v = true)
  /\ (forall v, code (DataFrame.Num v) = DataFrame.Str "CURA"
                <-> PrimFloat.eqb 1 v = true)
  /\ (forall v, code (DataFrame.Num v) = DataFrame.Str "IGNORADO"
                <-> PrimFloat.eqb 9 v = true)
  /\ (forall v, PrimFloat.eqb 1 v || PrimFloat.eqb 2 v
                || PrimFloat.eqb 3 v || PrimFloat.eqb 9 v = false ->
                code (DataFrame.Num v) = DataFrame.Num v)
  /\ (forall s, code (DataFrame.Str s) = DataFrame.Str s).
Proof.
  intros Hcol map_evolucao recode code.
  assert (Hfill : forall v, code (DataFrame.Num v) = recode (DataFrame.Num v)).
  { intro v. unfold code. destruct (copy_on_write w); reflexivity. }
  assert (Hnum : forall v,
             code (DataFrame.Num v)
             = if PrimFloat.eqb 3 v then DataFrame.Str "OBITO"
               else if PrimFloat.eqb 1 v then DataFrame.Str "CURA"
               else if PrimFloat.eqb 2 v then DataFrame.Str "OBITO"
               else if PrimFloat.eqb 9 v then DataFrame.Str "IGNORADO"
               else DataFrame.Num v).
  { intro v. rewrite Hfill. unfold recode, replace, map_evolucao.
    cbn [find fst snd].
    destruct (PrimFloat.eqb 3 v); [vm_compute; reflexivity|].
    destruct (PrimFloat.eqb 1 v); [reflexivity|].
    destruct (PrimFloat.eqb 2 v); [reflexivity|].
    destruct (PrimFloat.eqb 9 v); reflexivity. }
  assert (H1 : forall b v, PrimFloat.eqb 1 v = true ->
                           PrimFloat.eqb b v = PrimFloat.eqb b 1)
    by (intros b v; apply evolution_codes_apart; simpl; auto).
  assert (H2 : forall b v, PrimFloat.eqb 2 v = true ->
                           PrimFloat.eqb b v = PrimFloat.eqb b 2)
    by (intros b v; apply evolution_codes_apart; simpl; auto).
  assert (H3 : forall b v, PrimFloat.eqb 3 v = true ->
                           PrimFloat.eqb b v = PrimFloat.eqb b 3)
    by (intros b v; apply evolution_codes_apart; simpl; auto).
  assert (H9 : forall b v, PrimFloat.eqb 9 v = true ->
                           PrimFloat.eqb b v = PrimFloat.eqb b 9)
    by (intros b v; apply evolution_codes_apart; simpl; auto 6).
  split; [|split; [|split; [|split; [|split; [|split; [|split]]]]]].
  - unfold _process_evolution_column. rewrite Hcol.
    eexists. split; [reflexivity|]. split.
    + unfold fillna_inplace. destruct (copy_on_write w); reflexivity.
    + unfold code, recode, fillna_inplace.
      destruct (copy_on_write w);
        unfold DataFrame.map_column; cbn [DataFrame.rows DataFrame.columns];
        rewrite !map_map; apply map_ext; intro r;
        unfold DataFrame.map_cell; rewrite !map_map; apply map_ext;
        intros [k x]; cbn [fst snd];
        destruct (String.eqb k "EVOLUCAO") eqn:Hk; cbn [fst snd]; rewrite ?Hk;
        cbn [fst snd]; rewrite ?Hk; reflexivity.
  - intros [ |v|s|t| ]; try discriminate; intros _; unfold code;
      destruct (copy_on_write w); vm_compute; reflexivity.
  - intros [ |v|s|t| ].
    + unfold code. destruct (copy_on_write w); vm_compute; reflexivity.
    + rewrite Hnum. cbn [DataFrame.isna]. rewrite andb_false_r.
      destruct (PrimFloat.eqb 3 v); [reflexivity|].
      destruct (PrimFloat.eqb 1 v); [reflexivity|].
      destruct (PrimFloat.eqb 2 v); [reflexivity|].
      destruct (PrimFloat.eqb 9 v); reflexivity.
    + unfold code. destruct (copy_on_write w); reflexivity.
    + unfold code. destruct (copy_on_write w); reflexivity.
    + unfold code. destruct (copy_on_write w); vm_compute; reflexivity.
  - intro v. rewrite Hnum.
    destruct (PrimFloat.eqb 3 v) eqn:E3.
    + rewrite orb_true_r. tauto.
    + destruct (PrimFloat.eqb 1 v) eqn:E1.
      * rewrite (H1 2%float v E1). split; [discriminate|].
        vm_compute. discriminate.
      * destruct (PrimFloat.eqb 2 v) eqn:E2; [tauto|].
        destruct (PrimFloat.eqb 9 v); split; discriminate.
  - intro v. rewrite Hnum.
    destruct (PrimFloat.eqb 3 v) eqn:E3.
    + rewrite (H3 1%float v E3). split; [discriminate|].
      vm_compute. discriminate.
    + destruct (PrimFloat.eqb 1 v) eqn:E1; [tauto|].
      destruct (PrimFloat.eqb 2 v); [split; discriminate|].
      destruct (PrimFloat.eqb 9 v); split; discriminate.
  - intro v. rewrite Hnum.
    destruct (PrimFloat.eqb 3 v) eqn:E3.
    + rewrite (H3 9%float v E3). split; [discriminate|].
      vm_compute. discriminate.
    + destruct (PrimFloat.eqb 1 v) eqn:E1.
      * rewrite (H1 9%float v E1). split; [discriminate|].
        vm_compute. discriminate.
      * destruct (PrimFloat.eqb 2 v) eqn:E2.
        -- rewrite (H2 9%float v E2). split; [discriminate|].
           vm_compute. discriminate.
        -- destruct (PrimFloat.eqb 9 v); [tauto|]. split; discriminate.
  - intros v H. rewrite Hnum.
    apply orb_false_iff in H. destruct H as [H E9].
    apply orb_false_iff in H. destruct H as [H E3].
    apply orb_false_iff in H. destruct H as [E1 E2].
    rewrite E1, E2, E3, E9. reflexivity.
  - intro s. unfold code. destruct (copy_on_write w); reflexivity.
Qed.

End PreprocessTool.

(** ** The loader of the metrics and visualizations tools *)

Section Loader.

Import MetricsCalculatorTool.

(** X29. The processed file is loaded in the same way by the metrics tool
    and by the visualizations tool. Loading never raises and changes
    nothing. It returns a frame exactly when the file can be read, has the
    column [DATA_NOTIFICACAO], and every cell of that column parses as a
    date (here a date that does not parse is an error, not a missing
    value); the frame then has the columns and the number of rows of the
    file. In every other case it returns [None]. *)
Theorem processed_file_load_cases (w : World) (p : string) :
  (forall e, read_csv w p = Raise e -> Os.is_Exception e = true) ->
  VisualizationsTool._load_and_preprocess_data (Some p) w
  = _load_and_preprocess_data (Some p) w
  /\ exists r,
       _load_and_preprocess_data (Some p) w = (Ret r, w)
       /\ (forall out, r = Some out <->
             exists df,
               read_csv w p = Ret df
               /\ DataFrame.has_column df "DATA_NOTIFICACAO" = true
               /\ forallb (fun row =>
                             match to_datetime w
                                     (DataFrame.row_get row "DATA_NOTIFICACAO")
                             with
                             | Some _ => true
                             | None => false
                             end) (DataFrame.rows df) = true
               /\ out = DataFrame.map_column "DATA_NOTIFICACAO"
                          (fun x => match to_datetime w x with
                                    | Some t => t
                                    | None => DataFrame.NaT
                                    end) df)
       /\ (forall out, r = Some out ->
             exists df, read_csv w p = Ret df
                        /\ DataFrame.columns out = DataFrame.columns df
                        /\ DataFrame.shape0 out = DataFrame.shape0 df).
Proof.
  intro Hexn. split; [reflexivity|].
  unfold _load_and_preprocess_data, try_except, bind, Os.pd_read_csv, of_res,
    Os.to_datetime_column, DataFrame.getitem, ret.
  destruct (read_csv w p) as [df|e] eqn:Hr.
  - destruct (DataFrame.has_column df "DATA_NOTIFICACAO") eqn:Hc.
    + destruct (forallb _ (DataFrame.rows df)) eqn:Hf.
      * eexists. split; [reflexivity|]. split.
        -- intro out. split.
           ++ intro H. injection H as <-. exists df. auto.
           ++ intros (df0 & E & _ & _ & ->). injection E as <-. reflexivity.
        -- intros out H. injection H as <-. exists df.
           split; [reflexivity|]. split; [reflexivity|].
           unfold DataFrame.shape0, DataFrame.map_column. simpl.
           rewrite length_map. reflexivity.
      * cbn. exists None. split; [reflexivity|]. split.
        -- intro out. split; [discriminate|].
           intros (df0 & E & _ & Hf0 & _). injection E as <-. congruence.
        -- discriminate.
    + cbn. exists None. split; [reflexivity|]. split.
      * intro out. split; [discriminate|].
        intros (df0 & E & Hc0 & _). injection E as <-. congruence.
      * discriminate.
  - rewrite (Hexn e eq_refl), orb_true_r. exists None.
    split; [reflexivity|]. split.
    + intro out. split; [discriminate|]. intros (df0 & E & _). discriminate.
    + discriminate.
Qed.

End Loader.

(** ** What the cleaning leaves alone *)

Section Untouched.

Import DataPreprocessorTool.

Lemma row_lookup_map_cell (c c' : string) (f : DataFrame.cell -> DataFrame.cell)
      (r : DataFrame.row) :
  c' <> c ->
  DataFrame.row_lookup (DataFrame.map_cell c' f r) c = DataFrame.row_lookup r c.
Proof.
  intro Hc. unfold DataFrame.map_cell.
  induction r as [|[k x] r IH]; simpl; [reflexivity|].
  destruct (String.eqb_spec k c') as [->|Hk]; simpl.
  - destruct (String.eqb_spec c' c); [congruence | exact IH].
  - destruct (String.eqb k c); [reflexivity | exact IH].
Qed.

Lemma row_lookup_rename (old new c : string) (r : DataFrame.row) :
  c <> old -> c <> new ->
  DataFrame.row_lookup
    (map (fun kv => (if String.eqb (fst kv) old then new else fst kv, snd kv)) r) c
  = DataFrame.row_lookup r c.
Proof.
  intros Ho Hn. induction r as [|[k x] r IH]; simpl; [reflexivity|].
  destruct (String.eqb_spec k old) as [->|Hk].
  - destruct (String.eqb_spec new c); [congruence|].
    destruct (String.eqb_spec old c); [congruence | exact IH].
  - destruct (String.eqb k c); [reflexivity | exact IH].
Qed.

(** The fill of a column goes row by row and touches no other column. *)
Lemma fillna_inplace_rows (w : World) (col : string) (v : float)
      (df : DataFrame.t) :
  exists g,
    DataFrame.rows (fillna_inplace w col v df) = map g (DataFrame.rows df)
    /\ forall r c, c <> col ->
                   DataFrame.row_lookup (g r) c = DataFrame.row_lookup r c.
Proof.
  unfold fillna_inplace. destruct (copy_on_write w).
  - exists (fun r => r). split; [rewrite map_id; reflexivity | reflexivity].
  - exists (DataFrame.map_cell col (fillna v)). split; [reflexivity|].
    intros r c Hc. apply row_lookup_map_cell. congruence.
Qed.

(** The rows of a frame whose cells go through column-wise functions. *)
Lemma mapped_columns_rows (w : World) (columns : list string)
      (mapping : list (float * DataFrame.cell)) (df : DataFrame.t) :
  exists out g,
    _process_mapped_columns df columns mapping w = (Ret out, w)
    /\ DataFrame.rows out = map g (DataFrame.rows df)
    /\ forall r c, ~ In c columns ->
                   DataFrame.row_lookup (g r) c = DataFrame.row_lookup r c.
Proof.
  unfold _process_mapped_columns. eexists.
  cut (exists g,
         DataFrame.rows
           (fold_left
              (fun df col =>
                 if DataFrame.has_column df col
                 then DataFrame.map_column col (replace mapping)
                        (fillna_inplace w col 9 df)
                 else df) columns df)
         = map g (DataFrame.rows df)
         /\ forall r c, ~ In c columns ->
                        DataFrame.row_lookup (g r) c = DataFrame.row_lookup r c).
  { intros (g & Hg & Hk). exists g. split; [reflexivity|]. split; assumption. }
  revert df.
  induction columns as [|col columns IH]; intro df; cbn [fold_left].
  - exists (fun r => r). split; [rewrite map_id; reflexivity | reflexivity].
  - destruct (DataFrame.has_column df col).
    + destruct (IH (DataFrame.map_column col (replace mapping)
                      (fillna_inplace w col 9 df))) as (g & Hg & Hk).
      destruct (fillna_inplace_rows w col 9 df) as (f & Hf & Hfk).
      exists (fun r => g (DataFrame.map_cell col (replace mapping) (f r))).
      split.
      * rewrite Hg. unfold DataFrame.map_column. cbn [DataFrame.rows].
        rewrite Hf, !map_map. reflexivity.
      * intros r c Hc. rewrite Hk by (simpl in Hc; tauto).
        rewrite row_lookup_map_cell by (intro E; apply Hc; left; exact E).
        apply Hfk. intro E. apply Hc. left. symmetry. exact E.
    + destruct (IH df) as (g & Hg & Hk). exists g. split; [exact Hg|].
      intros r c Hc. apply Hk. simpl in Hc. tauto.
Qed.

(** The recoding of [EVOLUCAO] goes row by row and touches no other
    column. *)
Lemma evolution_rows (w : World) (mapping : list (float * DataFrame.cell))
      (df : DataFrame.t) :
  exists out g,
    _process_evolution_column df mapping w = (Ret out, w)
    /\ DataFrame.rows out = map g (DataFrame.rows df)
    /\ forall r c, c <> "EVOLUCAO" ->
                   DataFrame.row_lookup (g r) c = DataFrame.row_lookup r c.
Proof.
  unfold _process_evolution_column.
  destruct (DataFrame.has_column df "EVOLUCAO").
  - destruct (fillna_inplace_rows w "EVOLUCAO" 9 df) as (f & Hf & Hfk).
    eexists.
    exists (fun r => DataFrame.map_cell "EVOLUCAO" (replace mapping)
                       (DataFrame.map_cell "EVOLUCAO"
                          (replace [(3%float, DataFrame.Num 2)]) (f r))).
    split; [reflexivity|]. split.
    + unfold DataFrame.map_column. cbn [DataFrame.rows].
      rewrite Hf, !map_map. reflexivity.
    + intros r c Hc.
      rewrite !row_lookup_map_cell by congruence. apply Hfk. exact Hc.
  - exists df, (fun r => r).
    split; [reflexivity|]. split; [rewrite map_id; reflexivity | reflexivity].
Qed.

(** X30. What the cleaning leaves alone. Every row that comes out of the
    cleaning comes from a row of the input that has a notification date,
    in the same order, and holds what that row held in every column
    other than the date and the four recoded columns [UTI], [VACINA],
    [VACINA_COV] and [EVOLUCAO]. *)
Theorem cleaning_touches_only_its_columns (df : DataFrame.t) (w : World) :
  DataFrame.empty df = false ->
  DataFrame.has_column df "DT_NOTIFIC" = true ->
  exists out g,
    _clean_and_transform_data df w = (Ret out, w)
    /\ DataFrame.rows out
       = map g (filter (fun r => negb (DataFrame.isna
                                         (DataFrame.row_get r "DT_NOTIFIC")))
                       (DataFrame.rows df))
    /\ forall r c,
         ~ In c ["DT_NOTIFIC"; "DATA_NOTIFICACAO"; "UTI"; "VACINA";
                 "VACINA_COV"; "EVOLUCAO"] ->
         DataFrame.row_get (g r) c = DataFrame.row_get r c.
Proof.
  intros Hne Hcol.
  unfold _clean_and_transform_data. rewrite Hne.
  unfold bind at 1, _process_notification_date, bind at 1, of_res,
    DataFrame.dropna.
  rewrite Hcol. unfold bind at 1, Os.to_datetime_coerce, ret at 1.
  unfold bind at 1.
  match goal with
  | |- context [_process_mapped_columns ?d ?c ?m w] =>
      destruct (mapped_columns_rows w c m d) as (mapped & g & Hm & Hg & Hk)
  end.
  rewrite Hm.
  match goal with
  | |- context [_process_evolution_column mapped ?e w] =>
      destruct (evolution_rows w e mapped) as (out & h & Ho & Hh & Hhk)
  end.
  exists out.
  exists (fun r =>
            h (g (map (fun kv => (if String.eqb (fst kv) "DT_NOTIFIC"
                                  then "DATA_NOTIFICACAO" else fst kv, snd kv))
                      (DataFrame.map_cell "DT_NOTIFIC"
                         (fun x => match to_datetime w x with
                                   | Some t => t
                                   | None => DataFrame.NaT
                                   end) r)))).
  split; [exact Ho|]. split.
  - rewrite Hh, Hg.
    unfold DataFrame.rename, DataFrame.map_column, DataFrame.select.
    cbn [DataFrame.rows]. rewrite !map_map. reflexivity.
  - intros r c Hc. unfold DataFrame.row_get.
    rewrite Hhk by (intro E; apply Hc; simpl; auto 10).
    rewrite Hk by (intro E; apply Hc; simpl in *; intuition).
    rewrite row_lookup_rename
      by (intro E; apply Hc; simpl; auto).
    rewrite row_lookup_map_cell by (intro E; apply Hc; simpl; auto).
    reflexivity.
Qed.

End Untouched.

(** ** The metrics tool *)

Section MetricsTool.

Import MetricsCalculatorTool.
Import Counts.

Lemma metrics_load_world (p : pyval) (w : World) :
  snd (_load_and_preprocess_data p w) = w.
Proof.
  unfold _load_and_preprocess_data, try_except, bind, Os.pd_read_csv, of_res,
    Os.to_datetime_column, ret.
  destruct p as [p|]; simpl; [|reflexivity].
  destruct (read_csv w p) as [df|e]; simpl.
  - destruct (DataFrame.getitem df "DATA_NOTIFICACAO"); simpl.
    + destruct (forallb _ _); reflexivity.
    + destruct (_ || _); reflexivity.
  - destruct (_ || _); reflexivity.
Qed.

(** A frame the loader returns has the date column. *)
Lemma metrics_load_has_date (p : pyval) (w : World) (df : DataFrame.t) :
  fst (_load_and_preprocess_data p w) = Ret (Some df) ->
  DataFrame.has_column df "DATA_NOTIFICACAO" = true.
Proof.
  unfold _load_and_preprocess_data, try_except, bind, Os.pd_read_csv, of_res,
    Os.to_datetime_column, ret.
  destruct p as [p|]; simpl; [|discriminate].
  destruct (read_csv w p) as [df0|e]; simpl.
  - unfold DataFrame.getitem.
    destruct (DataFrame.has_column df0 "DATA_NOTIFICACAO") eqn:Hc; simpl.
    + destruct (forallb _ _); simpl; [|discriminate].
      intro H. injection H as <-. exact Hc.
    + discriminate.
  - destruct (_ || _); discriminate.
Qed.

Lemma period_Ret (df : DataFrame.t) (s e : Z) :
  DataFrame.has_column df "DATA_NOTIFICACAO" = true ->
  period df s e = Ret (in_period df s e).
Proof.
  intro H. unfold period, DataFrame.getitem. rewrite H. reflexivity.
Qed.

Lemma period_Raise (df : DataFrame.t) (s e : Z) :
  DataFrame.has_column df "DATA_NOTIFICACAO" = false ->
  period df s e = Raise (KeyError "DATA_NOTIFICACAO").
Proof.
  intro H. unfold period, DataFrame.getitem. rewrite H. reflexivity.
Qed.

Lemma increase_rate_Ret (df : DataFrame.t) (cs ce ps pe : Z) :
  DataFrame.has_column df "DATA_NOTIFICACAO" = true ->
  exists x, _calculate_increase_rate df cs ce ps pe = Ret x.
Proof.
  intro H. unfold _calculate_increase_rate.
  rewrite !(period_Ret df _ _ H). cbn [rbind].
  destruct (_ =? 0) eqn:E; [eauto|].
  unfold PyFloat.truediv. rewrite E. cbn [rbind]. eauto.
Qed.

Lemma increase_rate_Raise (df : DataFrame.t) (cs ce ps pe : Z) :
  DataFrame.has_column df "DATA_NOTIFICACAO" = false ->
  _calculate_increase_rate df cs ce ps pe = Raise (KeyError "DATA_NOTIFICACAO").
Proof.
  intro H. unfold _calculate_increase_rate.
  rewrite (period_Raise df _ _ H). reflexivity.
Qed.

(** The three rates that are a share of the rows with a defined value. *)
Lemma share_outcome (df : DataFrame.t) (s e : Z) (c value : string)
      (values : list string) :
  DataFrame.has_column df "DATA_NOTIFICACAO" = true ->
  let rate :=
    rbind (period df s e) (fun period_df =>
    rbind (defined period_df c values) (fun d =>
    if DataFrame.empty d then Ret PyFloat.zero
    else
      rbind (count_eq d c value) (fun k =>
      rbind (PyFloat.truediv k (DataFrame.shape0 d))
            (fun q => Ret (PyFloat.mul_int q 100))))) in
  if DataFrame.has_column df c then exists x, rate = Ret x
  else rate = Raise (KeyError c).
Proof.
  intros H rate. unfold rate. rewrite (period_Ret df s e H). cbn [rbind].
  unfold defined, count_eq, DataFrame.getitem.
  change (DataFrame.has_column (in_period df s e) c)
    with (DataFrame.has_column df c).
  destruct (DataFrame.has_column df c) eqn:Hc; cbn [rbind]; [|reflexivity].
  match goal with |- context [DataFrame.empty ?d] => set (dd := d) end.
  destruct (DataFrame.empty dd) eqn:He; [eauto|].
  change (DataFrame.has_column dd c) with (DataFrame.has_column df c).
  rewrite Hc. cbn [rbind]. unfold PyFloat.truediv.
  assert (Hn : (DataFrame.shape0 dd =? 0) = false).
  { apply Z.eqb_neq. unfold DataFrame.shape0, DataFrame.empty in *.
    destruct (DataFrame.rows dd); simpl; [|lia].
    destruct (DataFrame.columns dd); discriminate. }
  rewrite Hn. cbn [rbind]. eauto.
Qed.

Lemma group3_Ret (k1 k2 k3 : string) (r1 r2 r3 : res float) :
  (exists x, r1 = Ret x) -> (exists x, r2 = Ret x) -> (exists x, r3 = Ret x) ->
  exists g, group3 k1 k2 k3 r1 r2 r3 = Ret g.
Proof.
  intros [x1 ->] [x2 ->] [x3 ->]. unfold group3. cbn [rbind]. eauto.
Qed.

Lemma group3_Raise (k1 k2 k3 : string) (r2 r3 : res float) (e : exn) :
  group3 k1 k2 k3 (Raise e) r2 r3 = Raise e.
Proof. reflexivity. Qed.

(** What [metrics] returns or raises, by the first column that is
    missing. *)
Lemma metrics_outcome (df : DataFrame.t) (now : Z) (p : periods) :
  match first_missing_column df with
  | None => has_metric_columns df = true /\ exists m, metrics df now p = Ret m
  | Some c => has_metric_columns df = false
              /\ metrics df now p = Raise (KeyError c)
  end.
Proof.
  unfold first_missing_column, has_metric_columns, metric_columns.
  cbn [find forallb].
  destruct (DataFrame.has_column df "DATA_NOTIFICACAO") eqn:HD; cbn [negb andb].
  2: { split; [reflexivity|]. unfold metrics.
       rewrite (increase_rate_Raise df _ _ _ _ HD). reflexivity. }
  unfold metrics.
  destruct (group3_Ret "last_30_days_vs_previous" "last_7_days_vs_previous"
              "current_month_vs_previous" _ _ _
              (increase_rate_Ret df (last_30_days_start p) (last_30_days_end p)
                 (previous_30_days_start p) (previous_30_days_end p) HD)
              (increase_rate_Ret df (last_7_days_start p) (last_7_days_end p)
                 (previous_7_days_start p) (previous_7_days_end p) HD)
              (increase_rate_Ret df (current_month_start p) now
                 (last_month_start p) (last_month_end p) HD)) as [g1 ->].
  cbn [rbind].
  pose proof (fun s e => share_outcome df s e "EVOLUCAO" "OBITO" ["CURA"; "OBITO"] HD)
    as HE.
  pose proof (fun s e => share_outcome df s e "UTI" "SIM" ["SIM"; "NAO"] HD) as HU.
  pose proof (fun s e => share_outcome df s e "VACINA" "SIM" ["SIM"; "NAO"] HD) as HV.
  pose proof (fun s e => share_outcome df s e "VACINA_COV" "SIM" ["SIM"; "NAO"] HD)
    as HC.
  cbv zeta in HE, HU, HV, HC.
  fold (_calculate_mortality_rate df) in HE.
  change (forall s e,
             if DataFrame.has_column df "EVOLUCAO"
             then exists x, _calculate_mortality_rate df s e = Ret x
             else _calculate_mortality_rate df s e = Raise (KeyError "EVOLUCAO"))
    in HE.
  change (forall s e,
             if DataFrame.has_column df "UTI"
             then exists x, _calculate_uti_occupancy_rate df s e = Ret x
             else _calculate_uti_occupancy_rate df s e = Raise (KeyError "UTI"))
    in HU.
  change (forall s e,
             if DataFrame.has_column df "VACINA"
             then exists x, _calculate_vaccination_rate df s e "VACINA" = Ret x
             else _calculate_vaccination_rate df s e "VACINA"
                  = Raise (KeyError "VACINA"))
    in HV.
  change (forall s e,
             if DataFrame.has_column df "VACINA_COV"
             then exists x, _calculate_vaccination_rate df s e "VACINA_COV" = Ret x
             else _calculate_vaccination_rate df s e "VACINA_COV"
                  = Raise (KeyError "VACINA_COV"))
    in HC.
  destruct (DataFrame.has_column df "EVOLUCAO"); cbn [negb andb].
  2: { split; [reflexivity|]. rewrite HE. reflexivity. }
  destruct (group3_Ret "last_30_days" "last_7_days" "current_month" _ _ _
              (HE (last_30_days_start p) (last_30_days_end p))
              (HE (last_7_days_start p) (last_7_days_end p))
              (HE (current_month_start p) now)) as [g2 ->].
  cbn [rbind].
  destruct (DataFrame.has_column df "UTI"); cbn [negb andb].
  2: { split; [reflexivity|]. rewrite HU. reflexivity. }
  destruct (group3_Ret "last_30_days" "last_7_days" "current_month" _ _ _
              (HU (last_30_days_start p) (last_30_days_end p))
              (HU (last_7_days_start p) (last_7_days_end p))
              (HU (current_month_start p) now)) as [g3 ->].
  cbn [rbind].
  destruct (DataFrame.has_column df "VACINA"); cbn [negb andb].
  2: { split; [reflexivity|]. rewrite HV. reflexivity. }
  destruct (group3_Ret "last_30_days" "last_7_days" "current_month" _ _ _
              (HV (last_30_days_start p) (last_30_days_end p))
              (HV (last_7_days_start p) (last_7_days_end p))
              (HV (current_month_start p) now)) as [g4 ->].
  cbn [rbind].
  destruct (DataFrame.has_column df "VACINA_COV"); cbn [negb andb].
  2: { split; [reflexivity|]. rewrite HC. reflexivity. }
  destruct (group3_Ret "last_30_days" "last_7_days" "current_month" _ _ _
              (HC (last_30_days_start p) (last_30_days_end p))
              (HC (last_7_days_start p) (last_7_days_end p))
              (HC (current_month_start p) now)) as [g5 ->].
  cbn [rbind]. split; [reflexivity|]. eauto.
Qed.

(** X10. [metrics] reads five columns, in the order date, [EVOLUCAO],
    [UTI], [VACINA], [VACINA_COV]. It returns the rates exactly on the
    frames that have them all, whatever the rows and the periods are (no
    division by zero and no other error); on any other frame it raises
    [KeyError] for the first column that is missing. *)
Theorem metrics_first_missing_column (df : DataFrame.t) (now : Z) (p : periods) :
  (has_metric_columns df = true <-> exists m, metrics df now p = Ret m)
  /\ (forall c, first_missing_column df = Some c <->
                metrics df now p = Raise (KeyError c))
  /\ (first_missing_column df = None <-> has_metric_columns df = true).
Proof.
  pose proof (metrics_outcome df now p) as H.
  destruct (first_missing_column df) as [c|].
  - destruct H as [Hc Hm]. rewrite Hc, Hm. split; [|split].
    + split; [discriminate|]. intros [m Hr]. discriminate.
    + intro c'. split; intro E.
      * injection E as <-. reflexivity.
      * unfold KeyError in E. injection E as <-. reflexivity.
    + split; discriminate.
  - destruct H as [Hc [m Hm]]. rewrite Hc, Hm. split; [|split].
    + split; eauto.
    + intro c'. split; discriminate.
    + tauto.
Qed.

(** X11. The periods derived from the clock. The 30-day and 7-day windows
    end now; each previous window has the length of its window and ends
    one day before the window starts; last month ends one day before the
    start of the current month. So no notification is counted both in a
    period and in the one before it, and a notification made less than a
    day before a window starts is counted in neither. *)
Theorem periods_do_not_overlap (w : World) (x : DataFrame.cell) (t : Z) :
  let p := periods_of w in
  let day := Os.timedelta_days 1 in
  (last_30_days_end p = now w /\ last_7_days_end p = now w
   /\ last_30_days_end p - last_30_days_start p = 30 * day
   /\ previous_30_days_end p - previous_30_days_start p = 30 * day
   /\ last_7_days_end p - last_7_days_start p = 7 * day
   /\ previous_7_days_end p - previous_7_days_start p = 7 * day
   /\ last_30_days_start p - previous_30_days_end p = day
   /\ last_7_days_start p - previous_7_days_end p = day
   /\ current_month_start p - last_month_end p = day)
  /\ DataFrame.between (last_30_days_start p) (last_30_days_end p) x
     && DataFrame.between (previous_30_days_start p) (previous_30_days_end p) x
     = false
  /\ DataFrame.between (last_7_days_start p) (last_7_days_end p) x
     && DataFrame.between (previous_7_days_start p) (previous_7_days_end p) x
     = false
  /\ DataFrame.between (current_month_start p) (now w) x
     && DataFrame.between (last_month_start p) (last_month_end p) x
     = false
  /\ (previous_30_days_end p < t < last_30_days_start p ->
      DataFrame.between (last_30_days_start p) (last_30_days_end p)
        (DataFrame.Timestamp t)
      || DataFrame.between (previous_30_days_start p) (previous_30_days_end p)
           (DataFrame.Timestamp t)
      = false)
  /\ (previous_7_days_end p < t < last_7_days_start p ->
      DataFrame.between (last_7_days_start p) (last_7_days_end p)
        (DataFrame.Timestamp t)
      || DataFrame.between (previous_7_days_start p) (previous_7_days_end p)
           (DataFrame.Timestamp t)
      = false).
Proof.
  intros p day. unfold p, day, periods_of, Os.timedelta_days.
  cbn [last_30_days_start last_30_days_end previous_30_days_start
       previous_30_days_end last_7_days_start last_7_days_end
       previous_7_days_start previous_7_days_end current_month_start
       last_month_start last_month_end].
  split; [repeat split; lia|].
  split; [|split; [|split; [|split]]].
  - destruct x; try reflexivity. unfold DataFrame.between.
    apply andb_false_iff.
    destruct (Z.leb_spec (now w - 30 * 86400000000) t0).
    + right. apply andb_false_iff. right. apply Z.leb_gt. lia.
    + left. reflexivity.
  - destruct x; try reflexivity. unfold DataFrame.between.
    apply andb_false_iff.
    destruct (Z.leb_spec (now w - 7 * 86400000000) t0).
    + right. apply andb_false_iff. right. apply Z.leb_gt. lia.
    + left. reflexivity.
  - destruct x; try reflexivity. unfold DataFrame.between.
    apply andb_false_iff.
    destruct (Z.leb_spec (month_start w (now w)) t0).
    + right. apply andb_false_iff. right. apply Z.leb_gt. lia.
    + left. reflexivity.
  - intros [H1 H2]. unfold DataFrame.between. apply orb_false_iff. split.
    + apply andb_false_iff. left. apply Z.leb_gt. lia.
    + apply andb_false_iff. right. apply Z.leb_gt. lia.
  - intros [H1 H2]. unfold DataFrame.between. apply orb_false_iff. split.
    + apply andb_false_iff. left. apply Z.leb_gt. lia.
    + apply andb_false_iff. right. apply Z.leb_gt. lia.
Qed.

(** What a save of the metrics tool leaves behind: the file, when it can be
    written, and nothing otherwise; it does not raise. *)
Lemma metrics_save_json (self : t) (data : json) (filename : string) (w : World) :
  can_mkdir w (Config.output_dir (cfg self)) = true ->
  let path := Os.path_join (Config.output_dir (cfg self)) filename in
  exists w',
    _save_json_file self data filename w = (Ret tt, w')
    /\ can_mkdir w' = can_mkdir w
    /\ can_write w' = can_write w
    /\ (forall q, on_disk w' q = (can_write w path && String.eqb path q)
                                 || on_disk w q).
Proof.
  intros Hd path.
  unfold _save_json_file, bind, Os.makedirs, try_except, Os.write_file, ret.
  rewrite Hd. fold path.
  destruct (can_write w path) eqn:Hw.
  - eexists. split; [reflexivity|]. split; [reflexivity|].
    split; [reflexivity|]. intro q. apply on_disk_set_disk.
  - cbn. exists w. split; [reflexivity|]. split; [reflexivity|].
    split; [reflexivity|]. reflexivity.
Qed.

Lemma written_when_writable (cw : string -> bool) (a b c q : string) (d : bool) :
  In q [a; b; c] ->
  (cw c && String.eqb c q) || ((cw b && String.eqb b q)
                               || ((cw a && String.eqb a q) || d))
  = cw q || d.
Proof.
  intros Hq.
  destruct (String.eqb_spec a q) as [->|Ha];
    destruct (String.eqb_spec b q) as [->|Hb];
    destruct (String.eqb_spec c q) as [->|Hc];
    rewrite ?andb_true_r, ?andb_false_r, ?orb_false_r; cbn [orb];
    try (destruct (cw q), d; reflexivity).
  simpl in Hq. destruct Hq as [H|[H|[H|[]]]]; congruence.
Qed.

(** X12. Once the processed file is loaded and has the columns of the
    metrics, and the output folder can be made, the metrics tool returns
    the paths of [periods.json] and [metrics.json] whether or not those
    files could be written: a failed write is logged and nothing more.
    Afterwards each of the three files of the tool is on disk exactly when
    it could be written or was there before. *)
Theorem metrics_paths_whatever_was_written (self : t) (w : World)
        (df : DataFrame.t) :
  let out := Config.output_dir (cfg self) in
  fst (_load_and_preprocess_data (processed_data_file_path self) w)
  = Ret (Some df) ->
  has_metric_columns df = true ->
  can_mkdir w out = true ->
  exists w',
    run_metrics_calculation self w
    = (Ret (Some [("periods_file_path", Some (Os.path_join out "periods.json"));
                  ("metrics_file_path", Some (Os.path_join out "metrics.json"))]),
       w')
    /\ forall f, In f ["metadata.json"; "periods.json"; "metrics.json"] ->
         on_disk w' (Os.path_join out f)
         = can_write w (Os.path_join out f) || on_disk w (Os.path_join out f).
Proof.
  intros out Hload Hcols Hdir.
  assert (Hload' : _load_and_preprocess_data (processed_data_file_path self) w
                   = (Ret (Some df), w)).
  { pose proof (metrics_load_world (processed_data_file_path self) w) as Hw.
    destruct (_load_and_preprocess_data _ w) as [r w0]. simpl in *. congruence. }
  pose proof (metrics_outcome df (now w) (periods_of w)) as Hm.
  destruct (first_missing_column df) as [c|]; [destruct Hm; congruence|].
  destruct Hm as [_ [m Hm]].
  unfold run_metrics_calculation, bind at 1. rewrite Hload'.
  unfold bind at 1, Os.ask. unfold bind at 1, of_res. rewrite Hm.
  destruct (metrics_save_json self
              (JObj [("update_date", JStr (strftime w "%Y-%m-%d %H:%M:%S" (now w)));
                     ("data_source",
                      match processed_data_file_path self with
                      | Some path => JStr path
                      | None => JNull
                      end)]) "metadata.json" w Hdir)
    as (w1 & E1 & D1 & W1 & O1).
  unfold bind at 1. rewrite E1.
  destruct (metrics_save_json self (periods_analyzed w (periods_of w))
              "periods.json" w1) as (w2 & E2 & D2 & W2 & O2);
    [rewrite D1; exact Hdir|].
  unfold bind at 1. rewrite E2.
  destruct (metrics_save_json self (metrics_json m) "metrics.json" w2)
    as (w3 & E3 & D3 & W3 & O3); [rewrite D2, D1; exact Hdir|].
  unfold bind at 1. rewrite E3.
  exists w3. split; [reflexivity|].
  intros f Hf. rewrite O3, O2, O1, W2, W1.
  apply written_when_writable.
  simpl in Hf. simpl. fold out.
  destruct Hf as [<-|[<-|[<-|[]]]]; auto.
Qed.

(** X13. What the metrics tool does not catch. A processed file that lacks
    a column of the metrics makes the tool raise [KeyError] for the first
    such column; an output folder that cannot be made makes it raise
    [OSError]. Either way the agent raises the same exception, and no
    file is written. *)
Theorem metrics_errors_are_raised (agent : MetricsCalculatorAgent.t) (w : World)
        (df : DataFrame.t) :
  let self := MetricsCalculatorAgent.metrics_tool agent in
  let out := Config.output_dir (cfg self) in
  fst (_load_and_preprocess_data (processed_data_file_path self) w)
  = Ret (Some df) ->
  (forall c, first_missing_column df = Some c ->
     run_metrics_calculation self w = (Raise (KeyError c), w)
     /\ MetricsCalculatorAgent.run agent w = (Raise (KeyError c), w))
  /\ (first_missing_column df = None ->
      can_mkdir w out = false ->
      run_metrics_calculation self w = (Raise (OSError out), w)
      /\ MetricsCalculatorAgent.run agent w = (Raise (OSError out), w)).
Proof.
  intros self out Hload.
  assert (Hload' : _load_and_preprocess_data (processed_data_file_path self) w
                   = (Ret (Some df), w)).
  { pose proof (metrics_load_world (processed_data_file_path self) w) as Hw.
    destruct (_load_and_preprocess_data _ w) as [r w0]. simpl in *. congruence. }
  pose proof (metrics_outcome df (now w) (periods_of w)) as Hm.
  split.
  - intros c Hc. rewrite Hc in Hm. destruct Hm as [_ Hm].
    assert (Hrun : run_metrics_calculation self w = (Raise (KeyError c), w)).
    { unfold run_metrics_calculation, bind at 1. rewrite Hload'.
      unfold bind at 1, Os.ask. unfold bind at 1, of_res. rewrite Hm.
      reflexivity. }
    split; [exact Hrun|].
    unfold MetricsCalculatorAgent.run, bind. fold self. rewrite Hrun.
    reflexivity.
  - intros Hc Hdir. rewrite Hc in Hm. destruct Hm as [_ [m Hm]].
    assert (Hrun : run_metrics_calculation self w = (Raise (OSError out), w)).
    { unfold run_metrics_calculation, bind at 1. rewrite Hload'.
      unfold bind at 1, Os.ask. unfold bind at 1, of_res. rewrite Hm.
      unfold bind at 1, _save_json_file, bind at 1, Os.makedirs.
      fold out. rewrite Hdir. reflexivity. }
    split; [exact Hrun|].
    unfold MetricsCalculatorAgent.run, bind. fold self. rewrite Hrun.
    reflexivity.
Qed.

End MetricsTool.

From Stdlib Require Import Permutation.

(** ** The metrics and the order of the rows *)

Section RowOrder.

Import MetricsCalculatorTool.

Lemma Permutation_filter {A : Type} (f : A -> bool) (l l' : list A) :
  Permutation l l' -> Permutation (filter f l) (filter f l').
Proof.
  induction 1 as [|x l1 l2 H IH|x y l1|l1 l2 l3 H1 IH1 H2 IH2]; simpl.
  - constructor.
  - destruct (f x); [constructor|]; exact IH.
  - destruct (f x), (f y); try reflexivity. constructor.
  - etransitivity; eassumption.
Qed.

Variables df df' : DataFrame.t.
Hypothesis Hcols : DataFrame.columns df = DataFrame.columns df'.
Hypothesis Hrows : Permutation (DataFrame.rows df) (DataFrame.rows df').

Lemma select_shape0_perm (m : DataFrame.row -> bool) :
  DataFrame.shape0 (DataFrame.select m df)
  = DataFrame.shape0 (DataFrame.select m df').
Proof.
  unfold DataFrame.shape0, DataFrame.select. simpl. f_equal.
  apply Permutation_length, Permutation_filter, Hrows.
Qed.

Lemma has_column_perm (c : string) :
  DataFrame.has_column df c = DataFrame.has_column df' c.
Proof. unfold DataFrame.has_column. rewrite Hcols. reflexivity. Qed.

Lemma period_shape0_perm (s e : Z) :
  rbind (period df s e) (fun d => Ret (DataFrame.shape0 d))
  = rbind (period df' s e) (fun d => Ret (DataFrame.shape0 d)).
Proof.
  unfold period, DataFrame.getitem. rewrite has_column_perm.
  destruct (DataFrame.has_column df' "DATA_NOTIFICACAO"); [|reflexivity].
  cbn [rbind]. f_equal. apply select_shape0_perm.
Qed.

Lemma increase_rate_perm (cs ce ps pe : Z) :
  _calculate_increase_rate df cs ce ps pe
  = _calculate_increase_rate df' cs ce ps pe.
Proof.
  pose proof (period_shape0_perm cs ce) as Hc.
  pose proof (period_shape0_perm ps pe) as Hp.
  unfold _calculate_increase_rate.
  destruct (period df cs ce) as [c|x], (period df' cs ce) as [c'|x'];
    cbn [rbind] in *; try discriminate; [|congruence].
  injection Hc as Hc.
  destruct (period df ps pe) as [q|x], (period df' ps pe) as [q'|x'];
    cbn [rbind] in *; try discriminate; [|congruence].
  injection Hp as Hp. rewrite Hc, Hp. reflexivity.
Qed.

Lemma share_perm (s e : Z) (c value : string) (values : list string) :
  rbind (period df s e) (fun period_df =>
  rbind (defined period_df c values) (fun d =>
  if DataFrame.empty d then Ret PyFloat.zero
  else
    rbind (count_eq d c value) (fun k =>
    rbind (PyFloat.truediv k (DataFrame.shape0 d))
          (fun q => Ret (PyFloat.mul_int q 100)))))
  = rbind (period df' s e) (fun period_df =>
    rbind (defined period_df c values) (fun d =>
    if DataFrame.empty d then Ret PyFloat.zero
    else
      rbind (count_eq d c value) (fun k =>
      rbind (PyFloat.truediv k (DataFrame.shape0 d))
            (fun q => Ret (PyFloat.mul_int q 100))))).
Proof.
  unfold period, defined, count_eq, DataFrame.getitem.
  rewrite has_column_perm.
  destruct (DataFrame.has_column df' "DATA_NOTIFICACAO"); [|reflexivity].
  cbn [rbind].
  change (DataFrame.has_column (DataFrame.select ?m df) c)
    with (DataFrame.has_column df c).
  change (DataFrame.has_column (DataFrame.select ?m df') c)
    with (DataFrame.has_column df' c).
  rewrite (has_column_perm c).
  destruct (DataFrame.has_column df' c) eqn:Hc; [|reflexivity].
  cbn [rbind].
  set (m1 := fun r : DataFrame.row =>
               DataFrame.between s e (DataFrame.row_get r "DATA_NOTIFICACAO")).
  set (m2 := fun r : DataFrame.row =>
               DataFrame.isin values (DataFrame.row_get r c)).
  set (m3 := fun r : DataFrame.row =>
               DataFrame.eq_str value (DataFrame.row_get r c)).
  assert (Hp2 : Permutation (filter m2 (filter m1 (DataFrame.rows df)))
                            (filter m2 (filter m1 (DataFrame.rows df'))))
    by (do 2 apply Permutation_filter; exact Hrows).
  assert (He : DataFrame.empty (DataFrame.select m2 (DataFrame.select m1 df))
               = DataFrame.empty (DataFrame.select m2 (DataFrame.select m1 df'))).
  { unfold DataFrame.empty, DataFrame.select. cbn [DataFrame.columns DataFrame.rows].
    rewrite Hcols. destruct (DataFrame.columns df'); [reflexivity|].
    destruct (filter m2 (filter m1 (DataFrame.rows df))) as [|a0 t0] eqn:E1.
    - apply Permutation_nil in Hp2. rewrite Hp2. reflexivity.
    - destruct (filter m2 (filter m1 (DataFrame.rows df'))) as [|a1 t1] eqn:E2;
        [|reflexivity].
      apply Permutation_sym, Permutation_nil in Hp2. discriminate. }
  rewrite He.
  destruct (DataFrame.empty (DataFrame.select m2 (DataFrame.select m1 df')));
    [reflexivity|].
  change (DataFrame.has_column (DataFrame.select m2 (DataFrame.select m1 df)) c)
    with (DataFrame.has_column df c).
  change (DataFrame.has_column (DataFrame.select m2 (DataFrame.select m1 df')) c)
    with (DataFrame.has_column df' c).
  rewrite (has_column_perm c), Hc. cbn [rbind].
  assert (H3 : DataFrame.shape0
                 (DataFrame.select m3 (DataFrame.select m2 (DataFrame.select m1 df)))
               = DataFrame.shape0
                   (DataFrame.select m3
                      (DataFrame.select m2 (DataFrame.select m1 df')))).
  { unfold DataFrame.shape0, DataFrame.select. cbn [DataFrame.rows]. f_equal.
    apply Permutation_length, Permutation_filter, Hp2. }
  assert (H2 : DataFrame.shape0 (DataFrame.select m2 (DataFrame.select m1 df))
               = DataFrame.shape0 (DataFrame.select m2 (DataFrame.select m1 df'))).
  { unfold DataFrame.shape0, DataFrame.select. cbn [DataFrame.rows]. f_equal.
    apply Permutation_length, Hp2. }
  cbv beta. fold m3. rewrite H3, H2. reflexivity.
Qed.

(** X28. The metrics do not depend on the order of the rows: two frames
    with the same columns whose rows are the same up to their order give
    the same rates, and the same error when a column is missing. *)
Theorem metrics_ignore_row_order (now : Z) (p : periods) :
  metrics df now p = metrics df' now p
  /\ (forall cs ce ps pe,
        _calculate_increase_rate df cs ce ps pe
        = _calculate_increase_rate df' cs ce ps pe)
  /\ (forall s e, _calculate_mortality_rate df s e
                  = _calculate_mortality_rate df' s e)
  /\ (forall s e, _calculate_uti_occupancy_rate df s e
                  = _calculate_uti_occupancy_rate df' s e)
  /\ (forall s e c, _calculate_vaccination_rate df s e c
                    = _calculate_vaccination_rate df' s e c).
Proof.
  assert (Hm : forall s e, _calculate_mortality_rate df s e
                           = _calculate_mortality_rate df' s e)
    by (intros s e; exact (share_perm s e "EVOLUCAO" "OBITO" ["CURA"; "OBITO"])).
  assert (Hu : forall s e, _calculate_uti_occupancy_rate df s e
                           = _calculate_uti_occupancy_rate df' s e)
    by (intros s e; exact (share_perm s e "UTI" "SIM" ["SIM"; "NAO"])).
  assert (Hv : forall s e c, _calculate_vaccination_rate df s e c
                             = _calculate_vaccination_rate df' s e c)
    by (intros s e c; exact (share_perm s e c "SIM" ["SIM"; "NAO"])).
  split; [|split; [exact increase_rate_perm|auto]].
  unfold metrics. rewrite !increase_rate_perm, !Hm, !Hu, !Hv. reflexivity.
Qed.

End RowOrder.

(** ** The visualizations tool *)

Section VisualizationsFacts.

Import VisualizationsTool.

Lemma visualizations_load_world (p : pyval) (w : World) :
  snd (_load_and_preprocess_data p w) = w.
Proof. exact (metrics_load_world p w). Qed.

Lemma visualizations_save_json (self : t) (data : json) (filename : string)
      (w : World) :
  can_mkdir w (Config.output_dir (cfg self)) = true ->
  let path := Os.path_join (Config.output_dir (cfg self)) filename in
  exists w',
    _save_json_file self data filename w = (Ret tt, w')
    /\ can_mkdir w' = can_mkdir w
    /\ can_write w' = can_write w
    /\ read_csv w' = read_csv w
    /\ to_datetime w' = to_datetime w
    /\ (forall q, on_disk w' q = (can_write w path && String.eqb path q)
                                 || on_disk w q).
Proof.
  intros Hd path.
  unfold _save_json_file, bind, Os.makedirs, try_except, Os.write_file, ret.
  rewrite Hd. fold path.
  destruct (can_write w path) eqn:Hw.
  - eexists. split; [reflexivity|]. split; [reflexivity|].
    split; [reflexivity|]. split; [reflexivity|]. split; [reflexivity|].
    intro q. apply on_disk_set_disk.
  - cbn. exists w. repeat (split; [reflexivity|]). reflexivity.
Qed.

(** The loader reads the world only through [read_csv] and [to_datetime]. *)
Lemma visualizations_load_ext (p : pyval) (w w1 : World) :
  read_csv w1 = read_csv w ->
  to_datetime w1 = to_datetime w ->
  fst (_load_and_preprocess_data p w1) = fst (_load_and_preprocess_data p w).
Proof.
  intros Hr Ht.
  unfold _load_and_preprocess_data, try_except, bind, Os.pd_read_csv, of_res,
    Os.to_datetime_column, ret.
  destruct p as [p|]; simpl; [|reflexivity].
  rewrite Hr. destruct (read_csv w p) as [df|e]; simpl.
  - destruct (DataFrame.getitem df "DATA_NOTIFICACAO"); simpl.
    + rewrite Ht. destruct (forallb _ _); reflexivity.
    + destruct (_ || _); reflexivity.
  - destruct (_ || _); reflexivity.
Qed.

(** X14. The visualizations tool, once the output folder can be made and
    the processed file loads. A JSON file that cannot be written is logged
    and skipped, but a plot that cannot be saved is an [OSError] nobody
    catches: the tool and the agent raise it. When both plots can be
    saved the tool returns the four paths and both plots are on disk,
    whether or not any JSON file was written. *)
Theorem visualization_plots_must_be_saved (agent : VisualizationsAgent.t)
        (w : World) (df : DataFrame.t) :
  let self := VisualizationsAgent.tool agent in
  let out := Config.output_dir (cfg self) in
  let days_png := Os.path_join out "last_30_days.png" in
  let months_png := Os.path_join out "last_12_months.png" in
  can_mkdir w out = true ->
  fst (_load_and_preprocess_data (processed_data_file_path self) w)
  = Ret (Some df) ->
  (can_write w days_png = false ->
   exists w', run_visualization_process self w = (Raise (OSError days_png), w')
              /\ VisualizationsAgent.run agent w = (Raise (OSError days_png), w'))
  /\ (can_write w days_png = true -> can_write w months_png = false ->
      exists w', run_visualization_process self w
                 = (Raise (OSError months_png), w')
                 /\ VisualizationsAgent.run agent w
                    = (Raise (OSError months_png), w')
                 /\ on_disk w' days_png = true)
  /\ (can_write w days_png = true -> can_write w months_png = true ->
      exists w',
        run_visualization_process self w
        = (Ret (Some
             [("last_30_days_json_file_path",
               Some (Os.path_join out "last_30_days.json"));
              ("last_30_days_plot_file_path", Some days_png);
              ("last_12_months_json_file_path",
               Some (Os.path_join out "last_12_months.json"));
              ("last_12_months_plot_file_path", Some months_png)]), w')
        /\ on_disk w' days_png = true
        /\ on_disk w' months_png = true).
Proof.
  intros self out days_png months_png Hdir Hload.
  (* the metadata file *)
  destruct (visualizations_save_json self
              (JObj [("update_date",
                      JStr (strftime w "%Y-%m-%d %H:%M:%S" (now w)))])
              "metadata.json" w Hdir)
    as (w1 & E1 & D1 & W1 & R1 & T1 & O1).
  (* the load *)
  assert (Hload1 : _load_and_preprocess_data (processed_data_file_path self) w1
                   = (Ret (Some df), w1)).
  { pose proof (visualizations_load_world (processed_data_file_path self) w1) as Hw.
    pose proof (visualizations_load_ext (processed_data_file_path self) w w1 R1 T1)
      as Hx.
    destruct (_load_and_preprocess_data _ w1) as [r w0]. simpl in *.
    congruence. }
  (* the JSON of the 30 days *)
  destruct (visualizations_save_json self (daily_counts w1 df)
              "last_30_days.json" w1) as (w2 & E2 & D2 & W2 & R2 & T2 & O2);
    [rewrite D1; exact Hdir|].
  assert (Hrun : run_visualization_process self w
                 = bind (Os.write_file days_png
                           (FPlot "Número Diário de Casos nos Últimos 30 Dias"))
                        (fun _ =>
                           bind (_generate_last_12_months_analysis self df)
                             (fun _ => ret (Some
             [("last_30_days_json_file_path",
               Some (Os.path_join out "last_30_days.json"));
              ("last_30_days_plot_file_path", Some days_png);
              ("last_12_months_json_file_path",
               Some (Os.path_join out "last_12_months.json"));
              ("last_12_months_plot_file_path", Some months_png)]))) w2).
  { unfold run_visualization_process. fold out.
    unfold bind at 1, Os.makedirs. rewrite Hdir.
    unfold bind at 1, Os.ask. unfold bind at 1. rewrite E1.
    unfold bind at 1. rewrite Hload1.
    unfold bind at 1, _generate_last_30_days_analysis.
    unfold bind at 1, Os.ask. unfold bind at 1. rewrite E2.
    reflexivity. }
  assert (Hagent : forall r w',
             run_visualization_process self w = (Raise r, w') ->
             VisualizationsAgent.run agent w = (Raise r, w')).
  { intros r w' H. unfold VisualizationsAgent.run, bind. fold self.
    rewrite H. reflexivity. }
  split; [|split].
  - intro Hw. exists w2.
    assert (H : run_visualization_process self w = (Raise (OSError days_png), w2)).
    { rewrite Hrun. unfold bind, Os.write_file. rewrite W2, W1, Hw. reflexivity. }
    split; [exact H | exact (Hagent _ _ H)].
  - intros Hw1 Hw2.
    set (w3 := set_disk ((days_png,
                          FPlot "Número Diário de Casos nos Últimos 30 Dias")
                           :: disk w2) w2).
    destruct (visualizations_save_json self (monthly_counts w3 df)
                "last_12_months.json" w3) as (w4 & E4 & D4 & W4 & R4 & T4 & O4);
      [unfold w3; cbn [can_mkdir set_disk]; rewrite D2, D1; exact Hdir|].
    exists w4.
    assert (H : run_visualization_process self w
                = (Raise (OSError months_png), w4)).
    { rewrite Hrun. unfold bind at 1, Os.write_file at 1.
      rewrite W2, W1, Hw1. fold w3.
      unfold bind at 1, _generate_last_12_months_analysis.
      unfold bind at 1, Os.ask. unfold bind at 1. rewrite E4.
      unfold Os.write_file. fold out months_png.
      rewrite W4. unfold w3 at 1. cbn [can_write set_disk].
      rewrite W2, W1, Hw2. reflexivity. }
    split; [exact H|]. split; [exact (Hagent _ _ H)|].
    rewrite O4. unfold w3. rewrite on_disk_set_disk, String.eqb_refl.
    apply orb_true_r.
  - intros Hw1 Hw2.
    set (w3 := set_disk ((days_png,
                          FPlot "Número Diário de Casos nos Últimos 30 Dias")
                           :: disk w2) w2).
    destruct (visualizations_save_json self (monthly_counts w3 df)
                "last_12_months.json" w3) as (w4 & E4 & D4 & W4 & R4 & T4 & O4);
      [unfold w3; cbn [can_mkdir set_disk]; rewrite D2, D1; exact Hdir|].
    eexists. split; [|split].
    + rewrite Hrun. unfold bind at 1, Os.write_file at 1.
      rewrite W2, W1, Hw1. fold w3.
      unfold bind at 1, _generate_last_12_months_analysis.
      unfold bind at 1, Os.ask. unfold bind at 1. rewrite E4.
      unfold Os.write_file. fold out months_png.
      rewrite W4. unfold w3 at 1. cbn [can_write set_disk].
      rewrite W2, W1, Hw2. reflexivity.
    + rewrite on_disk_set_disk, O4. unfold w3.
      rewrite on_disk_set_disk, String.eqb_refl.
      rewrite !orb_true_r. reflexivity.
    + rewrite on_disk_set_disk, String.eqb_refl. reflexivity.
Qed.

End VisualizationsFacts.

(** ** The constructors of the tools and agents *)

Section Construction.

Import StateGraph.
Import FinancialReportWorkflow.

Lemma require_env_set (w : World) (name : string) :
  env_set w name = true -> require_env name w = (Ret tt, w).
Proof.
  unfold env_set, require_env. destruct (getenv w name) as [v|]; [|discriminate].
  intros ->. reflexivity.
Qed.

Lemma require_env_unset (w : World) (name : string) :
  env_set w name = false ->
  require_env name w = (Raise (missing_key_error name), w).
Proof.
  unfold env_set, require_env, missing_key_error.
  destruct (getenv w name) as [v|]; [|reflexivity].
  intros ->. reflexivity.
Qed.

(** When the agent of the first stage raises, the run raises the same
    exception, having entered that node only. *)
Lemma run_first_stage_raises (W : Type) (agents : Agents W) (w w' : W) (e : exn) :
  stage_call W agents "data_downloader" [] w = (Raise e, w') ->
  run W agents w = (Raise e, w')
  /\ trace W (run_observed W agents w)
     = [Enter "data_downloader"; Abort "data_downloader" e].
Proof.
  intro Hc.
  pose proof (node_agent_raises W agents "data_downloader"
                (_node_data_downloader W agents) [] w w' e eq_refl Hc) as Hb.
  rewrite run_as_observed, run_observed_chain.
  unfold stages. cbn [run_chain].
  change (read_channels AgentState []) with (@nil (string * pyval)).
  assert (Hn : as_node W (_node_data_downloader W agents) [] w = (Raise e, w'))
    by (apply as_node_Raise with (st' := []); exact Hb).
  rewrite Hn. split; reflexivity.
Qed.

Ltac no_config Hc :=
  unfold try_except, bind, Os.load_config, of_res, construction_error;
  rewrite Hc;
  match goal with
  | |- context [Os.is_config_error ?e] =>
      destruct (Os.is_config_error e); cbn;
      [reflexivity | destruct (Os.is_ValueError e); reflexivity]
  end.

(** X15. Without a configuration file no stage does any work. When
    [load_config] raises, the constructor of every stage raises, before
    the stage has read or written anything: a [ValueError] that carries
    the message of the tool when the file is missing, the exception of
    [load_config] itself otherwise. The two stages that need an API key
    test it first and raise the [ValueError] of the missing key. *)
Theorem no_stage_without_configuration (w : World) (e : exn) (st : pydict) :
  config_file w = Raise e ->
  let call := fun n => stage_call World repository_agents n st w in
  call "data_downloader" = (Raise (construction_error config_error_message e), w)
  /\ call "data_preprocessor"
     = (Raise (construction_error config_error_message e), w)
  /\ call "metrics_calculator"
     = (Raise (construction_error
                 MetricsCalculatorTool.metrics_config_error_message e), w)
  /\ call "visualizations"
     = (Raise (construction_error
                 VisualizationsTool.visualizations_config_error_message e), w)
  /\ call "news_collector"
     = (Raise (if env_set w "SERPER_API_KEY"
               then construction_error config_error_message e
               else missing_key_error "SERPER_API_KEY"), w)
  /\ call "report_generator"
     = (Raise (if env_set w "OPENAI_API_KEY"
               then construction_error config_error_message e
               else missing_key_error "OPENAI_API_KEY"), w)
  /\ call "final_report_generator"
     = (Raise (construction_error config_error_message e), w)
  /\ run World repository_agents w
     = (Raise (construction_error config_error_message e), w)
  /\ trace World (run_observed World repository_agents w)
     = [Enter "data_downloader";
        Abort "data_downloader" (construction_error config_error_message e)].
Proof.
  intros Hc call. unfold call.
  assert (Hfirst : stage_call World repository_agents "data_downloader" [] w
                   = (Raise (construction_error config_error_message e), w)).
  { change (stage_call World repository_agents "data_downloader" [])
      with (DataDownloaderAgent repository_agents).
    unfold repository_agents, DataDownloaderAgent, bind at 1,
      DataDownloaderAgent.__init__, DataDownloaderTool.__init__.
    no_config Hc. }
  split; [|split; [|split; [|split; [|split; [|split; [|split]]]]]];
    [| | | | | | | exact (run_first_stage_raises World repository_agents w w _ Hfirst)].
  - change (stage_call World repository_agents "data_downloader" st)
      with (DataDownloaderAgent repository_agents).
    unfold repository_agents, DataDownloaderAgent, bind at 1,
      DataDownloaderAgent.__init__, DataDownloaderTool.__init__.
    no_config Hc.
  - change (stage_call World repository_agents "data_preprocessor" st)
      with (DataPreprocessorAgent repository_agents
              (dict_get st "downloaded_file_path")).
    unfold repository_agents, DataPreprocessorAgent, bind at 1,
      DataPreprocessorAgent.__init__, DataPreprocessorTool.__init__.
    no_config Hc.
  - change (stage_call World repository_agents "metrics_calculator" st)
      with (MetricsCalculatorAgent repository_agents
              (dict_get st "processed_data_file_path")).
    unfold repository_agents, MetricsCalculatorAgent, bind at 1,
      MetricsCalculatorAgent.__init__, MetricsCalculatorTool.__init__.
    no_config Hc.
  - change (stage_call World repository_agents "visualizations" st)
      with (VisualizationsAgent repository_agents
              (dict_get st "processed_data_file_path")).
    unfold repository_agents, VisualizationsAgent, bind at 1,
      VisualizationsAgent.__init__, VisualizationsTool.__init__.
    no_config Hc.
  - change (stage_call World repository_agents "news_collector" st)
      with (NewsCollectorAgent repository_agents).
    unfold repository_agents, NewsCollectorAgent, bind at 1,
      NewsCollectorAgent.__init__, NewsCollectorTool.__init__.
    unfold try_except at 1, bind at 1.
    destruct (env_set w "SERPER_API_KEY") eqn:He.
    + rewrite (require_env_set w _ He). no_config Hc.
    + rewrite (require_env_unset w _ He). reflexivity.
  - change (stage_call World repository_agents "report_generator" st)
      with (ReportGeneratorAgent repository_agents
              (dict_get st "metrics_file_path")
              (dict_get st "last_30_days_json_file_path")
              (dict_get st "last_12_months_json_file_path")
              (dict_get st "news_file_path")).
    unfold repository_agents, ReportGeneratorAgent, bind at 1,
      ReportGeneratorAgent.__init__, ReportGeneratorTool.__init__.
    unfold try_except at 1, bind at 1.
    destruct (env_set w "OPENAI_API_KEY") eqn:He.
    + rewrite (require_env_set w _ He). no_config Hc.
    + rewrite (require_env_unset w _ He). reflexivity.
  - change (stage_call World repository_agents "final_report_generator" st)
      with (FinalReportGeneratorAgent repository_agents
              (dict_get st "metadata_file_path")
              (dict_get st "periods_file_path")
              (dict_get st "metrics_file_path")
              (dict_get st "report_file_path")
              (dict_get st "last_30_days_plot_file_path")
              (dict_get st "last_12_months_plot_file_path")).
    unfold repository_agents, FinalReportGeneratorAgent, bind at 1,
      FinalReportGeneratorAgent.__init__, FinalReportGeneratorTool.__init__.
    no_config Hc.
Qed.

Ltac stage_of n st :=
  lazymatch n with
  | "data_downloader" =>
      change (stage_call World repository_agents n st)
        with (DataDownloaderAgent repository_agents);
      unfold repository_agents, DataDownloaderAgent, bind at 1,
        DataDownloaderAgent.__init__, DataDownloaderTool.__init__
  | "data_preprocessor" =>
      change (stage_call World repository_agents n st)
        with (DataPreprocessorAgent repository_agents
                (dict_get st "downloaded_file_path"));
      unfold repository_agents, DataPreprocessorAgent, bind at 1,
        DataPreprocessorAgent.__init__, DataPreprocessorTool.__init__
  | "metrics_calculator" =>
      change (stage_call World repository_agents n st)
        with (MetricsCalculatorAgent repository_agents
                (dict_get st "processed_data_file_path"));
      unfold repository_agents, MetricsCalculatorAgent, bind at 1,
        MetricsCalculatorAgent.__init__, MetricsCalculatorTool.__init__
  | "visualizations" =>
      change (stage_call World repository_agents n st)
        with (VisualizationsAgent repository_agents
                (dict_get st "processed_data_file_path"));
      unfold repository_agents, VisualizationsAgent, bind at 1,
        VisualizationsAgent.__init__, VisualizationsTool.__init__
  | "news_collector" =>
      change (stage_call World repository_agents n st)
        with (NewsCollectorAgent repository_agents);
      unfold repository_agents, NewsCollectorAgent, bind at 1,
        NewsCollectorAgent.__init__, NewsCollectorTool.__init__;
      unfold try_except at 1, bind at 1
  | "report_generator" =>
      change (stage_call World repository_agents n st)
        with (ReportGeneratorAgent repository_agents
                (dict_get st "metrics_file_path")
                (dict_get st "last_30_days_json_file_path")
                (dict_get st "last_12_months_json_file_path")
                (dict_get st "news_file_path"));
      unfold repository_agents, ReportGeneratorAgent, bind at 1,
        ReportGeneratorAgent.__init__, ReportGeneratorTool.__init__;
      unfold try_except at 1, bind at 1
  | "final_report_generator" =>
      change (stage_call World repository_agents n st)
        with (FinalReportGeneratorAgent repository_agents
                (dict_get st "metadata_file_path")
                (dict_get st "periods_file_path")
                (dict_get st "metrics_file_path")
                (dict_get st "report_file_path")
                (dict_get st "last_30_days_plot_file_path")
                (dict_get st "last_12_months_plot_file_path"));
      unfold repository_agents, FinalReportGeneratorAgent, bind at 1,
        FinalReportGeneratorAgent.__init__, FinalReportGeneratorTool.__init__
  end.

Ltac read_config Hc :=
  unfold try_except, bind, Os.load_config, of_res, Config.section;
  rewrite Hc.

(** X16. What the configuration file holds decides how a stage fails at
    its construction, before it has read or written anything. When the
    file holds a mapping that lacks the section of a stage, the stage
    raises the [ValueError] of its tool; the download stage needs two
    sections, and without either of them the run raises at its first
    node. When the file holds no mapping (an empty file is loaded as
    [None]; a list, a scalar), [config["..."]] raises a [TypeError], which
    the constructors do not turn into a [ValueError]: every stage raises
    that [TypeError], and so does the run. The two stages that need an
    API key raise the [ValueError] of the key when it is not set or
    empty, whatever the file holds. *)
Theorem stage_needs_its_section (w : World) (config : Config.doc) (st : pydict) :
  config_file w = Ret config ->
  let call := fun n => stage_call World repository_agents n st w in
  (forall c,
     config = Config.Mapping c ->
     (Config.get_downloader_config c = None \/ Config.get_file_output c = None ->
      call "data_downloader" = (Raise (ValueError config_error_message), w)
      /\ run World repository_agents w
         = (Raise (ValueError config_error_message), w))
     /\ (Config.get_preprocessing c = None ->
         call "data_preprocessor" = (Raise (ValueError config_error_message), w))
     /\ (Config.get_metrics_calculator c = None ->
         call "metrics_calculator"
         = (Raise (ValueError MetricsCalculatorTool.metrics_config_error_message),
            w))
     /\ (Config.get_visualizations_tool c = None ->
         call "visualizations"
         = (Raise (ValueError
                     VisualizationsTool.visualizations_config_error_message), w))
     /\ (env_set w "SERPER_API_KEY" = true -> Config.get_news_config c = None ->
         call "news_collector" = (Raise (ValueError config_error_message), w))
     /\ (env_set w "OPENAI_API_KEY" = true ->
         Config.get_report_generator_config c = None ->
         call "report_generator" = (Raise (ValueError config_error_message), w))
     /\ (Config.get_final_report_config c = None ->
         call "final_report_generator"
         = (Raise (ValueError config_error_message), w)))
  /\ (forall message,
        config = Config.NotMapping message ->
        let e := Exn "TypeError" message in
        call "data_downloader" = (Raise e, w)
        /\ call "data_preprocessor" = (Raise e, w)
        /\ call "metrics_calculator" = (Raise e, w)
        /\ call "visualizations" = (Raise e, w)
        /\ (env_set w "SERPER_API_KEY" = true ->
            call "news_collector" = (Raise e, w))
        /\ (env_set w "OPENAI_API_KEY" = true ->
            call "report_generator" = (Raise e, w))
        /\ call "final_report_generator" = (Raise e, w)
        /\ run World repository_agents w = (Raise e, w)
        /\ Os.is_ValueError e = false)
  /\ (env_set w "SERPER_API_KEY" = false ->
      call "news_collector" = (Raise (missing_key_error "SERPER_API_KEY"), w))
  /\ (env_set w "OPENAI_API_KEY" = false ->
      call "report_generator" = (Raise (missing_key_error "OPENAI_API_KEY"), w)).
Proof.
  intros Hc call. unfold call.
  split; [|split; [|split]].
  - intros c ->.
    assert (Hfirst : forall s,
               Config.get_downloader_config c = None
               \/ Config.get_file_output c = None ->
               stage_call World repository_agents "data_downloader" s w
               = (Raise (ValueError config_error_message), w)).
    { intros s H. stage_of "data_downloader" s. read_config Hc.
      destruct (Config.get_downloader_config c) as [d|]; [|reflexivity].
      destruct H as [H|H]; [discriminate|]. rewrite H. reflexivity. }
    split; [|split; [|split; [|split; [|split; [|split]]]]].
    + intro H. split; [exact (Hfirst st H)|].
      exact (proj1 (run_first_stage_raises World repository_agents w w _
                      (Hfirst [] H))).
    + intro H. stage_of "data_preprocessor" st. read_config Hc.
      rewrite H. reflexivity.
    + intro H. stage_of "metrics_calculator" st. read_config Hc.
      rewrite H. reflexivity.
    + intro H. stage_of "visualizations" st. read_config Hc.
      rewrite H. reflexivity.
    + intros He H. stage_of "news_collector" st.
      rewrite (require_env_set w _ He). read_config Hc.
      rewrite H. reflexivity.
    + intros He H. stage_of "report_generator" st.
      rewrite (require_env_set w _ He). read_config Hc.
      rewrite H. reflexivity.
    + intro H. stage_of "final_report_generator" st. read_config Hc.
      rewrite H. reflexivity.
  - intros message ->. set (e := Exn "TypeError" message).
    assert (Hfirst : forall s,
               stage_call World repository_agents "data_downloader" s w
               = (Raise e, w)).
    { intro s. stage_of "data_downloader" s. read_config Hc. reflexivity. }
    split; [exact (Hfirst st)|].
    split; [stage_of "data_preprocessor" st; read_config Hc; reflexivity|].
    split; [stage_of "metrics_calculator" st; read_config Hc; reflexivity|].
    split; [stage_of "visualizations" st; read_config Hc; reflexivity|].
    split.
    { intro He. stage_of "news_collector" st.
      rewrite (require_env_set w _ He). read_config Hc. reflexivity. }
    split.
    { intro He. stage_of "report_generator" st.
      rewrite (require_env_set w _ He). read_config Hc. reflexivity. }
    split; [stage_of "final_report_generator" st; read_config Hc; reflexivity|].
    split; [|reflexivity].
    exact (proj1 (run_first_stage_raises World repository_agents w w _
                    (Hfirst []))).
  - intro He. stage_of "news_collector" st.
    rewrite (require_env_unset w _ He). reflexivity.
  - intro He. stage_of "report_generator" st.
    rewrite (require_env_unset w _ He). reflexivity.
Qed.

End Construction.

(** ** What the agents of the repository return *)

Section RepositoryResults.

Import StateGraph.
Import FinancialReportWorkflow.

Lemma bind_Ret_inv {S A B : Type} (m : M S A) (k : A -> M S B)
      (s s' : S) (b : B) :
  bind m k s = (Ret b, s') ->
  exists a s1, m s = (Ret a, s1) /\ k a s1 = (Ret b, s').
Proof.
  unfold bind. destruct (m s) as [[a|e] s1]; [eauto | discriminate].
Qed.

Lemma dict_or_None_Some (r : option pydict) (d : pydict) :
  dict_or_None r = Some d -> r = Some d.
Proof.
  destruct r as [d0|]; simpl; [|discriminate].
  destruct (dict_truthy d0); [tauto | discriminate].
Qed.

Lemma path_or_None_Some (key : string) (p : pyval) (d : pydict) :
  path_or_None key p = Some d -> keys d = [key].
Proof.
  destruct p as [p|]; simpl; [|discriminate].
  destruct (str_truthy p); [|discriminate].
  intro H. injection H as <-. reflexivity.
Qed.

(** What an agent that formats the dict of its tool returns. *)
Lemma agent_run_Some {T : Type} (tool_run : T -> M World (option pydict))
      (self : T) (w w' : World) (d : pydict) :
  bind (tool_run self) (fun result => ret (dict_or_None result)) w
  = (Ret (Some d), w') ->
  tool_run self w = (Ret (Some d), w').
Proof.
  intro H. apply bind_Ret_inv in H. destruct H as (r & w1 & Hr & H).
  unfold ret in H. injection H as H <-. apply dict_or_None_Some in H.
  subst r. exact Hr.
Qed.

Lemma try_links_Some (links : list DataDownloaderTool.link_info)
      (dest_folder full_save_path : string) (w w' : World) (d : pydict) :
  DataDownloaderTool.try_links links dest_folder full_save_path w
  = (Ret (Some d), w') ->
  keys d = ["downloaded_file_path"; "metadata_file_path"].
Proof.
  revert w. induction links as [|l links IH]; intros w H; simpl in H.
  - discriminate.
  - apply bind_Ret_inv in H. destruct H as (ok & w1 & _ & H).
    destruct ok; [|exact (IH _ H)].
    apply bind_Ret_inv in H. destruct H as (m & w2 & _ & H).
    unfold ret in H. injection H as <- _. reflexivity.
Qed.

Lemma download_Some (self : DataDownloaderTool.t) (w w' : World) (d : pydict) :
  DataDownloaderTool.run_download_process self w = (Ret (Some d), w') ->
  keys d = ["downloaded_file_path"; "metadata_file_path"].
Proof.
  unfold DataDownloaderTool.run_download_process. intro H.
  apply bind_Ret_inv in H. destruct H as (? & w1 & _ & H).
  apply bind_Ret_inv in H. destruct H as (links & w2 & _ & H).
  exact (try_links_Some _ _ _ _ _ _ H).
Qed.

Lemma preprocess_Some (self : DataPreprocessorTool.t) (w w' : World)
      (d : pydict) :
  DataPreprocessorTool.run_preprocessing_process self w = (Ret (Some d), w') ->
  keys d = ["processed_data_file_path"].
Proof.
  unfold DataPreprocessorTool.run_preprocessing_process. intro H.
  apply bind_Ret_inv in H. destruct H as ([df_raw|] & w1 & _ & H);
    [|discriminate].
  apply bind_Ret_inv in H. destruct H as (df & w2 & _ & H).
  apply bind_Ret_inv in H. destruct H as ([|] & w3 & _ & H); [|discriminate].
  cbn [negb] in H.
  apply bind_Ret_inv in H. destruct H as ([|] & w4 & _ & H); [|discriminate].
  unfold ret in H. injection H as <- _. reflexivity.
Qed.

Lemma metrics_Some (self : MetricsCalculatorTool.t) (w w' : World) (d : pydict) :
  MetricsCalculatorTool.run_metrics_calculation self w = (Ret (Some d), w') ->
  keys d = ["periods_file_path"; "metrics_file_path"].
Proof.
  unfold MetricsCalculatorTool.run_metrics_calculation. intro H.
  apply bind_Ret_inv in H. destruct H as ([df|] & w1 & _ & H); [|discriminate].
  apply bind_Ret_inv in H. destruct H as (w0 & w2 & _ & H).
  apply bind_Ret_inv in H. destruct H as (m & w3 & _ & H).
  apply bind_Ret_inv in H. destruct H as (? & w4 & _ & H).
  apply bind_Ret_inv in H. destruct H as (? & w5 & _ & H).
  apply bind_Ret_inv in H. destruct H as (? & w6 & _ & H).
  unfold ret in H. injection H as <- _. reflexivity.
Qed.

Lemma visualizations_Some (self : VisualizationsTool.t) (w w' : World)
      (d : pydict) :
  VisualizationsTool.run_visualization_process self w = (Ret (Some d), w') ->
  keys d = ["last_30_days_json_file_path"; "last_30_days_plot_file_path";
            "last_12_months_json_file_path"; "last_12_months_plot_file_path"].
Proof.
  unfold VisualizationsTool.run_visualization_process. intro H.
  apply bind_Ret_inv in H. destruct H as (? & w1 & _ & H).
  apply bind_Ret_inv in H. destruct H as (? & w2 & _ & H).
  apply bind_Ret_inv in H. destruct H as (? & w3 & _ & H).
  apply bind_Ret_inv in H. destruct H as ([df|] & w4 & _ & H); [|discriminate].
  apply bind_Ret_inv in H. destruct H as (? & w5 & _ & H).
  apply bind_Ret_inv in H. destruct H as (? & w6 & _ & H).
  unfold ret in H. injection H as <- _. reflexivity.
Qed.

(** What the agents of the repository return when they return a dict. *)
Lemma repository_result_keys (n : string) (st : pydict) (w w' : World)
      (d : pydict) :
  In n chain ->
  stage_call World repository_agents n st w = (Ret (Some d), w') ->
  keys d = output_keys n.
Proof.
  intros Hn H. unfold chain in Hn. simpl in Hn.
  destruct Hn as [<-|[<-|[<-|[<-|[<-|[<-|[<-|[]]]]]]]].
  - change (stage_call World repository_agents "data_downloader" st)
      with (DataDownloaderAgent repository_agents) in H.
    unfold repository_agents, DataDownloaderAgent in H.
    apply bind_Ret_inv in H. destruct H as (agent & w1 & _ & H).
    apply (agent_run_Some DataDownloaderTool.run_download_process) in H.
    exact (download_Some _ _ _ _ H).
  - change (stage_call World repository_agents "data_preprocessor" st)
      with (DataPreprocessorAgent repository_agents
              (dict_get st "downloaded_file_path")) in H.
    unfold repository_agents, DataPreprocessorAgent in H.
    apply bind_Ret_inv in H. destruct H as (agent & w1 & _ & H).
    apply (agent_run_Some DataPreprocessorTool.run_preprocessing_process) in H.
    exact (preprocess_Some _ _ _ _ H).
  - change (stage_call World repository_agents "metrics_calculator" st)
      with (MetricsCalculatorAgent repository_agents
              (dict_get st "processed_data_file_path")) in H.
    unfold repository_agents, MetricsCalculatorAgent in H.
    apply bind_Ret_inv in H. destruct H as (agent & w1 & _ & H).
    apply (agent_run_Some MetricsCalculatorTool.run_metrics_calculation) in H.
    exact (metrics_Some _ _ _ _ H).
  - change (stage_call World repository_agents "visualizations" st)
      with (VisualizationsAgent repository_agents
              (dict_get st "processed_data_file_path")) in H.
    unfold repository_agents, VisualizationsAgent in H.
    apply bind_Ret_inv in H. destruct H as (agent & w1 & _ & H).
    apply (agent_run_Some VisualizationsTool.run_visualization_process) in H.
    exact (visualizations_Some _ _ _ _ H).
  - change (stage_call World repository_agents "news_collector" st)
      with (NewsCollectorAgent repository_agents) in H.
    unfold repository_agents, NewsCollectorAgent in H.
    apply bind_Ret_inv in H. destruct H as (agent & w1 & _ & H).
    apply bind_Ret_inv in H. destruct H as (p & w2 & _ & H).
    unfold ret in H. injection H as H _.
    exact (path_or_None_Some _ _ _ H).
  - change (stage_call World repository_agents "report_generator" st)
      with (ReportGeneratorAgent repository_agents
              (dict_get st "metrics_file_path")
              (dict_get st "last_30_days_json_file_path")
              (dict_get st "last_12_months_json_file_path")
              (dict_get st "news_file_path")) in H.
    unfold repository_agents, ReportGeneratorAgent in H.
    apply bind_Ret_inv in H. destruct H as (agent & w1 & _ & H).
    apply bind_Ret_inv in H. destruct H as (p & w2 & _ & H).
    unfold ret in H. injection H as H _.
    exact (path_or_None_Some _ _ _ H).
  - change (stage_call World repository_agents "final_report_generator" st)
      with (FinalReportGeneratorAgent repository_agents
              (dict_get st "metadata_file_path")
              (dict_get st "periods_file_path")
              (dict_get st "metrics_file_path")
              (dict_get st "report_file_path")
              (dict_get st "last_30_days_plot_file_path")
              (dict_get st "last_12_months_plot_file_path")) in H.
    unfold repository_agents, FinalReportGeneratorAgent in H.
    apply bind_Ret_inv in H. destruct H as (agent & w1 & _ & H).
    apply bind_Ret_inv in H. destruct H as (p & w2 & _ & H).
    unfold ret in H. injection H as H _.
    exact (path_or_None_Some _ _ _ H).
Qed.

Lemma has_key_keys (d : pydict) (k : string) :
  In k (keys d) -> has_key d k = true.
Proof.
  unfold has_key, keys. induction d as [|[k' v] d IH]; simpl; [tauto|].
  destruct (String.eqb_spec k' k) as [->|Hk]; [reflexivity|].
  intros [H|H]; [congruence | exact (IH H)].
Qed.

(** X18. An agent of the repository that returns a dict returns exactly
    the keys its node copies, in the order the node copies them. So a node
    never raises [KeyError]: it returns whenever its agent returns a dict,
    and when it raises, either its agent raised that exception or its
    agent returned [None] and the exception is the [TypeError] of
    subscripting [None]. *)
Theorem repository_nodes_raise_no_KeyError
        (n : string) (b : body World unit) (st : pydict) (w : World) :
  node_body World repository_agents n = Some b ->
  (forall d w', stage_call World repository_agents n st w = (Ret (Some d), w') ->
     keys d = output_keys n
     /\ exists st', b (st, w) = (Ret tt, (st', w')))
  /\ (forall e s', b (st, w) = (Raise e, s') ->
        stage_call World repository_agents n st w = (Raise e, snd s')
        \/ (stage_call World repository_agents n st w = (Ret None, snd s')
            /\ e = TypeError_NoneType)).
Proof.
  intro Hb.
  pose proof (node_body_in_chain World repository_agents n b Hb) as Hn.
  assert (Hok : forall d w',
             stage_call World repository_agents n st w = (Ret (Some d), w') ->
             keys d = output_keys n
             /\ exists st', b (st, w) = (Ret tt, (st', w'))).
  { intros d w' Hc.
    pose proof (repository_result_keys n st w w' d Hn Hc) as Hk.
    split; [exact Hk|].
    rewrite (node_body_shape World repository_agents n b Hb).
    unfold node_shape, bind, call. simpl. rewrite Hc.
    apply copy_keys_total. intros k Hin. apply has_key_keys.
    rewrite Hk. exact Hin. }
  split; [exact Hok|].
  intros e [st' w'] Hr. simpl.
  destruct (stage_call World repository_agents n st w) as [[[d|]|e0] w1] eqn:Hc.
  - destruct (Hok d w1 eq_refl) as [_ [st1 H1]]. congruence.
  - right.
    rewrite (node_agent_None World repository_agents n b st w w1 Hb Hc) in Hr.
    injection Hr as <- _ <-. split; reflexivity.
  - left.
    rewrite (node_agent_raises World repository_agents n b st w w1 e0 Hb Hc) in Hr.
    injection Hr as <- _ <-. reflexivity.
Qed.

End RepositoryResults.

(** ** A run that returns *)

Section Returned.

Import StateGraph.
Import FinancialReportWorkflow.

(** X19. Whatever the agents are, a run that returns went through all
    seven nodes, each entered and left in the order of the chain, and
    returns a state with exactly the twelve keys of [AgentState], in the
    order of the class; each key holds a value that the agent of its
    stage returned under that key. *)
Theorem returned_state_is_complete (W : Type) (agents : Agents W)
        (w w' : W) (final : pydict) :
  run W agents w = (Ret final, w') ->
  keys final = AgentState
  /\ List.length final = 12%nat
  /\ trace W (run_observed W agents w) = completed chain
  /\ (forall n key, In n chain -> In key (output_keys n) ->
        exists d st0 w0 w1 v,
          stage_call W agents n st0 w0 = (Ret (Some d), w1)
          /\ dict_lookup d key = Some v
          /\ dict_lookup final key = Some v).
Proof.
  rewrite run_as_observed. intro H. injection H as Hr _.
  destruct (completed_run_state W agents w final Hr) as [Hkeys Hvals].
  split; [exact Hkeys|]. split; [|split; [|exact Hvals]].
  - rewrite <- (length_map fst). change (map fst final) with (keys final).
    rewrite Hkeys. reflexivity.
  - rewrite run_observed_chain in Hr |- *.
    destruct (run_chain_Ret W AgentState _ _ _ _ Hr) as [Ht _].
    rewrite Ht, map_fst_stages. reflexivity.
Qed.

End Returned.

(** ** The two entry points *)

Section EntryPoints.

Import StateGraph.
Import FinancialReportWorkflow.

Variable W : Type.
Variable agents : Agents W.

(** [main] of [old_main.py] is the loop over the chain from no locals. *)
Lemma pipeline_as_loop :
  OldMain.pipeline W agents = OldMain.stage_loop W agents chain [].
Proof. reflexivity. Qed.

(** An agent is called with what [state.get] returns. *)
Lemma stage_call_agree (n : string) (l1 l2 : pydict) :
  (forall k, dict_get l1 k = dict_get l2 k) ->
  stage_call W agents n l1 = stage_call W agents n l2.
Proof.
  intro H. unfold stage_call. rewrite !H. reflexivity.
Qed.

Lemma print_all_app {A : Type} (vs : list pyval) (K : OldMain.body W A)
      (out : list pyval) (w : W) :
  OldMain.print_all W vs K (out, w) = K ((out ++ vs)%list, w).
Proof.
  revert out. induction vs as [|v vs IH]; intro out; simpl.
  - rewrite app_nil_r. reflexivity.
  - unfold bind, OldMain.print. simpl. rewrite IH, <- app_assoc. reflexivity.
Qed.

(** Copying the keys of a result into [state] and reading them into
    locals succeed together, with the same values, and fail together,
    with the same exception. *)
Lemma copy_then_read {A : Type} (ks : list string) (d : pydict)
      (K : list pyval -> OldMain.body W A) (st : pydict) (w : W)
      (out : list pyval) (wx : W) :
  match copy_keys W (Some d) ks (st, w) with
  | (Ret _, _) =>
      exists vs,
        Forall2 (fun key v => dict_lookup d key = Some v) ks vs
        /\ OldMain.read_keys W (Some d) ks K (out, wx) = K vs (out, wx)
  | (Raise e, _) =>
      OldMain.read_keys W (Some d) ks K (out, wx) = (Raise e, (out, wx))
  end.
Proof.
  revert K st. induction ks as [|key ks IH]; intros K st; simpl.
  - exists []. split; [constructor | reflexivity].
  - unfold bind at 1 3, of_res, dict_getitem.
    destruct (dict_lookup d key) as [v|] eqn:Hv; [|reflexivity].
    unfold bind at 1, state_setitem. cbn [fst snd].
    specialize (IH (fun vs => K (v :: vs)) (dict_setitem st key v)).
    destruct (copy_keys W (Some d) ks (dict_setitem st key v, w))
      as [[u|e] s']; [|exact IH].
    destruct IH as (vs & Hvs & Hr). exists (v :: vs).
    split; [constructor; assumption | exact Hr].
Qed.

Lemma assign_lookup (d : pydict) (ks : list string) (vs : list pyval)
      (l : pydict) (k : string) :
  Forall2 (fun key v => dict_lookup d key = Some v) ks vs ->
  dict_lookup (OldMain.assign l ks vs) k
  = if existsb (String.eqb k) ks then dict_lookup d k else dict_lookup l k.
Proof.
  intro H. revert l. induction H as [|key v ks vs Hv H IH]; intro l; simpl.
  - reflexivity.
  - rewrite IH, dict_lookup_setitem.
    destruct (String.eqb_spec k key) as [->|Hk]; simpl.
    + rewrite String.eqb_refl, Hv. destruct (existsb _ ks); reflexivity.
    + destruct (String.eqb_spec key k) as [E|_]; [congruence|]. reflexivity.
Qed.

Lemma map_Forall2 {X Y : Type} (f : X -> Y) (xs : list X) (ys : list Y) :
  Forall2 (fun x y => f x = y) xs ys -> map f xs = ys.
Proof. induction 1; simpl; congruence. Qed.

Lemma Forall2_values (d : pydict) (f : string -> pyval) (ks : list string)
      (vs : list pyval) :
  Forall2 (fun key v => dict_lookup d key = Some v) ks vs ->
  (forall key, In key ks -> forall v, dict_lookup d key = Some v -> f key = v) ->
  Forall2 (fun key v => f key = v) ks vs.
Proof.
  induction 1 as [|key v ks vs Hv Hvs IH]; intro H; constructor.
  - apply H; [left; reflexivity | exact Hv].
  - apply IH. intros k Hk. apply H. right. exact Hk.
Qed.

(** The loop and the chain of nodes, from locals that hold what the
    state holds. *)
Lemma loop_follows_chain (ns : list (string * NodeFn W)) :
  node_methods W agents ns ->
  NoDup (flat_map output_keys (map fst ns)) ->
  forall (acc locals : pydict) (out : list pyval) (w : W),
    (forall k, dict_get locals k = dict_get (read_channels AgentState acc) k) ->
    let o := run_chain W AgentState ns acc w in
    (forall key, ~ In key (flat_map output_keys (map fst ns)) ->
       dict_lookup (accumulator W o) key = dict_lookup acc key)
    /\ exists j,
         trace W o
         = (completed (firstn j (map fst ns))
            ++ match result W o with
               | Ret _ => []
               | Raise e => [Enter (nth j (map fst ns) "");
                             Abort (nth j (map fst ns) "") e]
               end)%list
         /\ (forall st, result W o = Ret st -> j = List.length ns)
         /\ (forall e, result W o = Raise e -> (j < List.length ns)%nat)
         /\ OldMain.stage_loop W agents (map fst ns) locals (out, w)
            = (match result W o with
               | Ret _ => Ret tt
               | Raise e => Raise e
               end,
               ((out ++ map (dict_get (read_channels AgentState (accumulator W o)))
                            (flat_map output_keys (firstn j (map fst ns))))%list,
                world W o)).
Proof.
  induction ns as [|[n fn] ns IH]; intros Hm Hnd acc locals out w Hag;
    cbn [run_chain map fst flat_map].
  - cbv zeta. cbn [accumulator result trace world]. split; [reflexivity|].
    exists 0%nat. cbn [firstn completed flat_map map app OldMain.stage_loop].
    rewrite app_nil_r. split; [reflexivity|]. split; [reflexivity|].
    split; [discriminate | reflexivity].
  - inversion Hm as [|? ? [b [Hb Hfn]] Hm']; subst.
    cbn [fst snd] in Hb, Hfn. subst fn.
    cbn [map fst flat_map] in Hnd.
    assert (Hnd' : NoDup (flat_map output_keys (map fst ns))).
    { clear - Hnd. induction (output_keys n); simpl in Hnd; [exact Hnd|].
      inversion Hnd; auto. }
    assert (Hsep : forall key, In key (output_keys n) ->
                               ~ In key (flat_map output_keys (map fst ns))).
    { clear - Hnd. induction (output_keys n) as [|a l IHl]; simpl in *; [tauto|].
      inversion Hnd as [|? ? Ha Hl]; subst.
      intros key [<-|Hk] Hin.
      - apply Ha. apply in_or_app. right. exact Hin.
      - exact (IHl Hl key Hk Hin). }
    pose proof (node_body_in_chain W agents n b Hb) as Hn.
    set (st := read_channels AgentState acc) in *.
    (* what the loop does first *)
    cbn [OldMain.stage_loop].
    unfold bind at 1, OldMain.call at 1. cbn [fst snd].
    rewrite (stage_call_agree n locals st Hag).
    (* what the node does *)
    destruct (as_node W b st w) as [[st'|e] w1] eqn:Hnode.
    + (* the node returns *)
      destruct (stage_write W agents n b acc st' w w1 Hb Hnode)
        as (d & Hc & Hin & Hout).
      fold st in Hc. rewrite Hc.
      pose proof (copy_then_read (output_keys n) d
                    (fun vs => OldMain.print_all W vs
                                 (OldMain.stage_loop W agents (map fst ns)
                                    (OldMain.assign locals (output_keys n) vs)))
                    st w1 out w1) as Hcr.
      apply as_node_Ret in Hnode.
      rewrite (node_body_shape W agents n b Hb) in Hnode.
      unfold node_shape, bind, call in Hnode. cbn [fst snd] in Hnode.
      rewrite Hc in Hnode. rewrite Hnode in Hcr.
      destruct Hcr as (vs & Hvs & Hread). rewrite Hread, print_all_app.
      set (acc1 := apply_writes AgentState acc st') in *.
      set (locals1 := OldMain.assign locals (output_keys n) vs).
      assert (Hag1 : forall k, dict_get locals1 k
                               = dict_get (read_channels AgentState acc1) k).
      { intro k. unfold dict_get, locals1.
        rewrite (assign_lookup d _ _ _ _ Hvs), lookup_read_channels.
        destruct (existsb (String.eqb k) (output_keys n)) eqn:Hk.
        - apply existsb_eqb_In in Hk.
          destruct (Hin k Hk) as (v & Hd & Ha).
          pose proof (output_keys_in_schema n k Hn Hk) as Hs.
          apply existsb_eqb_In in Hs. rewrite Hs, Hd, Ha. reflexivity.
        - assert (Hk' : ~ In k (output_keys n))
            by (intro Hi; apply existsb_eqb_In in Hi; congruence).
          rewrite (Hout k Hk').
          specialize (Hag k). unfold dict_get, st in Hag.
          rewrite lookup_read_channels in Hag. exact Hag. }
      destruct (IH Hm' Hnd' acc1 locals1 (out ++ vs)%list w1 Hag1)
        as (Hkeep & j & Ht & Hj & Hlt & Hloop).
      unfold add_events. cbn [result accumulator trace world].
      split.
      * intros key Hkey. rewrite Hkeep.
        -- apply Hout. intro Hi. apply Hkey, in_or_app. left. exact Hi.
        -- intro Hi. apply Hkey, in_or_app. right. exact Hi.
      * exists (S j). cbn [firstn nth flat_map completed].
        split; [|split; [|split]].
        -- rewrite Ht. reflexivity.
        -- intros s Hs. rewrite (Hj s Hs). reflexivity.
        -- intros e Hs. specialize (Hlt e Hs). cbn [List.length]. lia.
        -- rewrite Hloop. f_equal. f_equal. rewrite <- app_assoc. f_equal.
           rewrite map_app. f_equal.
           symmetry. apply map_Forall2.
           clear - Hvs Hin Hkeep Hsep Hn.
           assert (Hall : forall key, In key (output_keys n) ->
                     forall v, dict_lookup d key = Some v ->
                     dict_get
                       (read_channels AgentState
                          (accumulator W (run_chain W AgentState ns acc1 w1))) key
                     = v).
           { intros key Hk v Hv. unfold dict_get.
             rewrite lookup_read_channels.
             pose proof (output_keys_in_schema n key Hn Hk) as Hs.
             apply existsb_eqb_In in Hs. rewrite Hs.
             rewrite (Hkeep key (Hsep key Hk)).
             destruct (Hin key Hk) as (v' & Hd & Ha). rewrite Ha. congruence. }
           exact (Forall2_values d _ _ _ Hvs Hall).
    + (* the node raises *)
      cbn [result accumulator trace world].
      split; [reflexivity|].
      exists 0%nat. cbn [firstn completed flat_map nth map app].
      split; [reflexivity|]. split; [discriminate|].
      split; [intros; cbn [List.length]; lia|].
      rewrite app_nil_r.
      assert (Hb' : b (st, w) = node_shape W agents n (st, w))
        by apply (node_body_shape W agents n b Hb).
      unfold as_node in Hnode. rewrite Hb' in Hnode.
      unfold node_shape, bind, call in Hnode. cbn [fst snd] in Hnode.
      destruct (stage_call W agents n st w) as [[[d|]|e0] w2] eqn:Hc.
      * pose proof (copy_then_read (output_keys n) d
                      (fun vs => OldMain.print_all W vs
                                   (OldMain.stage_loop W agents (map fst ns)
                                      (OldMain.assign locals (output_keys n) vs)))
                      st w2 out w2) as Hcr.
        pose proof (copy_keys_world W (Some d) (output_keys n) st w2) as Hw.
        destruct (copy_keys W (Some d) (output_keys n) (st, w2))
          as [[u|e1] [s2 w3]]; [discriminate|].
        cbn [snd] in Hw. subst w3. injection Hnode as <- <-. exact Hcr.
      * pose proof (node_body_output_keys W agents n b Hb) as Hne.
        rewrite (copy_keys_None W (output_keys n) st w2 Hne) in Hnode.
        injection Hnode as <- <-.
        destruct (output_keys n) as [|k0 ks0]; [congruence|]. reflexivity.
      * injection Hnode as <- <-. reflexivity.
Qed.

(** X20. The earlier entry point [main] of [old_main.py] calls the same
    agents with the same arguments as the graph does, so the two go the
    same way. When [run] returns, [main] has printed the twelve values of
    the final state, stage by stage, and ends in the same world. When
    [run] raises in some node, [main] has printed the values of the
    stages before it and stops there, in the same world: but where [run]
    raises the exception to its caller, [main] logs it and returns,
    unless it is no [Exception] at all. *)
Theorem old_main_follows_the_graph (w : W) :
  let o := run_observed W agents w in
  match result W o with
  | Ret final =>
      trace W o = completed chain
      /\ OldMain.main W agents ([], w)
         = (Ret tt, (stage_values 7 final, world W o))
  | Raise e =>
      exists k,
        (k < 7)%nat
        /\ trace W o
           = (completed (firstn k chain)
              ++ [Enter (nth k chain ""); Abort (nth k chain "") e])%list
        /\ OldMain.main W agents ([], w)
           = ((if Os.is_ValueError e || Os.is_Exception e
               then Ret tt else Raise e),
              (stage_values k (read_channels AgentState (accumulator W o)),
               world W o))
  end.
Proof.
  intro o. unfold o. rewrite run_observed_chain.
  destruct (loop_follows_chain (stages W agents) (node_methods_stages W agents)
              ltac:(rewrite map_fst_stages; exact NoDup_output_keys)
              [] [] [] w ltac:(intro k; reflexivity))
    as (_ & j & Ht & Hj & Hlt & Hloop).
  rewrite map_fst_stages in Ht, Hloop.
  unfold OldMain.main, try_except. rewrite pipeline_as_loop, Hloop.
  destruct (result W (run_chain W AgentState (stages W agents) [] w))
    as [final|e] eqn:Hr.
  - rewrite (Hj final eq_refl) in Ht |- *.
    destruct (run_chain_Ret W AgentState _ _ _ _ Hr) as [_ Hfinal].
    split.
    + rewrite Ht, app_nil_r. reflexivity.
    + rewrite <- Hfinal. reflexivity.
  - exists j. split; [exact (Hlt e eq_refl)|]. split; [exact Ht|].
    destruct (Os.is_ValueError e || Os.is_Exception e); reflexivity.
Qed.

End EntryPoints.

(** ** The news tool *)

Section NewsTool.

Import PyJson.
Import NewsCollection.

Lemma format_items_dicts (items : list (list (string * value))) :
  format_items (map VDict items)
  = Ret (map (fun d => [("titulo", dict_get_default d "title" (VStr "N/A"));
                        ("conteudo", dict_get_default d "snippet" (VStr "N/A"));
                        ("data", dict_get_default d "date" (VStr "N/A"));
                        ("fonte", dict_get_default d "source" (VStr "N/A"))])
             items).
Proof.
  induction items as [|d items IH]; simpl; [reflexivity|].
  rewrite IH. reflexivity.
Qed.

Lemma format_items_not_dict (items : list value) :
  existsb (fun v => negb (is_dict v)) items = true ->
  format_items items = Raise (AttributeError "get").
Proof.
  induction items as [|v items IH]; simpl; [discriminate|].
  destruct v; simpl; try reflexivity.
  intro H. rewrite (IH H). reflexivity.
Qed.

Lemma format_items_length (items : list value)
      (formatted : list (list (string * value))) :
  format_items items = Ret formatted ->
  List.length formatted = List.length items
  /\ Forall (fun noticia => map fst noticia
                            = ["titulo"; "conteudo"; "data"; "fonte"])
            formatted.
Proof.
  revert formatted. induction items as [|v items IH]; intros formatted; simpl.
  - intro H. injection H as <-. split; [reflexivity | constructor].
  - destruct v; simpl; try discriminate.
    destruct (format_items items) as [rest|e]; simpl; [|discriminate].
    intro H. injection H as <-. destruct (IH rest eq_refl) as [Hl Hk].
    split; [simpl; congruence|]. constructor; [reflexivity | exact Hk].
Qed.

(** X21. The formatting of the answer of the search. Without a ["news"]
    entry, or with one that is empty, there is nothing to format. A list
    of dicts gives one item per dict, in the same order, each with the
    four keys [titulo], [conteudo], [data], [fonte] holding the title,
    snippet, date and source of the dict, or ["N/A"] where the dict lacks
    one. A list with an item that is not a dict raises [AttributeError].
    Whatever is returned has as many items as the news, each with exactly
    those four keys. *)
Theorem format_results_cases (results : list (string * value)) :
  (lookup results "news" = None -> _format_results results = Ret [])
  /\ (forall news, lookup results "news" = Some news -> truthy news = false ->
        _format_results results = Ret [])
  /\ (forall items, lookup results "news" = Some (VList (map VDict items)) ->
        _format_results results
        = Ret (map (fun d =>
                      [("titulo", dict_get_default d "title" (VStr "N/A"));
                       ("conteudo", dict_get_default d "snippet" (VStr "N/A"));
                       ("data", dict_get_default d "date" (VStr "N/A"));
                       ("fonte", dict_get_default d "source" (VStr "N/A"))])
                   items))
  /\ (forall items, lookup results "news" = Some (VList items) ->
        existsb (fun v => negb (is_dict v)) items = true ->
        _format_results results = Raise (AttributeError "get"))
  /\ (forall news items formatted,
        lookup results "news" = Some news ->
        truthy news = true ->
        iterate news = Ret items ->
        _format_results results = Ret formatted ->
        List.length formatted = List.length items
        /\ Forall (fun noticia => map fst noticia
                                  = ["titulo"; "conteudo"; "data"; "fonte"])
                  formatted).
Proof.
  unfold _format_results.
  split; [|split; [|split; [|split]]].
  - intros ->. reflexivity.
  - intros news -> ->. reflexivity.
  - intros items ->. destruct items as [|d items]; [reflexivity|].
    cbn [truthy map iterate rbind]. apply (format_items_dicts (d :: items)).
  - intros items -> Hbad. destruct items as [|v items]; [discriminate|].
    cbn [truthy iterate rbind]. exact (format_items_not_dict _ Hbad).
  - intros news items formatted -> -> ->. cbn [rbind].
    apply format_items_length.
Qed.

Section Run.

Variable search : World -> res (list (string * value)).
Variable dumps : list (list (string * value)) -> string.
Variable news_cfg : config.

Local Abbreviation out := (output_dir news_cfg).
Local Abbreviation news_path :=
  (Os.path_join (output_dir news_cfg) (output_filename news_cfg)).

Lemma news_save_metadata (w : World) :
  exists w', _save_metadata news_cfg w = (Ret tt, w')
             /\ forall q, on_disk w q = true -> on_disk w' q = true.
Proof.
  unfold _save_metadata, try_except, bind, Os.ask, Os.write_file, ret.
  destruct (can_write w (Os.path_join out "metadata.json")); cbn.
  - eexists. split; [reflexivity|]. intros q Hq.
    rewrite on_disk_set_disk, Hq. apply orb_true_r.
  - exists w. split; [reflexivity | auto].
Qed.

(** X22. The news tool around the search. A search that raises, or
    answers with an empty dict, or without news, ends in [None] with
    nothing written, and so does a folder that cannot be made or a file
    that cannot be written. When the news are formatted and their file is
    written, the tool returns the path of that file, which holds the
    formatted news, whether or not the metadata could be written. The
    only exceptions that leave the tool are those of the formatting. *)
Theorem news_collection_result (w : World) :
  (forall e, search w = Raise e -> Os.is_Exception e = true ->
     run_collection_process search dumps news_cfg w = (Ret None, w))
  /\ (search w = Ret [] ->
      run_collection_process search dumps news_cfg w = (Ret None, w))
  /\ (forall results,
        search w = Ret results -> results <> [] ->
        match _format_results results with
        | Raise e =>
            run_collection_process search dumps news_cfg w = (Raise e, w)
            /\ agent_run search dumps news_cfg w = (Raise e, w)
        | Ret [] =>
            run_collection_process search dumps news_cfg w = (Ret None, w)
        | Ret formatted =>
            if can_mkdir w out && can_write w news_path
            then
              exists w',
                run_collection_process search dumps news_cfg w
                = (Ret (if str_truthy news_path then Some news_path else None),
                   w')
                /\ In (news_path, FBytes (dumps formatted)) (disk w')
            else
              run_collection_process search dumps news_cfg w = (Ret None, w)
        end).
Proof.
  split; [|split].
  - intros e Hs He.
    unfold run_collection_process, bind, _search_news, try_except.
    rewrite Hs, He. reflexivity.
  - intro Hs.
    unfold run_collection_process, bind, _search_news, try_except.
    rewrite Hs. reflexivity.
  - intros results Hs Hne.
    destruct results as [|r0 results]; [congruence|].
    assert (Hrun : run_collection_process search dumps news_cfg w
                   = bind (of_res (_format_results (r0 :: results)))
                       (fun formatted_news =>
                          match formatted_news with
                          | [] => ret None
                          | _ :: _ =>
                              result <- _save_results dumps news_cfg
                                          formatted_news ;;
                              match result with
                              | Some path =>
                                  if str_truthy path
                                  then _save_metadata news_cfg ;;;
                                       ret (Some path)
                                  else ret None
                              | None => ret None
                              end
                          end) w).
    { unfold run_collection_process, bind at 1, _search_news, try_except.
      rewrite Hs. reflexivity. }
    destruct (_format_results (r0 :: results)) as [[|n ns]|e] eqn:Hf.
    + rewrite Hrun. reflexivity.
    + destruct (can_mkdir w out) eqn:Hd; cbn [andb].
      * destruct (can_write w news_path) eqn:Hw.
        -- set (w1 := set_disk ((news_path, FBytes (dumps (n :: ns))) :: disk w) w).
           destruct (news_save_metadata w1) as (w2 & Hm & Hkeep).
           exists (if str_truthy news_path then w2 else w1).
           rewrite Hrun. unfold bind at 1, of_res.
           unfold bind at 1, _save_results, try_except, bind at 1, Os.makedirs.
           rewrite Hd. unfold bind at 1, Os.write_file at 1. rewrite Hw.
           fold w1. unfold ret at 1.
           destruct (str_truthy news_path) eqn:Hp.
           ++ unfold bind. rewrite Hm. split; [reflexivity|].
              assert (Hin : In (news_path, FBytes (dumps (n :: ns))) (disk w1))
                by (left; reflexivity).
              clear - Hin Hm.
              unfold _save_metadata, try_except, bind, Os.ask, Os.write_file, ret
                in Hm.
              destruct (can_write w1 _); cbn in Hm; injection Hm as <-;
                [right; exact Hin | exact Hin].
           ++ split; [reflexivity | left; reflexivity].
        -- rewrite Hrun. unfold bind at 1, of_res.
           unfold bind at 1, _save_results, try_except, bind at 1, Os.makedirs.
           rewrite Hd. unfold bind at 1, Os.write_file at 1. rewrite Hw.
           reflexivity.
      * rewrite Hrun. unfold bind at 1, of_res.
        unfold bind at 1, _save_results, try_except, bind at 1, Os.makedirs.
        rewrite Hd. reflexivity.
    + assert (H : run_collection_process search dumps news_cfg w = (Raise e, w))
        by (rewrite Hrun; reflexivity).
      split; [exact H|]. unfold agent_run, bind. rewrite H. reflexivity.
Qed.

End Run.

End NewsTool.

(** ** The report tool *)

Section ReportTool.

Import PyStr.
Import ReportGeneration.

Variable read_text : World -> string -> res string.
Variable json_pretty : string -> res string.
Variable chat : World -> string -> res pyval.
Variable report_cfg : config.

Local Abbreviation load := (_load_data_file read_text json_pretty).
Local Abbreviation build := (_build_prompt read_text json_pretty report_cfg).
Local Abbreviation run_report :=
  (run_report_process read_text json_pretty chat report_cfg).
Local Abbreviation report_path :=
  (Os.path_join (output_dir report_cfg) (output_filename report_cfg)).

Lemma load_data_file_world (p : pyval) (is_json : bool) (w : World) :
  snd (load p is_json w) = w.
Proof.
  unfold _load_data_file, try_except, bind, open_read, of_res, ret.
  destruct p as [p|]; simpl.
  - destruct (read_text w p) as [text|e]; simpl.
    + destruct is_json; [|reflexivity].
      destruct (json_pretty text) as [pretty|e]; simpl; [reflexivity|].
      destruct (_ || _); reflexivity.
    + destruct (_ || _); reflexivity.
  - reflexivity.
Qed.

Lemma load_data_file_Ret (p : pyval) (is_json : bool) (w : World) :
  (forall q e, read_text w q = Raise e -> Os.is_Exception e = true) ->
  (forall s e, json_pretty s = Raise e -> Os.is_Exception e = true) ->
  exists r, load p is_json w = (Ret r, w).
Proof.
  intros Hr Hj.
  unfold _load_data_file, try_except, bind, open_read, of_res, ret.
  destruct p as [p|]; simpl.
  - destruct (read_text w p) as [text|e] eqn:E; simpl.
    + destruct is_json; [|eauto].
      destruct (json_pretty text) as [pretty|e] eqn:E'; simpl; [eauto|].
      rewrite (Hj _ _ E'), !orb_true_r. eauto.
    + rewrite (Hr _ _ E), !orb_true_r. eauto.
  - eauto.
Qed.

Lemma build_prompt_world (self : ReportGeneratorTool.t) (w : World) :
  snd (build self w) = w.
Proof.
  unfold _build_prompt.
  unfold bind at 1.
  pose proof (load_data_file_world (Some (prompt_file report_cfg)) false w) as H0.
  destruct (load (Some (prompt_file report_cfg)) false w) as [[[t|]|e] w0];
    simpl in H0; subst w0; try reflexivity.
  destruct (str_truthy t); [|reflexivity]. cbn [negb].
  unfold bind at 1.
  pose proof (load_data_file_world (ReportGeneratorTool.metrics_file_path self)
                true w) as H1.
  destruct (load (ReportGeneratorTool.metrics_file_path self) true w)
    as [[m|e] w1]; simpl in H1; subst w1; [|reflexivity].
  unfold bind at 1.
  pose proof (load_data_file_world
                (ReportGeneratorTool.last_12_months_json_file_path self) true w)
    as H2.
  destruct (load (ReportGeneratorTool.last_12_months_json_file_path self) true w)
    as [[vm|e] w2] eqn:E2; simpl in H2; subst w2; [|reflexivity].
  unfold bind at 1. rewrite E2.
  unfold bind at 1.
  pose proof (load_data_file_world (ReportGeneratorTool.news_file_path self)
                true w) as H3.
  destruct (load (ReportGeneratorTool.news_file_path self) true w)
    as [[n|e] w3]; simpl in H3; subst w3; [|reflexivity].
  destruct m as [m|]; [|reflexivity].
  destruct vm as [vm|]; [|reflexivity].
  destruct n as [n|]; [|reflexivity].
  destruct (_ && _); reflexivity.
Qed.


(** X23. The prompt of the report. The tool never opens the JSON file of
    the last thirty days: the path it was given for it plays no part, and
    the placeholder [json_grafico_dias] is filled with the content of the
    file of the last twelve months, like [json_grafico_meses]. When the
    template and the three files it does read are there and not empty,
    the prompt is the template with the four placeholders replaced one
    after the other, and the world is left as it was. *)
Theorem prompt_never_reads_last_30_days
        (self : ReportGeneratorTool.t) (w : World)
        (template metrics months news : string) :
  load (Some (prompt_file report_cfg)) false w = (Ret (Some template), w) ->
  load (ReportGeneratorTool.metrics_file_path self) true w
  = (Ret (Some metrics), w) ->
  load (ReportGeneratorTool.last_12_months_json_file_path self) true w
  = (Ret (Some months), w) ->
  load (ReportGeneratorTool.news_file_path self) true w = (Ret (Some news), w) ->
  str_truthy template && str_truthy metrics && str_truthy months
  && str_truthy news = true ->
  build self w
  = (Ret (Some
       (str_replace
          (str_replace
             (str_replace
                (str_replace template "json_metricas" metrics)
                "json_grafico_meses" months)
             "json_grafico_dias" months)
          "json_noticias" news)), w)
  /\ forall other,
       build {| ReportGeneratorTool.metrics_file_path :=
                  ReportGeneratorTool.metrics_file_path self;
                ReportGeneratorTool.last_30_days_json_file_path := other;
                ReportGeneratorTool.last_12_months_json_file_path :=
                  ReportGeneratorTool.last_12_months_json_file_path self;
                ReportGeneratorTool.news_file_path :=
                  ReportGeneratorTool.news_file_path self |}
       = build self.
Proof.
  intros Ht Hm Hv Hn Hnz.
  apply andb_true_iff in Hnz. destruct Hnz as [Hnz Hn'].
  apply andb_true_iff in Hnz. destruct Hnz as [Hnz Hv'].
  apply andb_true_iff in Hnz. destruct Hnz as [Ht' Hm'].
  split; [|reflexivity].
  unfold _build_prompt. unfold bind at 1. rewrite Ht, Ht'. cbn [negb].
  unfold bind at 1. rewrite Hm. unfold bind at 1. rewrite Hv.
  unfold bind at 1. rewrite Hv. unfold bind at 1. rewrite Hn.
  rewrite Hm', Hv', Hn'. reflexivity.
Qed.

Lemma report_save_metadata (w : World) :
  exists w', _save_metadata report_cfg w = (Ret tt, w')
             /\ forall x, In x (disk w) -> In x (disk w').
Proof.
  unfold _save_metadata, try_except, bind, Os.ask, Os.write_file, ret.
  destruct (can_write w (Os.path_join (output_dir report_cfg) "metadata.json"));
    cbn.
  - eexists. split; [reflexivity|]. intros x Hx. right. exact Hx.
  - exists w. split; [reflexivity | auto].
Qed.

(** X24. The report tool around the language model. Without a prompt, or
    when the model raises or answers with nothing, or when the report
    cannot be written, the tool returns [None] and writes nothing. When
    the model answers and the report is written, the tool returns the path
    of the report, which holds the answer of the model, whether or not the
    metadata could be written. As long as reading, parsing and the model
    raise nothing but ordinary exceptions, the tool itself never raises. *)
Theorem report_process_result (self : ReportGeneratorTool.t) (w : World) :
  (forall prompt,
     fst (build self w) = Ret prompt -> truthy prompt = false ->
     run_report self w = (Ret None, w))
  /\ (forall prompt answer,
        fst (build self w) = Ret (Some prompt) -> str_truthy prompt = true ->
        (chat w prompt = Ret answer /\ truthy answer = false
         \/ exists e, chat w prompt = Raise e /\ Os.is_Exception e = true) ->
        run_report self w = (Ret None, w))
  /\ (forall prompt answer,
        fst (build self w) = Ret (Some prompt) -> str_truthy prompt = true ->
        chat w prompt = Ret (Some answer) -> str_truthy answer = true ->
        if can_mkdir w (output_dir report_cfg) && can_write w report_path
        then exists w',
               run_report self w
               = (Ret (if str_truthy report_path then Some report_path
                       else None), w')
               /\ In (report_path, FBytes answer) (disk w')
        else run_report self w = (Ret None, w))
  /\ ((forall q e, read_text w q = Raise e -> Os.is_Exception e = true) ->
      (forall s e, json_pretty s = Raise e -> Os.is_Exception e = true) ->
      (forall p e, chat w p = Raise e -> Os.is_Exception e = true) ->
      exists r w', run_report self w = (Ret r, w')).
Proof.
  assert (Hb : forall r, fst (build self w) = r -> build self w = (r, w)).
  { intros r <-. pose proof (build_prompt_world self w) as Hw.
    destruct (build self w) as [r w0]. simpl in *. congruence. }
  assert (Hsave : forall answer,
             bind (_save_report report_cfg answer)
               (fun report_path0 =>
                  if truthy report_path0
                  then _save_metadata report_cfg ;;; ret report_path0
                  else ret None) w
             = (if can_mkdir w (output_dir report_cfg) && can_write w report_path
                then
                  let w1 := set_disk ((report_path, FBytes answer) :: disk w) w in
                  if str_truthy report_path
                  then (Ret (Some report_path),
                        snd (_save_metadata report_cfg w1))
                  else (Ret None, w1)
                else (Ret None, w))).
  { intro answer.
    unfold bind at 1, _save_report, try_except, bind at 1, Os.makedirs.
    destruct (can_mkdir w (output_dir report_cfg)); [|reflexivity].
    unfold bind at 1, Os.write_file at 1.
    destruct (can_write w report_path); [|reflexivity].
    cbn [andb]. unfold ret at 1. cbv zeta. cbn [truthy].
    destruct (str_truthy report_path); [|reflexivity].
    destruct (report_save_metadata
                (set_disk ((report_path, FBytes answer) :: disk w) w))
      as (w2 & Hm & _).
    unfold bind. rewrite Hm. reflexivity. }
  split; [|split; [|split]].
  - intros prompt Hp Hf. unfold run_report_process, bind at 1.
    rewrite (Hb _ Hp), Hf. reflexivity.
  - intros prompt answer Hp Ht Hc. unfold run_report_process, bind at 1.
    rewrite (Hb _ Hp). cbn [truthy]. rewrite Ht.
    unfold bind at 1, _generate_report, try_except.
    destruct Hc as [[Hc Ha]|[e [Hc He]]]; rewrite Hc.
    + rewrite Ha. reflexivity.
    + rewrite He. reflexivity.
  - intros prompt answer Hp Ht Hc Ha.
    assert (Hrun : run_report self w
                   = bind (_save_report report_cfg answer)
                       (fun report_path0 =>
                          if truthy report_path0
                          then _save_metadata report_cfg ;;; ret report_path0
                          else ret None) w).
    { unfold run_report_process, bind at 1.
      rewrite (Hb _ Hp). cbn [truthy]. rewrite Ht.
      unfold bind at 1, _generate_report, try_except. rewrite Hc.
      cbn [truthy]. rewrite Ha. reflexivity. }
    rewrite Hrun, Hsave.
    destruct (can_mkdir w (output_dir report_cfg) && can_write w report_path);
      [|reflexivity].
    cbv zeta. destruct (str_truthy report_path).
    + eexists. split; [reflexivity|].
      destruct (report_save_metadata
                  (set_disk ((report_path, FBytes answer) :: disk w) w))
        as (w2 & Hm & Hkeep).
      rewrite Hm. apply Hkeep. left. reflexivity.
    + eexists. split; [reflexivity|]. left. reflexivity.
  - intros Hr Hj Hc.
    unfold run_report_process, bind at 1.
    assert (Hbuild : exists p, build self w = (Ret p, w)).
    { unfold _build_prompt. unfold bind at 1.
      destruct (load_data_file_Ret (Some (prompt_file report_cfg)) false w Hr Hj)
        as [[t|] ->]; [|eexists; reflexivity].
      destruct (str_truthy t); [|eexists; reflexivity]. cbn [negb].
      unfold bind at 1.
      destruct (load_data_file_Ret (ReportGeneratorTool.metrics_file_path self)
                  true w Hr Hj) as [m ->].
      unfold bind at 1.
      destruct (load_data_file_Ret
                  (ReportGeneratorTool.last_12_months_json_file_path self)
                  true w Hr Hj) as [vm Hvm].
      rewrite Hvm. unfold bind at 1. rewrite Hvm. unfold bind at 1.
      destruct (load_data_file_Ret (ReportGeneratorTool.news_file_path self)
                  true w Hr Hj) as [n ->].
      destruct m as [m|]; [|eexists; reflexivity].
      destruct vm as [vm|]; [|eexists; reflexivity].
      destruct n as [n|]; [|eexists; reflexivity].
      destruct (str_truthy m && str_truthy vm && str_truthy vm && str_truthy n);
        eexists; reflexivity. }
    destruct Hbuild as [p ->].
    destruct (truthy p) eqn:Hp; [|do 2 eexists; reflexivity].
    destruct p as [p|]; [|discriminate].
    unfold bind at 1, _generate_report, try_except.
    destruct (chat w p) as [a|e] eqn:Hch.
    + destruct (truthy a) eqn:Ha; [|do 2 eexists; reflexivity].
      destruct a as [a|]; [|discriminate].
      rewrite Hsave.
      destruct (_ && _); [|do 2 eexists; reflexivity].
      cbv zeta. destruct (str_truthy report_path); do 2 eexists; reflexivity.
    + rewrite (Hc _ _ Hch). cbn. do 2 eexists. reflexivity.
Qed.

End ReportTool.

(** ** The final-report tool *)

Section FinalReportTool.

Import PyJson.
Import PyStr.
Import FinalReport.

Lemma bind_Ret_eq {S A B : Type} (m : M S A) (k : A -> M S B)
      (s s' : S) (a : A) :
  m s = (Ret a, s') -> bind m k s = k a s'.
Proof. unfold bind. intros ->. reflexivity. Qed.

Lemma bind_Raise_eq {S A B : Type} (m : M S A) (k : A -> M S B)
      (s s' : S) (e : exn) :
  m s = (Raise e, s') -> bind m k s = (Raise e, s').
Proof. unfold bind. intros ->. reflexivity. Qed.

Lemma apply_replacements_str (r : list (string * value)) (html : string) :
  forallb (fun kv => is_str (snd kv)) r = true ->
  apply_replacements html r
  = Ret (fold_left (fun h kv => match snd kv with
                                | VStr s => str_replace h (fst kv) s
                                | _ => h
                                end) r html).
Proof.
  revert html. induction r as [|[k v] r IH]; intros html H; simpl in *.
  - reflexivity.
  - apply andb_true_iff in H. destruct H as [Hv Hr].
    destruct v; try discriminate. simpl. apply IH, Hr.
Qed.

Lemma apply_replacements_not_str (r : list (string * value)) (html : string) :
  forallb (fun kv => is_str (snd kv)) r = false ->
  apply_replacements html r = Raise TypeError_replace.
Proof.
  revert html. induction r as [|[k v] r IH]; intros html H; simpl in *.
  - discriminate.
  - destruct v; simpl in *; try reflexivity. apply IH, H.
Qed.

(** X25. The replacements are applied one after the other, in the order
    of the dict, each to the result of the one before. A value that is
    not a [str] stops the loop with a [TypeError], whether or not its
    placeholder occurs in the template: the loop returns exactly when all
    values are strings. *)
Theorem replacements_must_be_strings (r : list (string * value)) (html : string) :
  (forallb (fun kv => is_str (snd kv)) r = true <->
   exists html', apply_replacements html r = Ret html')
  /\ (forallb (fun kv => is_str (snd kv)) r = false <->
      apply_replacements html r = Raise TypeError_replace)
  /\ (forall r1 k s r2,
        r = (r1 ++ (k, VStr s) :: r2)%list ->
        forall h1, apply_replacements html r1 = Ret h1 ->
        apply_replacements html r
        = apply_replacements (str_replace h1 k s) r2).
Proof.
  split; [|split].
  - split.
    + intro H. rewrite (apply_replacements_str r html H). eauto.
    + intros [h Hh].
      destruct (forallb (fun kv => is_str (snd kv)) r) eqn:E; [reflexivity|].
      rewrite (apply_replacements_not_str r html E) in Hh. discriminate.
  - split.
    + apply apply_replacements_not_str.
    + intro Hh.
      destruct (forallb (fun kv => is_str (snd kv)) r) eqn:E; [|reflexivity].
      rewrite (apply_replacements_str r html E) in Hh. discriminate.
  - intros r1 k s r2 -> h1. revert html.
    induction r1 as [|[k1 v1] r1 IH]; intros html H1; simpl in *.
    + injection H1 as <-. reflexivity.
    + destruct (replace_value html k1 v1) as [h|e]; simpl in *; [|discriminate].
      apply IH, H1.
Qed.

Variable read_text : World -> string -> res string.
Variable read_json : World -> string -> res value.
Variable py_str : value -> string.
Variable _gerar_pdf_de_html : string -> M World unit.
Variable paths : list (string * string).

Local Abbreviation replacements_of :=
  (_get_replacements read_text read_json py_str).
Local Abbreviation generate :=
  (run_generation_process read_text read_json py_str _gerar_pdf_de_html paths).

Lemma get_replacements_world (self : FinalReportGeneratorTool.t) (w : World) :
  snd (replacements_of self w) = w.
Proof.
  unfold _get_replacements, bind, _load_json, _read_text, of_res.
  repeat match goal with
         | |- context [match ?p with Some _ => _ | None => _ end] =>
             destruct p; cbn [fst snd]
         | |- context [let (_, _) := (?r, ?w0) in _] => cbn iota
         | |- context [match ?r with Ret _ => _ | Raise _ => _ end] =>
             destruct r; cbn [fst snd]
         end; reflexivity.
Qed.

(** X26. The final-report tool never raises an ordinary exception: every
    failure comes back as [None]. Once the template is read and the
    replacements are collected, the tool writes nothing unless all
    replacements are strings and the output path is configured; it then
    writes the HTML, and returns its path if the PDF step returns. When
    the PDF step raises, the tool returns [None] although the HTML file
    has been written. *)
Theorem final_report_result (self : FinalReportGeneratorTool.t) (w : World)
        (template_path template : string) (r : list (string * value)) :
  path_of paths "template_html" = Ret template_path ->
  read_text w template_path = Ret template ->
  fst (replacements_of self w) = Ret r ->
  (forall e w', generate self w = (Raise e, w') -> Os.is_Exception e = false)
  /\ (forallb (fun kv => is_str (snd kv)) r = false ->
      generate self w = (Ret None, w))
  /\ (forall html output_path,
        apply_replacements template r = Ret html ->
        path_of paths "output_html" = Ret output_path ->
        if can_mkdir w (Os.dirname output_path) && can_write w output_path
        then
          let w1 := set_disk ((output_path, FBytes html) :: disk w) w in
          match _gerar_pdf_de_html html w1 with
          | (Ret _, w2) => generate self w = (Ret (Some output_path), w2)
          | (Raise e, w2) =>
              Os.is_Exception e = true ->
              generate self w = (Ret None, w2)
          end
        else generate self w = (Ret None, w)).
Proof.
  intros Hp Ht Hr.
  assert (Hr' : replacements_of self w = (Ret r, w)).
  { pose proof (get_replacements_world self w) as Hw.
    destruct (replacements_of self w) as [x w0]. simpl in *. congruence. }
  split; [|split].
  - intros e w'. unfold run_generation_process, try_except.
    match goal with |- context [match ?m with (_, _) => _ end] =>
      destruct m as [[a|e0] s0] end.
    + discriminate.
    + destruct (Os.is_FileNotFoundError e0 || is_class "KeyError" e0
                || Os.is_Exception e0) eqn:E.
      * discriminate.
      * intro H. injection H as <- _.
        apply orb_false_iff in E. tauto.
  - intro Hs. unfold run_generation_process, try_except.
    erewrite bind_Ret_eq by (unfold of_res; rewrite Hp; reflexivity).
    erewrite bind_Ret_eq by (unfold _read_text; rewrite Ht; reflexivity).
    erewrite bind_Ret_eq by exact Hr'.
    erewrite bind_Raise_eq
      by (unfold of_res; rewrite (apply_replacements_not_str r template Hs);
          reflexivity).
    reflexivity.
  - intros html output_path Ha Ho.
    unfold run_generation_process, try_except.
    erewrite bind_Ret_eq by (unfold of_res; rewrite Hp; reflexivity).
    erewrite bind_Ret_eq by (unfold _read_text; rewrite Ht; reflexivity).
    erewrite bind_Ret_eq by exact Hr'.
    erewrite bind_Ret_eq by (unfold of_res; rewrite Ha; reflexivity).
    erewrite bind_Ret_eq by (unfold of_res; rewrite Ho; reflexivity).
    unfold _write_text.
    destruct (can_mkdir w (Os.dirname output_path)) eqn:Hd.
    + destruct (can_write w output_path) eqn:Hw; cbn [andb].
      * cbv zeta.
        erewrite bind_Ret_eq
          by (unfold bind, Os.makedirs, Os.write_file; rewrite Hd, Hw;
              reflexivity).
        unfold bind.
        destruct (_gerar_pdf_de_html html
                    (set_disk ((output_path, FBytes html) :: disk w) w))
          as [[u|e] w2].
        -- reflexivity.
        -- intro He. rewrite He, !orb_true_r. reflexivity.
      * erewrite bind_Raise_eq
          by (unfold bind, Os.makedirs, Os.write_file; rewrite Hd, Hw;
              reflexivity).
        reflexivity.
    + cbn [andb].
      erewrite bind_Raise_eq
        by (unfold bind, Os.makedirs; rewrite Hd; reflexivity).
      reflexivity.
Qed.

Lemma setitem_keeps (r : list (string * value)) (k k' : string) (x v : value) :
  k' <> k -> In (k, x) r -> In (k, x) (setitem r k' v).
Proof.
  intros Hk. induction r as [|[k0 v0] r IH]; simpl; [tauto|].
  destruct (String.eqb_spec k0 k') as [->|Hne]; simpl.
  - intros [H|H]; [|right; exact H]. injection H as H _. congruence.
  - intros [H|H]; [left; exact H | right; exact (IH H)].
Qed.

Lemma add_values_keeps (category : string) (values : list (string * value))
      (r : list (string * value)) (k : string) (x : value) :
  ~ In k (map (fun kv => "[" ++ category ++ "." ++ fst kv ++ "]") values) ->
  In (k, x) r ->
  In (k, x) (add_values py_str category values r).
Proof.
  unfold add_values. revert r.
  induction values as [|kv values IH]; intros r Hk Hin; simpl; [exact Hin|].
  apply IH.
  - intro H. apply Hk. right. exact H.
  - apply setitem_keeps; [|exact Hin].
    intro H. apply Hk. left. exact H.
Qed.

Lemma add_document_keeps (d : list (string * value))
      (r r' : list (string * value)) (k : string) (x : value) :
  ~ In k (placeholders (VDict d)) ->
  add_document py_str d r = Ret r' ->
  In (k, x) r -> In (k, x) r'.
Proof.
  revert r. induction d as [|[category values] d IH]; intros r Hk; simpl.
  - intro H. injection H as <-. auto.
  - destruct values as [ | | | | |values]; simpl; try discriminate.
    intros H Hin. apply (IH _ ltac:(intro Hi; apply Hk; simpl; apply in_or_app;
                                    right; exact Hi) H).
    apply add_values_keeps; [|exact Hin].
    intro Hi. apply Hk. simpl. apply in_or_app. left. exact Hi.
Qed.

Lemma add_document_Raise (d : list (string * value)) (r : list (string * value))
      (e : exn) :
  add_document py_str d r = Raise e -> Os.is_Exception e = true.
Proof.
  revert r. induction d as [|[category values] d IH]; intros r; simpl.
  - discriminate.
  - destruct values; simpl; try (intro H; injection H as <-; reflexivity).
    apply IH.
Qed.

(** What [_get_replacements] returns, and what it raises. *)
Lemma get_replacements_cases (self : FinalReportGeneratorTool.t) (w : World) :
  (forall p e, read_text w p = Raise e -> Os.is_Exception e = true) ->
  (forall p e, read_json w p = Raise e -> Os.is_Exception e = true) ->
  match fst (replacements_of self w) with
  | Raise e => Os.is_Exception e = true
  | Ret r =>
      exists pm pp metrics periods update_date date_last_file report_md r1,
        read_json w pm = Ret (VDict metrics)
        /\ read_json w pp = Ret (VDict periods)
        /\ add_document py_str metrics
             [("[raw_auto_metadata.update_date]", update_date);
              ("[raw_auto_metadata.date_last_file]", date_last_file);
              ("[path.report.md]", VStr report_md);
              ("[path.last_12_months.png]",
               of_pyval
                 (FinalReportGeneratorTool.last_12_months_plot_file_path self));
              ("[path.last_30_days.png]",
               of_pyval
                 (FinalReportGeneratorTool.last_30_days_plot_file_path self))]
           = Ret r1
        /\ add_document py_str periods r1 = Ret r
  end.
Proof.
  intros Ht Hj.
  unfold _get_replacements, bind, _load_json, _read_text, of_res.
  destruct (FinalReportGeneratorTool.metadata_file_path self) as [p1|];
    [|reflexivity].
  destruct (read_json w p1) as [metadata|e] eqn:E1; [|exact (Hj _ _ E1)].
  destruct (FinalReportGeneratorTool.metrics_file_path self) as [p2|];
    [|reflexivity].
  destruct (read_json w p2) as [metrics|e] eqn:E2; [|exact (Hj _ _ E2)].
  destruct (FinalReportGeneratorTool.periods_file_path self) as [p3|];
    [|reflexivity].
  destruct (read_json w p3) as [periods|e] eqn:E3; [|exact (Hj _ _ E3)].
  destruct (FinalReportGeneratorTool.report_file_path self) as [p4|];
    [|reflexivity].
  destruct (read_text w p4) as [md|e] eqn:E4; [|exact (Ht _ _ E4)].
  destruct metadata as [ | | | | |metadata]; try reflexivity.
  cbn [get fst snd].
  destruct metrics as [ | | | | |metrics]; try reflexivity.
  cbn [items fst snd].
  match goal with
  | |- context [add_document py_str metrics ?r0] =>
      destruct (add_document py_str metrics r0) as [r1|e] eqn:A1
  end; cbn [fst snd]; [|exact (add_document_Raise _ _ _ A1)].
  destruct periods as [ | | | | |periods]; try reflexivity.
  cbn [items fst snd].
  destruct (add_document py_str periods r1) as [r|e] eqn:A2; cbn [fst snd];
    [|exact (add_document_Raise _ _ _ A2)].
  exists p2, p3, metrics, periods. do 4 eexists.
  split; [exact E2|]. split; [exact E3|]. split; [exact A1 | exact A2].
Qed.

(** The replacements are collected only when the four files are given. *)
Lemma get_replacements_needs_files (self : FinalReportGeneratorTool.t)
      (w : World) (r : list (string * value)) :
  fst (replacements_of self w) = Ret r ->
  FinalReportGeneratorTool.metadata_file_path self <> None
  /\ FinalReportGeneratorTool.metrics_file_path self <> None
  /\ FinalReportGeneratorTool.periods_file_path self <> None
  /\ FinalReportGeneratorTool.report_file_path self <> None.
Proof.
  unfold _get_replacements, bind, _load_json, _read_text, of_res.
  destruct (FinalReportGeneratorTool.metadata_file_path self) as [p1|];
    [|discriminate].
  destruct (read_json w p1) as [metadata|e]; [|discriminate].
  destruct (FinalReportGeneratorTool.metrics_file_path self) as [p2|];
    [|discriminate].
  destruct (read_json w p2) as [metrics|e]; [|discriminate].
  destruct (FinalReportGeneratorTool.periods_file_path self) as [p3|];
    [|discriminate].
  destruct (read_json w p3) as [periods|e]; [|discriminate].
  destruct (FinalReportGeneratorTool.report_file_path self) as [p4|];
    [|discriminate].
  intros _. repeat split; discriminate.
Qed.

(** Without one of the six paths there is no final report: the tool
    returns [None] and writes nothing. *)
Lemma final_report_without_input (self : FinalReportGeneratorTool.t)
      (w : World) :
  (forall p e, read_text w p = Raise e -> Os.is_Exception e = true) ->
  (forall p e, read_json w p = Raise e -> Os.is_Exception e = true) ->
  (forall p doc, read_json w p = Ret doc ->
     ~ In "[path.last_30_days.png]" (placeholders doc)
     /\ ~ In "[path.last_12_months.png]" (placeholders doc)) ->
  FinalReportGeneratorTool.metadata_file_path self = None
  \/ FinalReportGeneratorTool.periods_file_path self = None
  \/ FinalReportGeneratorTool.metrics_file_path self = None
  \/ FinalReportGeneratorTool.report_file_path self = None
  \/ FinalReportGeneratorTool.last_30_days_plot_file_path self = None
  \/ FinalReportGeneratorTool.last_12_months_plot_file_path self = None ->
  generate self w = (Ret None, w).
Proof.
  intros Ht Hj Hdoc Hnone.
  unfold run_generation_process, try_except.
  destruct (path_of paths "template_html") as [tp|e] eqn:Hp.
  2: { erewrite bind_Raise_eq by reflexivity.
       unfold path_of in Hp. destruct (StateGraph.assoc paths "template_html");
         [discriminate|]. injection Hp as <-. reflexivity. }
  erewrite bind_Ret_eq by reflexivity.
  destruct (read_text w tp) as [template|e] eqn:Hr.
  2: { erewrite bind_Raise_eq by (unfold _read_text; rewrite Hr; reflexivity).
       rewrite (Ht _ _ Hr), !orb_true_r. reflexivity. }
  erewrite bind_Ret_eq by (unfold _read_text; rewrite Hr; reflexivity).
  pose proof (get_replacements_cases self w Ht Hj) as Hc.
  pose proof (get_replacements_world self w) as Hw.
  pose proof (get_replacements_needs_files self w) as Hfiles.
  destruct (replacements_of self w) as [[r|e] w0] eqn:Hg;
    cbn [fst snd] in Hc, Hw, Hfiles; subst w0.
  2: { erewrite bind_Raise_eq by exact Hg. rewrite Hc, !orb_true_r.
       reflexivity. }
  erewrite bind_Ret_eq by exact Hg.
  destruct (Hfiles r eq_refl) as (F1 & F2 & F3 & F4).
  assert (Hplot : FinalReportGeneratorTool.last_30_days_plot_file_path self = None
                  \/ FinalReportGeneratorTool.last_12_months_plot_file_path self
                     = None)
    by (destruct Hnone as [H|[H|[H|[H|[H|H]]]]]; try contradiction; auto).
  destruct Hc as (pm & pp & metrics & periods & u & d & md & r1
                  & Hm & Hpd & A1 & A2).
  destruct (Hdoc _ _ Hm) as [Hm30 Hm12].
  destruct (Hdoc _ _ Hpd) as [Hp30 Hp12].
  assert (Hnone' : exists k, In (k, VNone) r).
  { destruct Hplot as [H|H]; rewrite H in A1; cbn [of_pyval] in A1.
    - exists "[path.last_30_days.png]".
      apply (add_document_keeps periods r1 r _ _ Hp30 A2).
      apply (add_document_keeps metrics _ r1 _ _ Hm30 A1).
      simpl. auto 10.
    - exists "[path.last_12_months.png]".
      apply (add_document_keeps periods r1 r _ _ Hp12 A2).
      apply (add_document_keeps metrics _ r1 _ _ Hm12 A1).
      simpl. auto 10. }
  destruct Hnone' as [k Hk].
  assert (Hs : forallb (fun kv => is_str (snd kv)) r = false).
  { destruct (forallb (fun kv => is_str (snd kv)) r) eqn:E; [|reflexivity].
    rewrite forallb_forall in E. specialize (E _ Hk). discriminate. }
  erewrite bind_Raise_eq
    by (unfold of_res; rewrite (apply_replacements_not_str r template Hs);
        reflexivity).
  reflexivity.
Qed.

(** X27. The final report needs both plots. When reading raises nothing
    but ordinary exceptions, and no entry of the metrics or periods
    documents gives rise to the placeholder of a plot, a plot path that is
    [None] makes the tool return [None] with nothing written: the
    replacement of its placeholder is refused, whether or not the
    template holds the placeholder. *)
Theorem final_report_needs_the_plots (self : FinalReportGeneratorTool.t)
        (w : World) :
  (forall p e, read_text w p = Raise e -> Os.is_Exception e = true) ->
  (forall p e, read_json w p = Raise e -> Os.is_Exception e = true) ->
  (forall p doc, read_json w p = Ret doc ->
     ~ In "[path.last_30_days.png]" (placeholders doc)
     /\ ~ In "[path.last_12_months.png]" (placeholders doc)) ->
  FinalReportGeneratorTool.last_30_days_plot_file_path self = None
  \/ FinalReportGeneratorTool.last_12_months_plot_file_path self = None ->
  generate self w = (Ret None, w).
Proof.
  intros Ht Hj Hdoc Hplot.
  apply final_report_without_input; try assumption.
  destruct Hplot as [H|H]; auto 10.
Qed.

End FinalReportTool.

(** ** A stage invoked without a key it uses *)

Section MissingInput.

Import FinancialReportWorkflow.
Import PyJson.

Variable w : World.
Variable cfg : Config.t.
Hypothesis config_loaded : config_file w = Ret (Config.Mapping cfg).








End MissingInput.

Section ToolInstances.

Import FinancialReportWorkflow.






(** A server that answers every request with status 200 and a body that
    cannot be read: the download returns [None]. *)
Lemma download_returns_None_iff_witness :
  fst (DataDownloaderTool.run_download_process Cases.downloader
         Cases.broken_connection) = Ret None.
Proof.
  edestruct (download_returns_None_iff Cases.downloader Cases.broken_connection)
    as [[_ H] _].
  - cbv. reflexivity.
  - cbv. reflexivity.
  - intros u e He. cbv in He. discriminate.
  - intros u r e Hr Hc. cbv in Hr. injection Hr as <-.
    cbv in Hc. injection Hc as <-. reflexivity.
  - cbv. reflexivity.
  - apply H. intros l r body _ Hr _ Hc. cbv in Hr. injection Hr as <-.
    discriminate.
Defined.

(** The server answers, the destination file cannot be written. *)
Lemma download_unwritable_destination_raises_witness :
  _node_data_downloader World repository_agents
    ([], Cases.download_target_readonly)
  = (Raise (OSError "data/raw/srag.csv"), ([], Cases.download_target_readonly)).
Proof.
  edestruct (download_unwritable_destination_raises Cases.downloader_agent
               Cases.download_target_readonly [])
    as (_ & _ & H).
  - cbv. reflexivity.
  - cbv. reflexivity.
  - cbv. reflexivity.
  - cbv. reflexivity.
  - cbv. reflexivity.
  - cbv. reflexivity.
  - exact H.
Defined.

(** The raw file of the example world has the five configured columns. *)
Lemma load_raw_data_cases_witness :
  exists r,
    DataPreprocessorTool._load_raw_data (Some "data/raw/srag.csv")
      ["DT_NOTIFIC"; "EVOLUCAO"; "UTI"; "VACINA"; "VACINA_COV"] Examples.online
    = (Ret r, Examples.online).
Proof.
  destruct (load_raw_data_cases Examples.online "data/raw/srag.csv"
              ["DT_NOTIFIC"; "EVOLUCAO"; "UTI"; "VACINA"; "VACINA_COV"])
    as (r & H & _).
  - intros e He. cbv in He. discriminate.
  - exists r. exact H.
Defined.

(** Of the three rows of the example file, two have a date. *)
Lemma clean_keeps_dated_rows_witness :
  exists out,
    DataPreprocessorTool._clean_and_transform_data Examples.raw_frame
      Examples.online = (Ret out, Examples.online)
    /\ DataFrame.shape0 out = 2.
Proof.
  destruct (clean_keeps_dated_rows Examples.raw_frame Examples.online
              eq_refl eq_refl) as (out & H1 & H2 & _).
  exists out. split; [exact H1 | exact H2].
Defined.

(** A raw file without any notification date. *)
Lemma preprocess_without_dated_rows_returns_None_witness :
  DataPreprocessorTool.run_preprocessing_process
    (Cases.preprocessor (Some "data/raw/srag.csv") ["DT_NOTIFIC"; "EVOLUCAO"])
    Cases.undated
  = (Ret None, Cases.undated).
Proof.
  apply (preprocess_without_dated_rows_returns_None
           (Cases.preprocessor (Some "data/raw/srag.csv") ["DT_NOTIFIC"; "EVOLUCAO"])
           Cases.undated
           (DataFrame.project ["DT_NOTIFIC"; "EVOLUCAO"] Cases.undated_frame)).
  - reflexivity.
  - right. split; [reflexivity|].
    intros r [<-|[<-|[]]]; reflexivity.
Defined.

(** A configuration that keeps only [EVOLUCAO]. *)
Lemma preprocess_without_date_column_raises_witness :
  DataPreprocessorAgent.run
    (Cases.preprocessor_agent (Some "data/raw/srag.csv") ["EVOLUCAO"])
    Examples.online
  = (Raise (KeyError "['DT_NOTIFIC']"), Examples.online).
Proof.
  refine (proj1 (proj2 (preprocess_without_date_column_raises
           (Cases.preprocessor_agent (Some "data/raw/srag.csv") ["EVOLUCAO"])
           Examples.online
           (DataFrame.project ["EVOLUCAO"] Examples.raw_frame) _ _ _)));
    reflexivity.
Defined.

(** The example configuration in the example world. *)
Lemma preprocess_never_raises_witness :
  exists r w',
    DataPreprocessorTool.run_preprocessing_process
      (Cases.preprocessor (Some "data/raw/srag.csv")
         ["DT_NOTIFIC"; "EVOLUCAO"; "UTI"; "VACINA"; "VACINA_COV"])
      Examples.online = (Ret r, w').
Proof.
  apply preprocess_never_raises.
  - simpl. auto.
  - intros p e H. cbn in H. unfold Examples.files in H.
    destruct (String.eqb p "data/raw/srag.csv"); [discriminate|].
    destruct (String.eqb p "data/processed/srag.csv"); [discriminate|].
    injection H as <-. reflexivity.
Defined.

(** The raw frame of the example, recoded under pandas 3. *)
Lemma evolution_recoding_witness :
  exists out,
    DataPreprocessorTool._process_evolution_column Examples.raw_frame
      [(1%float, DataFrame.Str "CURA"); (2%float, DataFrame.Str "OBITO");
       (9%float, DataFrame.Str "IGNORADO")] Cases.pandas_3
    = (Ret out, Cases.pandas_3)
    /\ DataFrame.columns out = DataFrame.columns Examples.raw_frame.
Proof.
  destruct (evolution_recoding Examples.raw_frame Cases.pandas_3 eq_refl)
    as [(out & H1 & H2 & _) _].
  exists out. split; assumption.
Defined.


(** A time half a day before the 30-day window of the example world. *)
Lemma periods_do_not_overlap_witness :
  DataFrame.between
    (MetricsCalculatorTool.last_30_days_start
       (MetricsCalculatorTool.periods_of Examples.online))
    (MetricsCalculatorTool.last_30_days_end
       (MetricsCalculatorTool.periods_of Examples.online))
    (DataFrame.Timestamp (70 * Examples.day - 43200000000))
  || DataFrame.between
       (MetricsCalculatorTool.previous_30_days_start
          (MetricsCalculatorTool.periods_of Examples.online))
       (MetricsCalculatorTool.previous_30_days_end
          (MetricsCalculatorTool.periods_of Examples.online))
       (DataFrame.Timestamp (70 * Examples.day - 43200000000))
  = false.
Proof.
  destruct (periods_do_not_overlap Examples.online DataFrame.NaN
              (70 * Examples.day - 43200000000))
    as (_ & _ & _ & _ & H & _).
  apply H. cbv. split; reflexivity.
Defined.

(** Nothing can be written, and the paths are returned all the same. *)
Lemma metrics_paths_whatever_was_written_witness :
  exists w',
    MetricsCalculatorTool.run_metrics_calculation
      (Cases.calculator (Some "data/processed/srag.csv")) Cases.read_only
    = (Ret (Some [("periods_file_path", Some "data/metrics/periods.json");
                  ("metrics_file_path", Some "data/metrics/metrics.json")]), w')
    /\ on_disk w' "data/metrics/metrics.json" = false.
Proof.
  edestruct (metrics_paths_whatever_was_written
               (Cases.calculator (Some "data/processed/srag.csv"))
               Cases.read_only) as (w' & H1 & H2).
  - cbv. reflexivity.
  - reflexivity.
  - reflexivity.
  - exists w'. split; [exact H1|].
    exact (H2 "metrics.json" ltac:(simpl; auto)).
Defined.

(** A processed file without the vaccination columns, and a world in
    which the output folder cannot be made. *)
Lemma metrics_errors_are_raised_witness :
  MetricsCalculatorAgent.run
    (Cases.calculator_agent (Some "data/processed/srag.csv")) Cases.unvaccinated
  = (Raise (KeyError "VACINA"), Cases.unvaccinated)
  /\ MetricsCalculatorAgent.run
       (Cases.calculator_agent (Some "data/processed/srag.csv")) Cases.no_folders
     = (Raise (OSError "data/metrics"), Cases.no_folders).
Proof.
  split.
  - edestruct (metrics_errors_are_raised
                 (Cases.calculator_agent (Some "data/processed/srag.csv"))
                 Cases.unvaccinated) as [H _].
    + cbv. reflexivity.
    + exact (proj2 (H "VACINA" eq_refl)).
  - edestruct (metrics_errors_are_raised
                 (Cases.calculator_agent (Some "data/processed/srag.csv"))
                 Cases.no_folders) as [_ H].
    + cbv. reflexivity.
    + exact (proj2 (H eq_refl eq_refl)).
Defined.

(** No plot can be saved; only the plots can be saved. *)
Lemma visualization_plots_must_be_saved_witness :
  (exists w',
     VisualizationsAgent.run
       (Cases.visualizer_agent (Some "data/processed/srag.csv")) Cases.no_plots
     = (Raise (OSError "data/viz/last_30_days.png"), w'))
  /\ (exists w',
        VisualizationsTool.run_visualization_process
          (Cases.visualizer (Some "data/processed/srag.csv")) Cases.only_plots
        = (Ret (Some
             [("last_30_days_json_file_path", Some "data/viz/last_30_days.json");
              ("last_30_days_plot_file_path", Some "data/viz/last_30_days.png");
              ("last_12_months_json_file_path",
               Some "data/viz/last_12_months.json");
              ("last_12_months_plot_file_path",
               Some "data/viz/last_12_months.png")]), w')
        /\ on_disk w' "data/viz/last_12_months.png" = true).
Proof.
  split.
  - edestruct (visualization_plots_must_be_saved
                 (Cases.visualizer_agent (Some "data/processed/srag.csv"))
                 Cases.no_plots) as (H & _ & _).
    + reflexivity.
    + cbv. reflexivity.
    + destruct (H eq_refl) as (w' & _ & H2). exists w'. exact H2.
  - edestruct (visualization_plots_must_be_saved
                 (Cases.visualizer_agent (Some "data/processed/srag.csv"))
                 Cases.only_plots) as (_ & _ & H).
    + reflexivity.
    + cbv. reflexivity.
    + destruct (H eq_refl eq_refl) as (w' & H1 & _ & H3). exists w'.
      split; [exact H1 | exact H3].
Defined.

(** Without the configuration file the run raises at once. *)
Lemma no_stage_without_configuration_witness :
  run World repository_agents Cases.unconfigured
  = (Raise (ValueError config_error_message), Cases.unconfigured).
Proof.
  destruct (no_stage_without_configuration Cases.unconfigured
              (FileNotFoundError "conf/parameters.yaml") [] eq_refl)
    as (_ & _ & _ & _ & _ & _ & _ & H & _).
  exact H.
Defined.

(** A configuration file that holds [{}], an empty configuration file,
    and an environment without keys. *)
Lemma stage_needs_its_section_witness :
  run World repository_agents Cases.without_sections
  = (Raise (ValueError config_error_message), Cases.without_sections)
  /\ run World repository_agents Cases.empty_config
     = (Raise TypeError_NoneType, Cases.empty_config)
  /\ stage_call World repository_agents "news_collector" [] Cases.no_keys
     = (Raise (missing_key_error "SERPER_API_KEY"), Cases.no_keys).
Proof.
  split; [|split].
  - edestruct (stage_needs_its_section Cases.without_sections)
      with (st := @nil (string * pyval)) as (H & _).
    + reflexivity.
    + destruct (H Cases.no_sections eq_refl) as (H1 & _).
      exact (proj2 (H1 (or_introl eq_refl))).
  - edestruct (stage_needs_its_section Cases.empty_config)
      with (st := @nil (string * pyval)) as (_ & H & _).
    + reflexivity.
    + destruct (H _ eq_refl) as (_ & _ & _ & _ & _ & _ & _ & H1 & _).
      exact H1.
  - edestruct (stage_needs_its_section Cases.no_keys)
      with (st := @nil (string * pyval)) as (_ & _ & H & _).
    + reflexivity.
    + exact (H eq_refl).
Defined.

(** The news node of the example world returns. *)
Lemma repository_nodes_raise_no_KeyError_witness :
  exists st' w',
    _node_news_collector World repository_agents ([], Examples.online)
    = (Ret tt, (st', w')).
Proof.
  destruct (repository_nodes_raise_no_KeyError "news_collector"
              (_node_news_collector World repository_agents) []
              Examples.online eq_refl) as [H _].
  destruct (H [("news_file_path", Some "data/news/news.json")]
              (snd (stage_call World repository_agents "news_collector" []
                      Examples.online)))
    as [_ [st' H']].
  - vm_compute. reflexivity.
  - exists st'. eexists. exact H'.
Defined.

(** A run of seven stub stages that succeed. *)
Lemma returned_state_is_complete_witness :
  exists final,
    run unit (Examples.dummy_agents unit) tt = (Ret final, tt)
    /\ keys final = AgentState.
Proof.
  eexists. split.
  - vm_compute. reflexivity.
  - eapply (returned_state_is_complete unit (Examples.dummy_agents unit) tt tt).
    vm_compute. reflexivity.
Defined.

End ToolInstances.

Section DetailInstances.

Import PyJson.
Import PyStr.

(** Two news, the second without a date; and news that are not dicts. *)
Lemma format_results_cases_witness :
  NewsCollection._format_results NewsCollection.two_news
  = Ret [[("titulo", VStr "t1"); ("conteudo", VStr "s1");
          ("data", VStr "d1"); ("fonte", VStr "f1")];
         [("titulo", VStr "t2"); ("conteudo", VStr "s2");
          ("data", VStr "N/A"); ("fonte", VStr "f2")]]
  /\ NewsCollection._format_results NewsCollection.bad_news
     = Raise (AttributeError "get").
Proof.
  split.
  - destruct (format_results_cases NewsCollection.two_news)
      as (_ & _ & H & _).
    exact (H [[("title", VStr "t1"); ("snippet", VStr "s1");
               ("date", VStr "d1"); ("source", VStr "f1");
               ("link", VStr "l1")];
              [("title", VStr "t2"); ("snippet", VStr "s2");
               ("source", VStr "f2")]] eq_refl).
  - destruct (format_results_cases NewsCollection.bad_news)
      as (_ & _ & _ & H & _).
    exact (H _ eq_refl eq_refl).
Defined.

(** Two news in a world where nothing can be written. *)
Lemma news_collection_result_witness :
  NewsCollection.run_collection_process
    (fun _ => Ret NewsCollection.two_news) (fun _ => "[...]")
    NewsCollection.example_config Cases.read_only
  = (Ret None, Cases.read_only).
Proof.
  destruct (news_collection_result (fun _ => Ret NewsCollection.two_news)
              (fun _ => "[...]") NewsCollection.example_config Cases.read_only)
    as (_ & _ & H).
  exact (H NewsCollection.two_news eq_refl ltac:(discriminate)).
Defined.

(** The example template: the days are filled with the months. *)
Lemma prompt_never_reads_last_30_days_witness :
  fst (ReportGeneration._build_prompt ReportGeneration.example_files
         (fun s => Ret s) ReportGeneration.example_config
         ReportGeneration.example_tool Examples.online)
  = Ret (Some "m=METRICS, months=MONTHS, days=MONTHS, news=NEWS").
Proof.
  edestruct (prompt_never_reads_last_30_days ReportGeneration.example_files
               (fun s => Ret s) ReportGeneration.example_config
               ReportGeneration.example_tool Examples.online) as [H _].
  - reflexivity.
  - reflexivity.
  - reflexivity.
  - reflexivity.
  - reflexivity.
  - rewrite H. reflexivity.
Defined.

(** The model answers, and the report is written. *)
Lemma report_process_result_witness :
  exists w',
    ReportGeneration.run_report_process ReportGeneration.example_files
      (fun s => Ret s) ReportGeneration.echo ReportGeneration.example_config
      ReportGeneration.example_tool Examples.online
    = (Ret (Some "data/report/report.md"), w')
    /\ In ("data/report/report.md",
           FBytes "m=METRICS, months=MONTHS, days=MONTHS, news=NEWS")
          (disk w').
Proof.
  destruct (report_process_result ReportGeneration.example_files
              (fun s => Ret s) ReportGeneration.echo
              ReportGeneration.example_config ReportGeneration.example_tool
              Examples.online) as (_ & _ & H & _).
  exact (H "m=METRICS, months=MONTHS, days=MONTHS, news=NEWS"
           "m=METRICS, months=MONTHS, days=MONTHS, news=NEWS"
           eq_refl eq_refl eq_refl eq_refl).
Defined.

(** A value that is no string, after one that is. *)
Lemma replacements_must_be_strings_witness :
  FinalReport.apply_replacements "<p>[a]</p>" [("[a]", VStr "x"); ("[b]", VNone)]
  = Raise FinalReport.TypeError_replace.
Proof.
  destruct (replacements_must_be_strings [("[a]", VStr "x"); ("[b]", VNone)]
              "<p>[a]</p>") as (_ & H & _).
  apply H. reflexivity.
Defined.

(** The HTML is written, and the PDF step fails. *)
Lemma final_report_result_witness :
  exists w',
    FinalReport.run_generation_process FinalReport.example_text
      FinalReport.example_json FinalReport.example_str FinalReport.pdf_fails
      FinalReport.example_paths
      (FinalReport.example_tool (Some "data/viz/last_30_days.png"))
      Examples.online
    = (Ret None, w')
    /\ disk w'
       = [("/app/report/final.html",
           FBytes "<h1>2025-01-01 10:00:00</h1><p>12.5</p><img src='data/viz/last_30_days.png'>")].
Proof.
  edestruct (final_report_result FinalReport.example_text
               FinalReport.example_json FinalReport.example_str
               FinalReport.pdf_fails FinalReport.example_paths
               (FinalReport.example_tool (Some "data/viz/last_30_days.png"))
               Examples.online) as (_ & _ & H).
  - reflexivity.
  - reflexivity.
  - reflexivity.
  - eexists. split.
    + exact (H _ _ eq_refl eq_refl eq_refl).
    + reflexivity.
Defined.

(** The same tool without the plot of the last thirty days. *)
Lemma final_report_needs_the_plots_witness :
  FinalReport.run_generation_process FinalReport.example_text
    FinalReport.example_json FinalReport.example_str FinalReport.pdf_ok
    FinalReport.example_paths (FinalReport.example_tool None) Examples.online
  = (Ret None, Examples.online).
Proof.
  apply final_report_needs_the_plots.
  - intros p e H. unfold FinalReport.example_text in H.
    destruct (String.eqb p "/app/conf/template.html"); [discriminate|].
    destruct (String.eqb p "data/report/report.md"); [discriminate|].
    injection H as <-. reflexivity.
  - intros p e H. unfold FinalReport.example_json in H.
    destruct (String.eqb p "data/raw/metadata.json"); [discriminate|].
    destruct (String.eqb p "data/metrics/metrics.json"); [discriminate|].
    destruct (String.eqb p "data/metrics/periods.json"); [discriminate|].
    injection H as <-. reflexivity.
  - intros p doc H. unfold FinalReport.example_json in H.
    destruct (String.eqb p "data/raw/metadata.json");
      [injection H as <-; simpl; tauto|].
    destruct (String.eqb p "data/metrics/metrics.json");
      [injection H as <-; simpl; split; intros [E|[]]; discriminate|].
    destruct (String.eqb p "data/metrics/periods.json");
      [injection H as <-; simpl; split; intros [E|[E|[]]]; discriminate|].
    discriminate.
  - left. reflexivity.
Defined.

End DetailInstances.

Section MoreInstances.

(** The same two rows in the two orders. *)
Lemma metrics_ignore_row_order_witness :
  MetricsCalculatorTool.metrics Cases.death_first (100 * Examples.day)
    (MetricsCalculatorTool.periods_of Examples.online)
  = MetricsCalculatorTool.metrics Cases.death_last (100 * Examples.day)
      (MetricsCalculatorTool.periods_of Examples.online).
Proof.
  apply (metrics_ignore_row_order Cases.death_first Cases.death_last eq_refl).
  apply perm_swap.
Defined.

(** The processed file of the example world. *)
Lemma processed_file_load_cases_witness :
  exists r,
    MetricsCalculatorTool._load_and_preprocess_data
      (Some "data/processed/srag.csv") Examples.online
    = (Ret r, Examples.online).
Proof.
  destruct (processed_file_load_cases Examples.online "data/processed/srag.csv")
    as (_ & r & H & _).
  - intros e He. cbv in He. discriminate.
  - exists r. exact H.
Defined.

(** The week of the notification, which the example file also holds, is
    carried over as it is. *)
Lemma cleaning_touches_only_its_columns_witness :
  exists out g,
    DataPreprocessorTool._clean_and_transform_data Examples.raw_frame
      Examples.online = (Ret out, Examples.online)
    /\ DataFrame.rows out
       = map g (filter (fun r => negb (DataFrame.isna
                                         (DataFrame.row_get r "DT_NOTIFIC")))
                       (DataFrame.rows Examples.raw_frame))
    /\ DataFrame.row_get
         (g [("DT_NOTIFIC", DataFrame.Str "day 98");
             ("EVOLUCAO", DataFrame.Num 2); ("UTI", DataFrame.Num 1);
             ("VACINA", DataFrame.NaN); ("VACINA_COV", DataFrame.Num 1);
             ("SEM_NOT", DataFrame.Num 14)]) "SEM_NOT"
       = DataFrame.Num 14.
Proof.
  destruct (cleaning_touches_only_its_columns Examples.raw_frame Examples.online
              eq_refl eq_refl) as (out & g & H1 & H2 & H3).
  exists out, g. split; [exact H1|]. split; [exact H2|].
  rewrite H3; [reflexivity|].
  simpl. intros [E|[E|[E|[E|[E|[E|[]]]]]]]; discriminate.
Defined.

End MoreInstances.
